(** * Uniform Palace back office: lifecycle operations and conversion workflow

    A shallow embedding of the Mongoose models (Customer, Product, Inquiry,
    Order) and of the Express route handlers that convert an inquiry into a
    customer and delete inquiries and orders, followed by the properties
    established about them.

    Modelling conventions.
    - A JavaScript [Number] is an integer of [Z]; monetary amounts are counted
      in the smallest currency unit.  A field that may be [undefined] is an
      [option]; JavaScript truthiness is written out ([truthyS], [truthyN]).
    - A schema method mutates [this] and ends with [return this.save()].  The
      method is embedded as the function from the document before the call to
      the document after it; persisting is the collection's [save], which runs
      the validators of the schema, and is applied by the caller.
    - Collections are finite maps from [_id] to documents, except the customer
      collection, a list in insertion order, because [findOne({ email })]
      returns the first match.
    - Values read from the environment ([new Date()], a new [_id]) are
      parameters of the operation that reads them.
    - A handler is embedded from the point where the authentication and
      permission middleware has let the request through; it returns what it
      sends and the database it leaves. *)

From Stdlib Require Import ZArith Lia Ascii String DecimalString DecimalN Sorted.
From stdpp Require Import base numbers option list gmap strings.

Local Open Scope Z_scope.

Abbreviation ObjectId := positive.

(** ** JavaScript values *)

Module Js.

(** [!!s] for a string that may be undefined: defined and not empty. *)
Definition truthyS (s : option string) : bool :=
  match s with
  | Some v => negb (String.eqb v "")
  | None => false
  end.

(** [!!n] for a number that may be undefined: defined and not zero. *)
Definition truthyN (n : option Z) : bool :=
  match n with
  | Some v => negb (v =? 0)
  | None => false
  end.

(** [!!x] for an object reference or a Date: defined. *)
Definition truthyO {A} (x : option A) : bool :=
  match x with
  | Some _ => true
  | None => false
  end.

(** [n || 0] *)
Definition orZero (n : option Z) : Z :=
  if truthyN n then default 0 n else 0.

(** [s || d] on strings *)
Definition orStr (s : option string) (d : string) : string :=
  if truthyS s then default d s else d.

(** [a || b] on object references *)
Definition orElse {A} (a b : option A) : option A :=
  match a with
  | Some _ => a
  | None => b
  end.

(** [String(n)] for an integer [n]. *)
Definition numToString (n : Z) : string :=
  if n <? 0
  then "-" +:+ NilEmpty.string_of_uint (N.to_uint (Z.to_N (- n)))
  else NilEmpty.string_of_uint (N.to_uint (Z.to_N n)).

(** The text of an [_id]; ids being modelled by positive numbers, the text
    of that number. *)
Definition idToString (id : positive) : string := numToString (Z.pos id).

Fixpoint replicate_char (n : nat) (c : Ascii.ascii) : string :=
  match n with
  | O => ""
  | S k => String c (replicate_char k c)
  end.

(** [s.padStart(targetLength, c)] for a one-character filler [c]. *)
Definition padStart (targetLength : nat) (c : Ascii.ascii) (s : string) : string :=
  replicate_char (targetLength - String.length s) c +:+ s.

(** [Number(s)] restricted to strings of decimal digits. *)
Definition parseDigits (s : string) : option Z :=
  (fun d => Z.of_N (N.of_uint d)) <$> NilEmpty.uint_of_string s.

End Js.

(** ** Persistence results and HTTP responses *)

(** Outcome of [doc.save()]: the stored document, or the path whose
    validator or unique index rejected it; then the promise rejects and the
    [catch] block of the handler answers. *)
Inductive SaveResult (A : Type) : Type :=
  | Saved (doc : A)
  | Rejected (path : string).
Arguments Saved {A} doc.
Arguments Rejected {A} path.

(** What a handler sends: [res.status(code).json({ success, message })];
    [res.json] alone is status 200. *)
Record Response := mkResponse {
  statusCode : Z;
  success : bool;
  message : string
}.

#[global] Instance Response_eq_dec : EqDecision Response.
Proof. solve_decision. Defined.

(** ** Dates *)

(** A local calendar time: year, zero-based month as [getMonth] returns it,
    and the milliseconds elapsed since the start of that month. *)
Module Date.

Record t := mk { year : Z; month : Z; msInMonth : Z }.

#[global] Instance eq_dec : EqDecision t.
Proof. solve_decision. Defined.

Definition getFullYear (d : t) : Z := year d.
Definition getMonth (d : t) : Z := month d.

(** [new Date(y, m, 1)]: midnight on the first of the month; a month index
    outside 0..11 carries into the year. *)
Definition firstOfMonth (y m : Z) : t :=
  mk (y + m / 12) (m mod 12) 0.

(** Chronological order, [$gte] and [$lt] of a query on a date field. *)
Definition ltb (a b : t) : bool :=
  (year a <? year b)
  || ((year a =? year b)
      && ((month a <? month b)
          || ((month a =? month b) && (msInMonth a <? msInMonth b)))).

Definition geb (a b : t) : bool := negb (ltb a b).

(** A date a clock can show. *)
Definition wf (d : t) : Prop :=
  0 <= month d <= 11 /\ 0 <= msInMonth d.

End Date.

(** ** Product model *)

(** Of [productSchema], the paths the stock operations read or write and the
    ones that identify the product. *)
Module Product.

Record t := mk {
  name : string;
  code : string;
  basePrice : Z;
  stockQuantity : Z;
  reorderLevel : Z
}.

Definition with_stockQuantity (p : t) (q : Z) : t :=
  mk (name p) (code p) (basePrice p) q (reorderLevel p).

(** [productSchema.methods.updateStock] *)
Definition updateStock (this : t) (quantity : Z) (operation : string) : t :=
  if String.eqb operation "decrease" then
    with_stockQuantity this (Z.max 0 (stockQuantity this - quantity))
  else if String.eqb operation "increase" then
    with_stockQuantity this (stockQuantity this + quantity)
  else this.

(** Validators of the schema on the paths a stock update touches:
    [stockQuantity: { min: 0 }]. *)
Definition save (this : t) : SaveResult t :=
  if stockQuantity this <? 0 then Rejected "stockQuantity"
  else Saved this.

(** [await product.updateStock(quantity, operation)] on a product loaded by
    [Product.findById(id)]: the collection after the call.  A rejected save
    throws and leaves the stored document as it was. *)
Definition updateStockById (products : gmap positive t)
    (id : ObjectId) (quantity : Z) (operation : string) : gmap positive t :=
  match products !! id with
  | Some product =>
      match save (updateStock product quantity operation) with
      | Saved doc => <[id := doc]> products
      | Rejected _ => products
      end
  | None => products
  end.

(** A sequence of calls on one document held in memory. *)
Definition updateStockSeq (this : t) (calls : list (Z * string)) : t :=
  fold_left (fun p c => updateStock p (fst c) (snd c)) calls this.

(** A sequence of requests on the stored product [id], each loading the
    product, calling [updateStock] and saving. *)
Definition updateStockByIdSeq (products : gmap positive t) (id : ObjectId)
    (calls : list (Z * string)) : gmap positive t :=
  fold_left (fun ps c => updateStockById ps id (fst c) (snd c)) calls products.

End Product.

(** ** Order model *)

(** Of [orderSchema], the line items, the amounts, the payment paths and the
    status; delivery, timeline, notes, history and quality-check paths are
    touched by none of the operations below and are left out. *)
Module Order.

(** The fields a caller passes to [addItem]. *)
Record ItemData := mkItemData {
  d_product : ObjectId;
  d_productName : option string;
  d_productCode : option string;
  d_quantity : Z;
  d_unitPrice : Z;
  d_notes : option string
}.

Record Item := mkItem {
  product : ObjectId;
  productName : option string;
  productCode : option string;
  quantity : Z;
  unitPrice : Z;
  totalPrice : Z;
  itemNotes : option string
}.

Record t := mk {
  orderNumber : string;
  status : string;
  customer : ObjectId;
  items : option (list Item);
  subtotal : Z;
  tax : option Z;
  discount : option Z;
  shippingCost : option Z;
  totalAmount : Z;
  paymentStatus : string;
  paymentMethod : string;
  paidAmount : Z
}.

Definition with_items (o : t) (v : option (list Item)) : t :=
  mk (orderNumber o) (status o) (customer o) v (subtotal o) (tax o)
     (discount o) (shippingCost o) (totalAmount o) (paymentStatus o)
     (paymentMethod o) (paidAmount o).

Definition with_totals (o : t) (sub total : Z) : t :=
  mk (orderNumber o) (status o) (customer o) (items o) sub (tax o)
     (discount o) (shippingCost o) total (paymentStatus o)
     (paymentMethod o) (paidAmount o).

Definition with_paidAmount (o : t) (v : Z) : t :=
  mk (orderNumber o) (status o) (customer o) (items o) (subtotal o) (tax o)
     (discount o) (shippingCost o) (totalAmount o) (paymentStatus o)
     (paymentMethod o) v.

Definition with_paymentStatus (o : t) (v : string) : t :=
  mk (orderNumber o) (status o) (customer o) (items o) (subtotal o) (tax o)
     (discount o) (shippingCost o) (totalAmount o) v
     (paymentMethod o) (paidAmount o).


(** The sum of a list of amounts. *)
Definition sumZ (l : list Z) : Z := foldr Z.add 0 l.

(** [orderSchema.methods.calculateTotals] *)
Definition calculateTotals (this : t) : t :=
  let sub :=
    match items this with
    | None => 0
    | Some l => fold_left (fun sum item => sum + totalPrice item) l 0
    end in
  with_totals this sub
    (sub + Js.orZero (tax this) + Js.orZero (shippingCost this)
     - Js.orZero (discount this)).

(** [{ ...itemData, totalPrice: itemData.quantity * itemData.unitPrice }] *)
Definition makeItem (itemData : ItemData) : Item :=
  mkItem (d_product itemData) (d_productName itemData)
         (d_productCode itemData) (d_quantity itemData)
         (d_unitPrice itemData)
         (d_quantity itemData * d_unitPrice itemData)
         (d_notes itemData).

(** [orderSchema.methods.addItem] *)
Definition addItem (this : t) (itemData : ItemData) : t :=
  let this1 :=
    match items this with
    | None => with_items this (Some [])
    | Some _ => this
    end in
  let this2 :=
    with_items this1 (Some (default [] (items this1) ++ [makeItem itemData])) in
  calculateTotals this2.

(** [orderSchema.methods.updatePayment] *)
Definition updatePayment (this : t) (amount : Z) : t :=
  let this1 := with_paidAmount this (paidAmount this + amount) in
  if totalAmount this1 <=? paidAmount this1 then
    with_paymentStatus this1 "paid"
  else if 0 <? paidAmount this1 then
    with_paymentStatus this1 "partial"
  else this1.


End Order.

(** ** Addresses *)

Module Address.

Record t := mk {
  street : option string;
  city : option string;
  state : option string;
  pincode : option string;
  country : option string
}.

#[global] Instance eq_dec : EqDecision t.
Proof. solve_decision. Defined.

(** [{}] as the plain object the handlers write. *)
Definition empty : t := mk None None None None None.

(** Casting an object into the nested [address] path of a schema applies
    [country: { default: 'India' }]. *)
Definition withDefaults (a : t) : t :=
  mk (street a) (city a) (state a) (pincode a)
     (match country a with
      | Some c => Some c
      | None => Some "India"
      end).

End Address.

(** ** Customer model *)

(** Of [customerSchema], the paths the conversion of an inquiry reads or
    writes; contact preferences, financial paths, statistics and the
    communication list are left out. *)
Module Customer.

Record Note := mkNote {
  content : string;
  createdBy : ObjectId;
  createdAt : Date.t
}.

Record t := mk {
  _id : ObjectId;
  name : string;
  email : string;
  phone : option string;
  company : option string;
  address : option Address.t;
  businessType : option string;
  industry : option string;
  employeeCount : option Z;
  status : string;
  source : string;
  notes : list Note;
  tags : list string;
  assignedTo : option ObjectId;
  lastContact : option Date.t
}.

Definition businessTypes : list string :=
  ["school"; "college"; "hotel"; "hospital"; "corporate"; "industrial";
   "individual"; "other"].

Definition statuses : list string :=
  ["prospect"; "active"; "inactive"; "lead"].

Definition sources : list string :=
  ["website"; "referral"; "cold-call"; "social-media"; "advertisement";
   "other"].

Definition with_notes (c : t) (v : list Note) : t :=
  mk (_id c) (name c) (email c) (phone c) (company c) (address c)
     (businessType c) (industry c) (employeeCount c) (status c) (source c)
     v (tags c) (assignedTo c) (lastContact c).

(** [customerSchema.methods.addNote] *)
Definition addNote (this : t) (content : string) (userId : ObjectId)
    (now : Date.t) : t :=
  with_notes this (notes this ++ [mkNote content userId now]).

(** The validators of [customerSchema]: the path that fails, if any. *)
Definition validate (c : t) : option string :=
  if String.eqb (name c) "" then Some "name"
  else if String.eqb (email c) "" then Some "email"
  else if negb (Js.truthyS (businessType c)) then Some "businessType"
  else if negb (bool_decide (default "" (businessType c) ∈ businessTypes))
       then Some "businessType"
  else if match employeeCount c with
          | Some n => n <? 1
          | None => false
          end then Some "employeeCount"
  else if negb (bool_decide (status c ∈ statuses)) then Some "status"
  else if negb (bool_decide (source c ∈ sources)) then Some "source"
  else None.

(** [Customer.findOne({ email })] *)
Definition findOneByEmail (customers : list t) (e : string) : option t :=
  List.find (fun c => String.eqb (email c) e) customers.

(** Writing a document back: the stored document with the same [_id] is
    replaced, a new document is appended. *)
Fixpoint upsert (c : t) (customers : list t) : list t :=
  match customers with
  | [] => [c]
  | x :: rest =>
      if Pos.eqb (_id x) (_id c) then c :: rest else x :: upsert c rest
  end.

(** [await customer.save()] *)
Definition save (customers : list t) (c : t) : SaveResult (list t) :=
  match validate c with
  | Some path => Rejected path
  | None => Saved (upsert c customers)
  end.

End Customer.

(** ** Inquiry model *)

(** Of [inquirySchema], every path the methods and the inquiry handlers read
    or write; [quantity], [preferredDeliveryDate], [urgency], [campaign],
    [referrer] and the parts of [requirements] other than the description
    are carried along by them untouched and are left out. *)
Module Inquiry.

Record Communication := mkCommunication {
  c_type : string;
  c_subject : string;
  c_content : string;
  c_direction : string;
  c_date : Date.t;
  c_outcome : string;
  c_nextAction : string;
  c_createdBy : ObjectId
}.

(** The [commData] argument of [addCommunication]. *)
Record CommData := mkCommData {
  d_type : string;
  d_subject : string;
  d_content : string;
  d_direction : string;
  d_outcome : string;
  d_nextAction : string
}.

Record Note := mkNote {
  content : string;
  createdBy : ObjectId;
  isInternal : bool;
  createdAt : Date.t
}.

Record ConvertedTo := mkConvertedTo {
  order : option ObjectId;
  customer : option ObjectId;
  conversionDate : option Date.t;
  conversionValue : option Z
}.

Record t := mk {
  inquiryNumber : string;
  status : string;
  priority : string;
  customerName : string;
  email : string;
  phone : option string;
  company : option string;
  address : option Address.t;
  businessType : option string;
  industry : option string;
  employeeCount : option Z;
  uniformType : string;
  requirementsDescription : option string;
  source : option string;
  communications : list Communication;
  lastContact : option Date.t;
  nextFollowUp : option Date.t;
  followUpNotes : option string;
  assignedTo : option ObjectId;
  assignedDate : option Date.t;
  convertedTo : ConvertedTo;
  notes : list Note;
  tags : list string;
  category : string;
  inquiryDate : Date.t;
  firstResponseTime : option Date.t;
  resolutionTime : option Date.t
}.

Definition statuses : list string :=
  ["new"; "contacted"; "quoted"; "converted"; "lost"; "closed"].

Definition priorities : list string := ["low"; "normal"; "high"; "urgent"].

Definition categories : list string := ["hot-lead"; "warm-lead"; "cold-lead"].

Definition businessTypes : list string :=
  ["school"; "college"; "hotel"; "hospital"; "corporate"; "industrial";
   "individual"; "other"].

Definition uniformTypes : list string :=
  ["school"; "college"; "hotel"; "hospital"; "corporate"; "industrial";
   "security"; "fashion"; "other"].

Definition sources : list string :=
  ["website"; "phone"; "email"; "walk-in"; "referral"; "social-media";
   "advertisement"; "other"].

(** Assignments to the paths the methods and handlers write. *)
Definition with_status (i : t) (v : string) : t :=
  mk (inquiryNumber i) v (priority i) (customerName i) (email i) (phone i)
     (company i) (address i) (businessType i) (industry i) (employeeCount i)
     (uniformType i) (requirementsDescription i) (source i)
     (communications i) (lastContact i) (nextFollowUp i) (followUpNotes i)
     (assignedTo i) (assignedDate i) (convertedTo i) (notes i) (tags i)
     (category i) (inquiryDate i) (firstResponseTime i) (resolutionTime i).

Definition with_labels (i : t) (p : string) (tg : list string) (c : string) : t :=
  mk (inquiryNumber i) (status i) p (customerName i) (email i) (phone i)
     (company i) (address i) (businessType i) (industry i) (employeeCount i)
     (uniformType i) (requirementsDescription i) (source i)
     (communications i) (lastContact i) (nextFollowUp i) (followUpNotes i)
     (assignedTo i) (assignedDate i) (convertedTo i) (notes i) tg
     c (inquiryDate i) (firstResponseTime i) (resolutionTime i).

Definition with_communications (i : t) (v : list Communication) : t :=
  mk (inquiryNumber i) (status i) (priority i) (customerName i) (email i)
     (phone i) (company i) (address i) (businessType i) (industry i)
     (employeeCount i) (uniformType i) (requirementsDescription i) (source i)
     v (lastContact i) (nextFollowUp i) (followUpNotes i)
     (assignedTo i) (assignedDate i) (convertedTo i) (notes i) (tags i)
     (category i) (inquiryDate i) (firstResponseTime i) (resolutionTime i).

Definition with_lastContact (i : t) (v : option Date.t) : t :=
  mk (inquiryNumber i) (status i) (priority i) (customerName i) (email i)
     (phone i) (company i) (address i) (businessType i) (industry i)
     (employeeCount i) (uniformType i) (requirementsDescription i) (source i)
     (communications i) v (nextFollowUp i) (followUpNotes i)
     (assignedTo i) (assignedDate i) (convertedTo i) (notes i) (tags i)
     (category i) (inquiryDate i) (firstResponseTime i) (resolutionTime i).

Definition with_followUp (i : t) (d : option Date.t) (n : option string) : t :=
  mk (inquiryNumber i) (status i) (priority i) (customerName i) (email i)
     (phone i) (company i) (address i) (businessType i) (industry i)
     (employeeCount i) (uniformType i) (requirementsDescription i) (source i)
     (communications i) (lastContact i) d n
     (assignedTo i) (assignedDate i) (convertedTo i) (notes i) (tags i)
     (category i) (inquiryDate i) (firstResponseTime i) (resolutionTime i).

Definition with_assignedTo (i : t) (v : option ObjectId) : t :=
  mk (inquiryNumber i) (status i) (priority i) (customerName i) (email i)
     (phone i) (company i) (address i) (businessType i) (industry i)
     (employeeCount i) (uniformType i) (requirementsDescription i) (source i)
     (communications i) (lastContact i) (nextFollowUp i) (followUpNotes i)
     v (assignedDate i) (convertedTo i) (notes i) (tags i)
     (category i) (inquiryDate i) (firstResponseTime i) (resolutionTime i).

Definition with_assignedDate (i : t) (v : option Date.t) : t :=
  mk (inquiryNumber i) (status i) (priority i) (customerName i) (email i)
     (phone i) (company i) (address i) (businessType i) (industry i)
     (employeeCount i) (uniformType i) (requirementsDescription i) (source i)
     (communications i) (lastContact i) (nextFollowUp i) (followUpNotes i)
     (assignedTo i) v (convertedTo i) (notes i) (tags i)
     (category i) (inquiryDate i) (firstResponseTime i) (resolutionTime i).

Definition with_convertedTo (i : t) (v : ConvertedTo) : t :=
  mk (inquiryNumber i) (status i) (priority i) (customerName i) (email i)
     (phone i) (company i) (address i) (businessType i) (industry i)
     (employeeCount i) (uniformType i) (requirementsDescription i) (source i)
     (communications i) (lastContact i) (nextFollowUp i) (followUpNotes i)
     (assignedTo i) (assignedDate i) v (notes i) (tags i)
     (category i) (inquiryDate i) (firstResponseTime i) (resolutionTime i).

Definition with_notes (i : t) (v : list Note) : t :=
  mk (inquiryNumber i) (status i) (priority i) (customerName i) (email i)
     (phone i) (company i) (address i) (businessType i) (industry i)
     (employeeCount i) (uniformType i) (requirementsDescription i) (source i)
     (communications i) (lastContact i) (nextFollowUp i) (followUpNotes i)
     (assignedTo i) (assignedDate i) (convertedTo i) v (tags i)
     (category i) (inquiryDate i) (firstResponseTime i) (resolutionTime i).

Definition with_firstResponseTime (i : t) (v : option Date.t) : t :=
  mk (inquiryNumber i) (status i) (priority i) (customerName i) (email i)
     (phone i) (company i) (address i) (businessType i) (industry i)
     (employeeCount i) (uniformType i) (requirementsDescription i) (source i)
     (communications i) (lastContact i) (nextFollowUp i) (followUpNotes i)
     (assignedTo i) (assignedDate i) (convertedTo i) (notes i) (tags i)
     (category i) (inquiryDate i) v (resolutionTime i).

Definition with_resolutionTime (i : t) (v : option Date.t) : t :=
  mk (inquiryNumber i) (status i) (priority i) (customerName i) (email i)
     (phone i) (company i) (address i) (businessType i) (industry i)
     (employeeCount i) (uniformType i) (requirementsDescription i) (source i)
     (communications i) (lastContact i) (nextFollowUp i) (followUpNotes i)
     (assignedTo i) (assignedDate i) (convertedTo i) (notes i) (tags i)
     (category i) (inquiryDate i) (firstResponseTime i) v.

Definition with_conversionDate (c : ConvertedTo) (v : option Date.t) : ConvertedTo :=
  mkConvertedTo (order c) (customer c) v (conversionValue c).

(** [inquirySchema.methods.addCommunication] *)
Definition addCommunication (this : t) (commData : CommData)
    (userId : ObjectId) (now : Date.t) : t :=
  let communication :=
    mkCommunication (d_type commData) (d_subject commData)
      (d_content commData) (d_direction commData) now
      (d_outcome commData) (d_nextAction commData) userId in
  let this1 :=
    with_communications this (communications this ++ [communication]) in
  let this2 := with_lastContact this1 (Some now) in
  if String.eqb (d_direction commData) "outbound"
     && negb (Js.truthyO (firstResponseTime this2))
  then with_firstResponseTime this2 (Some now)
  else this2.

(** [inquirySchema.methods.addNote] *)
Definition addNote (this : t) (content : string) (userId : ObjectId)
    (isInternal : bool) (now : Date.t) : t :=
  with_notes this (notes this ++ [mkNote content userId isInternal now]).

(** [inquirySchema.methods.updateStatus] *)
Definition updateStatus (this : t) (newStatus : string) (userId : ObjectId)
    (notes : string) (now : Date.t) : t :=
  let this1 := with_status this newStatus in
  let this2 :=
    if String.eqb newStatus "converted"
       && negb (Js.truthyO (conversionDate (convertedTo this1)))
    then
      with_resolutionTime
        (with_convertedTo this1
           (with_conversionDate (convertedTo this1) (Some now)))
        (Some now)
    else this1 in
  if negb (String.eqb notes "") then
    addNote this2 ("Status changed to " +:+ newStatus +:+ ": " +:+ notes)
      userId true now
  else this2.

(** [inquirySchema.methods.assignTo] *)
Definition assignTo (this : t) (userId : ObjectId) (notes : string)
    (now : Date.t) : t :=
  let this1 := with_assignedDate (with_assignedTo this (Some userId)) (Some now) in
  if negb (String.eqb notes "") then
    addNote this1 ("Assigned to user: " +:+ notes) userId true now
  else this1.

(** [inquirySchema.methods.scheduleFollowUp] *)
Definition scheduleFollowUp (this : t) (date : Date.t) (notes : string) : t :=
  with_followUp this (Some date) (Some notes).

(** [inquirySchema.methods.convertToCustomer] *)
Definition convertToCustomer (this : t) (customerId : ObjectId)
    (orderId : option ObjectId) (conversionValue : Z) (now : Date.t) : t :=
  let this1 := with_status this "converted" in
  let this2 :=
    with_convertedTo this1
      (mkConvertedTo orderId (Some customerId) (Some now)
         (Some conversionValue)) in
  with_resolutionTime this2 (Some now).

(** The calls a caller can make on an inquiry document. *)
Inductive MethodCall :=
  | CallAddCommunication (commData : CommData) (userId : ObjectId)
  | CallAddNote (content : string) (userId : ObjectId) (isInternal : bool)
  | CallUpdateStatus (newStatus : string) (userId : ObjectId) (notes : string)
  | CallAssignTo (userId : ObjectId) (notes : string)
  | CallScheduleFollowUp (date : Date.t) (notes : string)
  | CallConvertToCustomer (customerId : ObjectId) (orderId : option ObjectId)
      (conversionValue : Z).

Definition call (this : t) (m : MethodCall) (now : Date.t) : t :=
  match m with
  | CallAddCommunication commData userId =>
      addCommunication this commData userId now
  | CallAddNote content userId isInternal =>
      addNote this content userId isInternal now
  | CallUpdateStatus newStatus userId notes =>
      updateStatus this newStatus userId notes now
  | CallAssignTo userId notes => assignTo this userId notes now
  | CallScheduleFollowUp date notes => scheduleFollowUp this date notes
  | CallConvertToCustomer customerId orderId conversionValue =>
      convertToCustomer this customerId orderId conversionValue now
  end.

(** The filter of the count in [generateInquiryNumber]:
    [{ inquiryDate: { $gte: new Date(year, m, 1), $lt: new Date(year, m + 1, 1) } }]
    with [m = date.getMonth()]. *)
Definition inMonthOf (date : Date.t) (i : t) : bool :=
  Date.geb (inquiryDate i)
           (Date.firstOfMonth (Date.getFullYear date) (Date.getMonth date))
  && Date.ltb (inquiryDate i)
           (Date.firstOfMonth (Date.getFullYear date) (Date.getMonth date + 1)).

(** [Inquiry.countDocuments(filter)] *)
Definition countDocuments (f : t -> bool) (inquiries : gmap positive t) : Z :=
  Z.of_nat (size (filter (fun kv => Is_true (f kv.2)) inquiries)).

(** [inquirySchema.statics.generateInquiryNumber], with [date = new Date()]. *)
Definition generateInquiryNumber (date : Date.t)
    (inquiries : gmap positive t) : string :=
  let year := Date.getFullYear date in
  let month := Js.padStart 2 "0"%char (Js.numToString (Date.getMonth date + 1)) in
  let count := countDocuments (inMonthOf date) inquiries in
  "INQ" +:+ Js.numToString year +:+ month
        +:+ Js.padStart 4 "0"%char (Js.numToString (count + 1)).

(** The object [POST /api/inquiries] passes to [new Inquiry(...)]. *)
Record InquiryData := mkInquiryData {
  n_inquiryNumber : string;
  n_customerName : string;
  n_email : string;
  n_phone : option string;
  n_company : option string;
  n_businessType : option string;
  n_industry : option string;
  n_employeeCount : option Z;
  n_uniformType : string;
  n_requirementsDescription : option string;
  n_source : string;
  n_address : Address.t
}.

(** [new Inquiry(inquiryData)] at time [now]: the given paths and the
    defaults of the schema for the others. *)
Definition create (data : InquiryData) (now : Date.t) : t :=
  mk (n_inquiryNumber data) "new" "normal" (n_customerName data)
     (n_email data) (n_phone data) (n_company data)
     (Some (Address.withDefaults (n_address data)))
     (n_businessType data) (n_industry data) (n_employeeCount data)
     (n_uniformType data) (n_requirementsDescription data)
     (Some (n_source data))
     [] None None None None None
     (mkConvertedTo None None None None)
     [] [] "warm-lead" now None None.

(** The validators of [inquirySchema]: the path that fails, if any. *)
Definition validate (i : t) : option string :=
  if String.eqb (inquiryNumber i) "" then Some "inquiryNumber"
  else if negb (bool_decide (status i ∈ statuses)) then Some "status"
  else if negb (bool_decide (priority i ∈ priorities)) then Some "priority"
  else if String.eqb (customerName i) "" then Some "customerName"
  else if String.eqb (email i) "" then Some "email"
  else if negb (Js.truthyS (businessType i)) then Some "businessType"
  else if negb (bool_decide (default "" (businessType i) ∈ businessTypes))
       then Some "businessType"
  else if match employeeCount i with
          | Some n => n <? 1
          | None => false
          end then Some "employeeCount"
  else if negb (bool_decide (uniformType i ∈ uniformTypes))
       then Some "uniformType"
  else if match source i with
          | Some v => negb (bool_decide (v ∈ sources))
          | None => false
          end then Some "source"
  else if negb (bool_decide (category i ∈ categories)) then Some "category"
  else None.

(** [await inquiry.save()] for a document that is already stored under
    [id]. *)
Definition save (inquiries : gmap positive t) (id : ObjectId) (i : t)
    : SaveResult (gmap positive t) :=
  match validate i with
  | Some path => Rejected path
  | None => Saved (<[id := i]> inquiries)
  end.

(** [await newInquiry.save()]: validation, then the insert, which the unique
    indexes on [_id] and [inquiryNumber] can reject. *)
Definition insert (inquiries : gmap positive t) (id : ObjectId) (i : t)
    : SaveResult (gmap positive t) :=
  match validate i with
  | Some path => Rejected path
  | None =>
      if Js.truthyO (inquiries !! id) then Rejected "_id"
      else if bool_decide (map_Exists
                (fun _ x => inquiryNumber x = inquiryNumber i) inquiries)
      then Rejected "inquiryNumber"
      else Saved (<[id := i]> inquiries)
  end.

End Inquiry.

(** ** Route handlers *)

Module Routes.

(** The collections of the database. *)
Record Db := mkDb {
  customers : list Customer.t;
  products : gmap positive Product.t;
  inquiries : gmap positive Inquiry.t;
  orders : gmap positive Order.t
}.

Definition with_customers (db : Db) (v : list Customer.t) : Db :=
  mkDb v (products db) (inquiries db) (orders db).

Definition with_products (db : Db) (v : gmap positive Product.t) : Db :=
  mkDb (customers db) v (inquiries db) (orders db).

Definition with_inquiries (db : Db) (v : gmap positive Inquiry.t) : Db :=
  mkDb (customers db) (products db) v (orders db).

Definition with_orders (db : Db) (v : gmap positive Order.t) : Db :=
  mkDb (customers db) (products db) (inquiries db) v.

Definition json (code : Z) (ok : bool) (msg : string) : Response :=
  mkResponse code ok msg.

(** *** [POST /api/inquiries/:id/convert-to-customer] *)

Record ConvertBody := mkConvertBody {
  additionalNotes : option string;
  assignTo : option ObjectId;
  customerStatus : option string
}.

(** [body('customerStatus').optional().isIn([...])]; an [assignTo] that is
    present is an id by its type. *)
Definition convertBodyValid (body : ConvertBody) : bool :=
  match customerStatus body with
  | Some v => bool_decide (v ∈ ["prospect"; "active"; "inactive"; "lead"])
  | None => true
  end.

(** [if (inquiry.f && !customer.f) customer.f = inquiry.f] on a string path *)
Definition fillS (fromInquiry current : option string) : option string :=
  if Js.truthyS fromInquiry && negb (Js.truthyS current) then fromInquiry
  else current.

(** the same on a numeric path *)
Definition fillN (fromInquiry current : option Z) : option Z :=
  if Js.truthyN fromInquiry && negb (Js.truthyN current) then fromInquiry
  else current.

(** The block under "Update address if inquiry has more complete address
    data". *)
Definition mergeAddress (fromInquiry current : option Address.t)
    : option Address.t :=
  match fromInquiry with
  | Some a =>
      let c := default Address.empty current in
      Some (Address.mk
              (fillS (Address.street a) (Address.street c))
              (fillS (Address.city a) (Address.city c))
              (fillS (Address.state a) (Address.state c))
              (fillS (Address.pincode a) (Address.pincode c))
              (fillS (Address.country a) (Address.country c)))
  | None => current
  end.

(** The existing-customer branch up to the conversion note: "Merge data from
    inquiry", the assignment, the status and [lastContact]. *)
Definition mergeInquiry (customer : Customer.t) (inquiry : Inquiry.t)
    (assign : option ObjectId) (status : string) (now : Date.t)
    : Customer.t :=
  Customer.mk
    (Customer._id customer)
    (Customer.name customer)
    (Customer.email customer)
    (fillS (Inquiry.phone inquiry) (Customer.phone customer))
    (fillS (Inquiry.company inquiry) (Customer.company customer))
    (mergeAddress (Inquiry.address inquiry) (Customer.address customer))
    (if Js.truthyS (Inquiry.businessType inquiry)
     then Inquiry.businessType inquiry
     else Customer.businessType customer)
    (fillS (Inquiry.industry inquiry) (Customer.industry customer))
    (fillN (Inquiry.employeeCount inquiry) (Customer.employeeCount customer))
    status
    (Customer.source customer)
    (Customer.notes customer)
    (Customer.tags customer)
    (match assign with
     | Some u => Some u
     | None => Customer.assignedTo customer
     end)
    (Some now).

(** [new Customer(customerData)] of the new-customer branch. *)
Definition customerFromInquiry (newId : ObjectId) (inquiry : Inquiry.t)
    (assign : option ObjectId) (status : string) (user : ObjectId)
    (now : Date.t) : Customer.t :=
  Customer.mk
    newId
    (Inquiry.customerName inquiry)
    (Inquiry.email inquiry)
    (Some (Js.orStr (Inquiry.phone inquiry) ""))
    (Some (Js.orStr (Inquiry.company inquiry) ""))
    (Some (Address.withDefaults
             (default Address.empty (Inquiry.address inquiry))))
    (Inquiry.businessType inquiry)
    (Some (Js.orStr (Inquiry.industry inquiry) ""))
    (if Js.truthyN (Inquiry.employeeCount inquiry)
     then Inquiry.employeeCount inquiry else None)
    status
    (Js.orStr (Inquiry.source inquiry) "website")
    []
    ["converted-from-" +:+ Inquiry.uniformType inquiry; "inquiry-conversion"]
    (Js.orElse assign (Js.orElse (Inquiry.assignedTo inquiry) (Some user)))
    (Some now).

Definition mergeNote (inquiry : Inquiry.t) (extra : option string) : string :=
  "Converted from inquiry " +:+ Inquiry.inquiryNumber inquiry
  +:+ (if Js.truthyS extra then ": " +:+ default "" extra else "").

Definition creationNote (inquiry : Inquiry.t) (extra : option string) : string :=
  "Customer created from inquiry " +:+ Inquiry.inquiryNumber inquiry
  +:+ ". Original requirements: "
  +:+ Js.orStr (Inquiry.requirementsDescription inquiry)
        "No specific requirements noted"
  +:+ (if Js.truthyS extra
       then ". Additional notes: " +:+ default "" extra else "").

Definition conversionComm (isNewCustomer : bool) (customerId : ObjectId)
    : Inquiry.CommData :=
  Inquiry.mkCommData "other" "Converted to Customer"
    ("Inquiry converted to " +:+ (if isNewCustomer then "new" else "existing")
     +:+ " customer record. Customer ID: "
     +:+ Js.idToString customerId)
    "outbound" "Converted to customer" "Follow up on customer requirements".

Definition convertError : Response :=
  json 500 false "Server error converting inquiry to customer".

(** What the handler reports besides the status line. *)
Record ConvertResult := mkConvertResult {
  response : Response;
  customer : option Customer.t;
  isNewCustomer : option bool;
  db' : Db
}.

(** The part of the handler after the customer has been written: "Update
    inquiry with conversion information" and "Add communication record to
    inquiry". *)
Definition stampInquiry (db : Db) (id : ObjectId) (inquiry : Inquiry.t)
    (customer : Customer.t) (isNew : bool) (user : ObjectId) (now : Date.t)
    : ConvertResult :=
  let inquiry1 :=
    Inquiry.convertToCustomer inquiry (Customer._id customer) None 0 now in
  match Inquiry.save (inquiries db) id inquiry1 with
  | Rejected _ => mkConvertResult convertError None None db
  | Saved inquiries1 =>
      let inquiry2 :=
        Inquiry.addCommunication inquiry1
          (conversionComm isNew (Customer._id customer)) user now in
      match Inquiry.save inquiries1 id inquiry2 with
      | Rejected _ =>
          mkConvertResult convertError None None (with_inquiries db inquiries1)
      | Saved inquiries2 =>
          mkConvertResult
            (json 200 true
               ("Inquiry successfully converted to "
                +:+ (if isNew then "new" else "existing") +:+ " customer"))
            (Some customer) (Some isNew) (with_inquiries db inquiries2)
      end
  end.

(** The handler, after [authenticateToken] and [checkPermission] have let
    the request through.  [user] is [req.user._id], [now] the clock and
    [newId] the [_id] a new customer document receives. *)
Definition convertToCustomer (db : Db) (id : ObjectId) (body : ConvertBody)
    (user : ObjectId) (now : Date.t) (newId : ObjectId) : ConvertResult :=
  if negb (convertBodyValid body) then
    mkConvertResult (json 400 false "Validation errors") None None db
  else
    let status := default "prospect" (customerStatus body) in
    match inquiries db !! id with
    | None => mkConvertResult (json 404 false "Inquiry not found") None None db
    | Some inquiry =>
        if String.eqb (Inquiry.status inquiry) "converted"
           && Js.truthyO (Inquiry.customer (Inquiry.convertedTo inquiry))
        then
          mkConvertResult
            (json 400 false "Inquiry has already been converted to a customer")
            None None db
        else
          match Customer.findOneByEmail (customers db) (Inquiry.email inquiry) with
          | Some existingCustomer =>
              let customer1 :=
                mergeInquiry existingCustomer inquiry (assignTo body) status now in
              let customer2 :=
                Customer.addNote customer1
                  (mergeNote inquiry (additionalNotes body)) user now in
              match Customer.save (customers db) customer2 with
              | Rejected _ => mkConvertResult convertError None None db
              | Saved customers1 =>
                  match Customer.save customers1 customer2 with
                  | Rejected _ =>
                      mkConvertResult convertError None None
                        (with_customers db customers1)
                  | Saved customers2 =>
                      stampInquiry (with_customers db customers2) id inquiry
                        customer2 false user now
                  end
              end
          | None =>
              let customer1 :=
                customerFromInquiry newId inquiry (assignTo body) status user now in
              match Customer.save (customers db) customer1 with
              | Rejected _ => mkConvertResult convertError None None db
              | Saved customers1 =>
                  let customer2 :=
                    Customer.addNote customer1
                      (creationNote inquiry (additionalNotes body)) user now in
                  match Customer.save customers1 customer2 with
                  | Rejected _ =>
                      mkConvertResult convertError None None
                        (with_customers db customers1)
                  | Saved customers2 =>
                      stampInquiry (with_customers db customers2) id inquiry
                        customer2 true user now
                  end
              end
          end
    end.

(** *** [DELETE /api/inquiries/:id] *)

Definition deleteInquiry (db : Db) (id : ObjectId) : Response * Db :=
  match inquiries db !! id with
  | None => (json 404 false "Inquiry not found", db)
  | Some inquiry =>
      if String.eqb (Inquiry.status inquiry) "converted"
         && Js.truthyO (Inquiry.customer (Inquiry.convertedTo inquiry))
      then
        (json 400 false
           "Cannot delete converted inquiries. Please archive instead.", db)
      else
        (json 200 true "Inquiry deleted successfully",
         with_inquiries db (delete id (inquiries db)))
  end.

(** *** [DELETE /api/orders/:id] *)

(** The loop under "Restore product stock".  Each turn loads the product
    again and saves it; a save that throws ends the loop with the earlier
    turns already stored. *)
Fixpoint restoreStock (items : list Order.Item)
    (products : gmap positive Product.t)
    : gmap positive Product.t * bool :=
  match items with
  | [] => (products, true)
  | item :: rest =>
      match products !! Order.product item with
      | Some product =>
          match Product.save
                  (Product.updateStock product (Order.quantity item) "increase") with
          | Saved doc =>
              restoreStock rest (<[Order.product item := doc]> products)
          | Rejected _ => (products, false)
          end
      | None => restoreStock rest products
      end
  end.

(** The quantity the line items of an order hold of product [pid]. *)
Definition quantityOf (pid : ObjectId) (items : list Order.Item) : Z :=
  Order.sumZ
    (Order.quantity <$> filter (fun item => Order.product item = pid) items).

(** Every stored product satisfies [stockQuantity: { min: 0 }]. *)
Definition stockValid (products : gmap positive Product.t) : Prop :=
  forall pid p, products !! pid = Some p -> 0 <= Product.stockQuantity p.

(** The stock left of [s] after the decrements [qs], each floored at zero. *)
Definition flooredStock (s : Z) (qs : list Z) : Z :=
  fold_left (fun s q => Z.max 0 (s - q)) qs s.

(** The quantities of the line items of product [pid], in order. *)
Definition quantitiesOf (pid : ObjectId) (items : list Order.Item) : list Z :=
  Order.quantity <$> filter (fun item => Order.product item = pid) items.

Definition deleteOrderError : Response :=
  json 500 false "Server error deleting order".

Definition deleteOrder (db : Db) (id : ObjectId) : Response * Db :=
  match orders db !! id with
  | None => (json 404 false "Order not found", db)
  | Some order =>
      if negb (String.eqb (Order.status order) "draft") then
        (json 400 false "Only draft orders can be deleted", db)
      else
        match Order.items order with
        | None => (deleteOrderError, db)
        | Some items =>
            match restoreStock items (products db) with
            | (products1, false) => (deleteOrderError, with_products db products1)
            | (products1, true) =>
                (json 200 true "Order deleted successfully",
                 with_orders (with_products db products1)
                   (delete id (orders db)))
            end
        end
  end.

(** The loop under "Update product stock" of [POST /api/orders], which runs
    once every line has passed the availability check. *)
Fixpoint reserveStock (items : list Order.Item)
    (products : gmap positive Product.t)
    : gmap positive Product.t * bool :=
  match items with
  | [] => (products, true)
  | item :: rest =>
      match products !! Order.product item with
      | Some product =>
          match Product.save
                  (Product.updateStock product (Order.quantity item) "decrease") with
          | Saved doc =>
              reserveStock rest (<[Order.product item := doc]> products)
          | Rejected _ => (products, false)
          end
      | None => (products, false)
      end
  end.

(** *** [POST /api/inquiries] *)

(** The request body after the sanitizers ([trim], [normalizeEmail]). *)
Record InquiryBody := mkInquiryBody {
  b_customerName : string;
  b_email : string;
  b_phone : option string;
  b_company : option string;
  b_businessType : string;
  b_industry : option string;
  b_employeeCount : option Z;
  b_uniformType : string;
  b_quantity : Z;
  b_requirementsDescription : option string;
  b_source : option string;
  b_address : option Address.t
}.

Section Submission.

(** [isEmail] of the validation library. *)
Variable isEmail : string -> bool.

(** [inquiryValidation] *)
Definition inquiryBodyValid (body : InquiryBody) : bool :=
  (2 <=? String.length (b_customerName body))%nat
  && isEmail (b_email body)
  && bool_decide (b_businessType body ∈ Inquiry.businessTypes)
  && bool_decide (b_uniformType body ∈ Inquiry.uniformTypes)
  && (1 <=? b_quantity body).

Definition postInquiry (db : Db) (body : InquiryBody) (now : Date.t)
    (newId : ObjectId) : Response * Db :=
  if negb (inquiryBodyValid body) then
    (json 400 false "Validation errors", db)
  else
    let inquiryNumber := Inquiry.generateInquiryNumber now (inquiries db) in
    let inquiryData :=
      Inquiry.mkInquiryData inquiryNumber (b_customerName body)
        (b_email body) (b_phone body) (b_company body)
        (Some (b_businessType body)) (b_industry body)
        (b_employeeCount body) (b_uniformType body)
        (b_requirementsDescription body)
        (default "website" (b_source body))
        (default Address.empty (b_address body)) in
    let newInquiry := Inquiry.create inquiryData now in
    match Inquiry.insert (inquiries db) newId newInquiry with
    | Rejected _ =>
        (json 500 false "Server error submitting inquiry", db)
    | Saved inquiries1 =>
        (json 201 true "Inquiry submitted successfully",
         with_inquiries db inquiries1)
    end.

(** Successive submissions, each with its body, the time it is handled at
    and the [_id] its document receives: the answers, and the collections
    after the last. *)
Fixpoint postInquiries (db : Db)
    (reqs : list (InquiryBody * Date.t * ObjectId)) : list Response * Db :=
  match reqs with
  | [] => ([], db)
  | (body, now, newId) :: rest =>
      let r := postInquiry db body now newId in
      let rs := postInquiries r.2 rest in
      (r.1 :: rs.1, rs.2)
  end.

End Submission.

(** How many of the answers are 201. *)
Definition created (answers : list Response) : Z :=
  Z.of_nat (length (filter (fun r => statusCode r = 201) answers)).

(** *** [PUT /api/inquiries/:id] *)

Record UpdateBody := mkUpdateBody {
  u_status : option string;
  u_priority : option string;
  u_assignedTo : option ObjectId;
  u_nextFollowUp : option Date.t;
  u_followUpNotes : option string;
  u_tags : option (list string);
  u_category : option string
}.

(** [Object.keys(updateData).length > 0] *)
Definition updateDataNonEmpty (body : UpdateBody) : bool :=
  Js.truthyS (u_status body) || Js.truthyS (u_priority body)
  || Js.truthyO (u_assignedTo body) || Js.truthyO (u_nextFollowUp body)
  || Js.truthyS (u_followUpNotes body) || Js.truthyO (u_tags body)
  || Js.truthyS (u_category body).

(** [runValidators: true] on the paths of [updateData] that carry an enum. *)
Definition updateDataValid (body : UpdateBody) : bool :=
  (negb (Js.truthyS (u_status body))
   || bool_decide (default "" (u_status body) ∈ Inquiry.statuses))
  && (negb (Js.truthyS (u_priority body))
      || bool_decide (default "" (u_priority body) ∈ Inquiry.priorities))
  && (negb (Js.truthyS (u_category body))
      || bool_decide (default "" (u_category body) ∈ Inquiry.categories)).

Definition pick {A} (take : bool) (new old : A) : A :=
  if take then new else old.

(** The document [findByIdAndUpdate(id, updateData, { new: true })] stores
    and returns. *)
Definition applyUpdate (i : Inquiry.t) (body : UpdateBody) : Inquiry.t :=
  let i1 :=
    Inquiry.with_status i
      (pick (Js.truthyS (u_status body)) (default "" (u_status body))
            (Inquiry.status i)) in
  let i2 :=
    Inquiry.with_labels i1
      (pick (Js.truthyS (u_priority body)) (default "" (u_priority body))
            (Inquiry.priority i1))
      (default (Inquiry.tags i1) (u_tags body))
      (pick (Js.truthyS (u_category body)) (default "" (u_category body))
            (Inquiry.category i1)) in
  let i3 :=
    Inquiry.with_assignedTo i2
      (Js.orElse (u_assignedTo body) (Inquiry.assignedTo i2)) in
  Inquiry.with_followUp i3
    (Js.orElse (u_nextFollowUp body) (Inquiry.nextFollowUp i3))
    (pick (Js.truthyS (u_followUpNotes body)) (u_followUpNotes body)
          (Inquiry.followUpNotes i3)).

Definition putInquiryError : Response :=
  json 500 false "Server error updating inquiry".

(** The handler; [rendered] is the text the handler builds from the entries
    of [updateData] for its note. *)
Definition putInquiry (db : Db) (id : ObjectId) (body : UpdateBody)
    (rendered : string) (user : ObjectId) (now : Date.t) : Response * Db :=
  if negb (updateDataValid body) then (putInquiryError, db)
  else
    match inquiries db !! id with
    | None => (json 404 false "Inquiry not found", db)
    | Some inquiry =>
        let updated := applyUpdate inquiry body in
        let db1 := with_inquiries db (<[id := updated]> (inquiries db)) in
        if updateDataNonEmpty body then
          match Inquiry.save (inquiries db1) id
                  (Inquiry.addNote updated ("Inquiry updated: " +:+ rendered)
                     user true now) with
          | Rejected _ => (putInquiryError, db1)
          | Saved inquiries1 =>
              (json 200 true "Inquiry updated successfully",
               with_inquiries db1 inquiries1)
          end
        else (json 200 true "Inquiry updated successfully", db1)
    end.

End Routes.

(** ** Sample data *)

Module Sample.

(** 15 and 16 January 2024, 20 January 2024 and 3 February 2024, at
    midnight. *)
Definition jan15 : Date.t := Date.mk 2024 0 1209600000.
Definition jan16 : Date.t := Date.mk 2024 0 1296000000.
Definition jan20 : Date.t := Date.mk 2024 0 1641600000.
Definition feb03 : Date.t := Date.mk 2024 1 172800000.

Definition staff : ObjectId := 7%positive.
Definition manager : ObjectId := 8%positive.

Definition anyEmail (s : string) : bool := negb (String.eqb s "").

(** The submission of the scenario "new lead to customer". *)
Definition acmeBody : Routes.InquiryBody :=
  Routes.mkInquiryBody "Acme School" "a@acme.edu" None None "school" None None
    "school" 100 (Some "summer uniforms") None None.

(** The same lead, reported as having come in by phone. *)
Definition phoneBody : Routes.InquiryBody :=
  Routes.mkInquiryBody "Acme School" "a@acme.edu" None None "school" None None
    "school" 100 (Some "summer uniforms") (Some "phone") None.

Definition emptyDb : Routes.Db := Routes.mkDb [] ∅ ∅ ∅.

Definition acmeDb : Routes.Db :=
  (Routes.postInquiry anyEmail emptyDb acmeBody jan15 1%positive).2.

Definition phoneDb : Routes.Db :=
  (Routes.postInquiry anyEmail emptyDb phoneBody jan15 1%positive).2.

Definition acmeData : Inquiry.InquiryData :=
  Inquiry.mkInquiryData "INQ2024010001" "Acme School" "a@acme.edu" None None
    (Some "school") None None "school" (Some "summer uniforms") "website"
    Address.empty.

Definition acme : Inquiry.t := Inquiry.create acmeData jan15.

Definition noBody : Routes.ConvertBody := Routes.mkConvertBody None None None.

Definition statusBody (s : string) : Routes.UpdateBody :=
  Routes.mkUpdateBody (Some s) None None None None None None.

(** The lead converted on 16 January, and the lead as stored after that. *)
Definition convertedDb : Routes.Db :=
  Routes.db' (Routes.convertToCustomer acmeDb 1%positive noBody staff jan16
                2%positive).

Definition convertedAcme : Inquiry.t :=
  default acme (Routes.inquiries convertedDb !! 1%positive).

(** The converted lead moved back to 'contacted' through
    [PUT /api/inquiries/:id]. *)
Definition reopenedDb : Routes.Db :=
  (Routes.putInquiry convertedDb 1%positive (statusBody "contacted")
     "status: contacted" staff jan16).2.

Definition reopenedAcme : Inquiry.t :=
  default acme (Routes.inquiries reopenedDb !! 1%positive).

(** A customer already on file under the email of the lead, registered as a
    hotel. *)
Definition hotelCustomer : Customer.t :=
  Customer.mk 9%positive "Acme Hospitality" "a@acme.edu" (Some "022-555-0100")
    None
    (Some (Address.mk (Some "1 Main Street") None None None (Some "India")))
    (Some "hotel") None None "active" "referral" [] [] (Some manager) None.

Definition hotelDb : Routes.Db := Routes.with_customers acmeDb [hotelCustomer].

(** The order of the scenario "order lifecycle": ten shirts at 200 against a
    stock of 50, which the creation has brought to 40. *)
Definition shirt : Product.t := Product.mk "Polo shirt" "PS01" 200 50 10.

Definition tenShirts : Order.Item :=
  Order.mkItem 5%positive (Some "Polo shirt") (Some "PS01") 10 200 2000 None.

Definition shirtOrder (status : string) : Order.t :=
  Order.mk "UP2024010001" status 9%positive (Some [tenShirts]) 2000 None None
    None 2000 "pending" "cash" 0.

Definition orderDb (status : string) : Routes.Db :=
  Routes.mkDb [] {[5%positive := Product.with_stockQuantity shirt 40]} ∅
    {[1%positive := shirtOrder status]}.

(** The lead moved to 'converted' through [PUT /api/inquiries/:id]. *)
Definition markedDb : Routes.Db :=
  (Routes.putInquiry acmeDb 1%positive (statusBody "converted")
     "status: converted" staff jan16).2.

Definition markedAcme : Inquiry.t :=
  default acme (Routes.inquiries markedDb !! 1%positive).

End Sample.

(** * Further operations *)

(** ** Stock status and the product routes *)

Module Inventory.

(** The virtual [stockStatus] of [productSchema]. *)
Definition stockStatus (this : Product.t) : string :=
  if Product.stockQuantity this =? 0 then "out-of-stock"
  else if Product.stockQuantity this <=? Product.reorderLevel this
       then "low-stock"
  else "in-stock".

(** *** [PUT /api/products/:id/stock] *)

(** [req.body.quantity], which the route passes on as it comes: a JSON
    number, or a string, the form every field of a urlencoded body has. *)
Inductive Quantity :=
  | QNum (n : Z)
  | QStr (s : string).

Record StockBody := mkStockBody {
  quantity : Quantity;
  operation : string
}.

(** The integer a text of the form [/^[-+]?[0-9]+$/] stands for, which is
    what [Number(text)] makes of such a text; [None] for a text of another
    form, which stands for [NaN] where the text is digits followed by such a
    text. *)
Definition intValue (s : string) : option Z :=
  let digits (d : string) :=
    if String.eqb d "" then None else Js.parseDigits d in
  match s with
  | EmptyString => None
  | String c d =>
      if Ascii.eqb c "+" then digits d
      else if Ascii.eqb c "-" then Z.opp <$> digits d
      else digits s
  end.

(** Whether a text starts with a plus sign. *)
Definition signed (s : string) : bool :=
  match s with
  | String c _ => Ascii.eqb c "+"
  | EmptyString => false
  end.

(** [body('quantity').isInt({ min: 1 })]: the validator reads the text of
    the value, which for an integer number is its decimal writing, and
    compares it as a number with the minimum. *)
Definition quantityValid (q : Quantity) : bool :=
  match q with
  | QNum n => 1 <=? n
  | QStr s =>
      match intValue s with
      | Some v => 1 <=? v
      | None => false
      end
  end.

(** [body('quantity').isInt({ min: 1 })] and
    [body('operation').isIn(['increase', 'decrease'])] *)
Definition stockBodyValid (body : StockBody) : bool :=
  quantityValid (quantity body)
  && bool_decide (operation body ∈ ["increase"; "decrease"]).

(** [productSchema.methods.updateStock] on the quantity of the body, up to
    the [save].  With a number it is [Product.updateStock].  With a string,
    [this.stockQuantity - quantity] converts the string to a number, while
    [this.stockQuantity += quantity] appends it to the text of the stock;
    the assignment to the path casts that text back to a number, and a text
    that is no number leaves a cast error that makes [save] fail: [None]. *)
Definition updateStockWith (this : Product.t) (q : Quantity)
    (operation : string) : option Product.t :=
  match q with
  | QNum n => Some (Product.updateStock this n operation)
  | QStr s =>
      if String.eqb operation "decrease" then
        (fun v =>
           Product.with_stockQuantity this
             (Z.max 0 (Product.stockQuantity this - v)))
          <$> intValue s
      else if String.eqb operation "increase" then
        Product.with_stockQuantity this
          <$> intValue (Js.numToString (Product.stockQuantity this) +:+ s)
      else Some this
  end.

Definition putStock (db : Routes.Db) (id : ObjectId) (body : StockBody)
    : Response * Routes.Db :=
  if negb (stockBodyValid body) then
    (Routes.json 400 false "Validation errors", db)
  else
    match Routes.products db !! id with
    | None => (Routes.json 404 false "Product not found", db)
    | Some product =>
        match updateStockWith product (quantity body) (operation body) with
        | None => (Routes.json 500 false "Server error updating stock", db)
        | Some updated =>
            match Product.save updated with
            | Saved doc =>
                (Routes.json 200 true
                   ("Stock " +:+ operation body +:+ "d successfully"),
                 Routes.with_products db (<[id := doc]> (Routes.products db)))
            | Rejected _ =>
                (Routes.json 500 false "Server error updating stock", db)
            end
        end
    end.

(** *** [DELETE /api/products/:id] *)

(** [Order.exists({ 'items.product': id })] *)
Definition hasOrders (orders : gmap positive Order.t) (id : ObjectId) : bool :=
  bool_decide
    (map_Exists
       (fun _ order =>
          Exists (fun item => Order.product item = id)
                 (default [] (Order.items order)))
       orders).

Definition deleteProduct (db : Routes.Db) (id : ObjectId)
    : Response * Routes.Db :=
  match Routes.products db !! id with
  | None => (Routes.json 404 false "Product not found", db)
  | Some _ =>
      if hasOrders (Routes.orders db) id then
        (Routes.json 400 false "Cannot delete product with existing orders", db)
      else
        (Routes.json 200 true "Product deleted successfully",
         Routes.with_products db (delete id (Routes.products db)))
  end.

(** Every line item of every stored order names a stored product. *)
Definition linesResolved (db : Routes.Db) : Prop :=
  forall oid order item,
    Routes.orders db !! oid = Some order ->
    item ∈ default [] (Order.items order) ->
    is_Some (Routes.products db !! Order.product item).

End Inventory.

(** ** Inquiry methods in sequence *)

Module InquiryLog.

(** Successive method calls on one inquiry document, each with the time at
    which it is made. *)
Definition callSeq (this : Inquiry.t)
    (calls : list (Inquiry.MethodCall * Date.t)) : Inquiry.t :=
  fold_left (fun i c => Inquiry.call i c.1 c.2) calls this.

(** Whether a call is an [addCommunication] with direction 'outbound'. *)
Definition isOutbound (m : Inquiry.MethodCall) : bool :=
  match m with
  | Inquiry.CallAddCommunication commData _ =>
      String.eqb (Inquiry.d_direction commData) "outbound"
  | _ => false
  end.

(** The time of the first outbound communication among the calls. *)
Definition firstOutbound (calls : list (Inquiry.MethodCall * Date.t))
    : option Date.t :=
  snd <$> List.find (fun c => isOutbound c.1) calls.

(** The enums of [communications[].type] and [communications[].direction]. *)
Definition commTypes : list string :=
  ["email"; "phone"; "meeting"; "whatsapp"; "other"].

Definition directions : list string := ["inbound"; "outbound"].

(** The validators of the schema on one communication of the document. *)
Definition commValid (c : Inquiry.Communication) : bool :=
  bool_decide (Inquiry.c_type c ∈ commTypes)
  && bool_decide (Inquiry.c_direction c ∈ directions).

(** Every validator of the schema: those of [Inquiry.validate] on the paths
    of the document itself, and those of each of its communications. *)
Definition valid (i : Inquiry.t) : bool :=
  bool_decide (Inquiry.validate i = None)
  && forallb commValid (Inquiry.communications i).

(** A call that saves once and whose arguments the enums accept.
    [updateStatus] and [assignTo] given notes call [addNote], which starts a
    [save], and then call [save] again while the first is under way: the
    promise they return is rejected, and such calls are left out here. *)
Definition accepted (m : Inquiry.MethodCall) : bool :=
  match m with
  | Inquiry.CallAddCommunication commData _ =>
      bool_decide (Inquiry.d_type commData ∈ commTypes)
      && bool_decide (Inquiry.d_direction commData ∈ directions)
  | Inquiry.CallUpdateStatus newStatus _ notes =>
      bool_decide (newStatus ∈ Inquiry.statuses) && String.eqb notes ""
  | Inquiry.CallAssignTo _ notes => String.eqb notes ""
  | Inquiry.CallAddNote _ _ _
  | Inquiry.CallScheduleFollowUp _ _
  | Inquiry.CallConvertToCustomer _ _ _ => true
  end.

End InquiryLog.

(** ** Order documents: status history and milestones *)

(** The order document with the paths [Order.t] leaves out and the status
    operations use: the people, the dates, the notes and the status
    history.  [core] holds the paths of [Order.t]. *)
Module OrderDoc.

Record HistoryEntry := mkEntry {
  h_status : string;
  h_changedBy : ObjectId;
  h_changedAt : Date.t;
  h_notes : string
}.

Record Note := mkNote {
  content : string;
  createdBy : ObjectId;
  createdAt : Date.t;
  isInternal : bool
}.

Record t := mk {
  core : Order.t;
  orderCreatedBy : option ObjectId;
  assignedTo : option ObjectId;
  preferredDeliveryDate : option Date.t;
  actualDeliveryDate : option Date.t;
  actualCompletionDate : option Date.t;
  productionStartDate : option Date.t;
  notes : option (list Note);
  statusHistory : option (list HistoryEntry)
}.

(** [this.status = v] on the paths of [Order.t] *)
Definition setStatus (o : Order.t) (v : string) : Order.t :=
  Order.mk (Order.orderNumber o) v (Order.customer o) (Order.items o)
    (Order.subtotal o) (Order.tax o) (Order.discount o)
    (Order.shippingCost o) (Order.totalAmount o) (Order.paymentStatus o)
    (Order.paymentMethod o) (Order.paidAmount o).

(** [orderSchema.methods.addNote]; [createdAt] is the schema default,
    [Date.now]. *)
Definition addNote (this : t) (content : string) (userId : ObjectId)
    (isInternal : bool) (now : Date.t) : t :=
  mk (core this) (orderCreatedBy this) (assignedTo this)
     (preferredDeliveryDate this) (actualDeliveryDate this)
     (actualCompletionDate this) (productionStartDate this)
     (Some (default [] (notes this) ++ [mkNote content userId now isInternal]))
     (statusHistory this).

(** [orderSchema.methods.updateStatus]; [changedAt] is the schema default,
    [Date.now]. *)
Definition updateStatus (this : t) (newStatus : string) (userId : ObjectId)
    (notes : string) (now : Date.t) : t :=
  let stamp (reached : string) (date : option Date.t) : option Date.t :=
    if String.eqb newStatus reached && negb (Js.truthyO date)
    then Some now else date in
  mk (setStatus (core this) newStatus)
     (orderCreatedBy this) (assignedTo this)
     (preferredDeliveryDate this)
     (stamp "delivered" (actualDeliveryDate this))
     (stamp "ready" (actualCompletionDate this))
     (stamp "in-production" (productionStartDate this))
     (OrderDoc.notes this)
     (Some (default [] (statusHistory this)
            ++ [mkEntry newStatus userId now notes])).

(** The virtual [deliveryStatus], read at time [now]. *)
Definition deliveryStatus (this : t) (now : Date.t) : string :=
  if String.eqb (Order.status (core this)) "delivered" then "delivered"
  else if Js.truthyO (actualDeliveryDate this) then "delivered"
  else if match preferredDeliveryDate this with
          | Some d => Date.ltb d now
          | None => false
          end then "overdue"
  else "pending".

(** One status change: status, actor, notes, and the time of the call. *)
Record StatusCall := mkStatusCall {
  s_status : string;
  s_user : ObjectId;
  s_notes : string;
  s_now : Date.t
}.

Definition updateStatusSeq (this : t) (calls : list StatusCall) : t :=
  fold_left
    (fun o c => updateStatus o (s_status c) (s_user c) (s_notes c) (s_now c))
    calls this.

(** The time of the first of the calls that sets the status [reached]. *)
Definition firstReached (reached : string) (calls : list StatusCall)
    : option Date.t :=
  s_now <$> List.find (fun c => String.eqb (s_status c) reached) calls.

Definition entryOf (c : StatusCall) : HistoryEntry :=
  mkEntry (s_status c) (s_user c) (s_now c) (s_notes c).

End OrderDoc.

(** ** Product documents: prices and images *)

(** The product document with the paths [Product.t] leaves out and the
    price and image operations use.  [core] holds the paths of
    [Product.t]. *)
Module ProductDoc.

Record Tier := mkTier {
  minQuantity : option Z;
  maxQuantity : option Z;
  pricePerUnit : option Z;
  discount : option Z
}.

Record Image := mkImage {
  img_id : ObjectId;
  url : option string;
  alt : option string;
  isPrimary : bool
}.

(** What a caller passes to [addImage]. *)
Record ImageData := mkImageData {
  d_url : option string;
  d_alt : option string;
  d_isPrimary : bool
}.

Record t := mk {
  core : Product.t;
  specialPricing : option Z;
  bulkPricing : option (list Tier);
  minimumOrderQuantity : Z;
  images : option (list Image)
}.

Definition with_images (p : t) (v : option (list Image)) : t :=
  mk (core p) (specialPricing p) (bulkPricing p) (minimumOrderQuantity p) v.




(** The virtual [primaryImage]. *)
Definition primaryImage (this : t) : option string :=
  match images this with
  | None => None
  | Some l =>
      match List.find isPrimary l with
      | Some primary => url primary
      | None =>
          match head l with
          | Some first => url first
          | None => None
          end
      end
  end.

(** [img.isPrimary = v] *)
Definition setPrimary (v : bool) (img : Image) : Image :=
  mkImage (img_id img) (url img) (alt img) v.

(** [productSchema.methods.addImage]; [newId] is the [_id] the pushed
    subdocument receives. *)
Definition addImage (this : t) (imageData : ImageData) (newId : ObjectId) : t :=
  let l := default [] (images this) in
  let l1 := if d_isPrimary imageData then setPrimary false <$> l else l in
  with_images this
    (Some (l1 ++ [mkImage newId (d_url imageData) (d_alt imageData)
                    (d_isPrimary imageData)])).

(** An assignment through the reference [images.id(imageId)] returns: the
    first image with that [_id] is changed in place. *)
Fixpoint alterById (imageId : ObjectId) (f : Image -> Image) (l : list Image)
    : option (list Image) :=
  match l with
  | [] => None
  | img :: rest =>
      if Pos.eqb (img_id img) imageId then Some (f img :: rest)
      else cons img <$> alterById imageId f rest
  end.

(** *** [PUT /api/products/:id/images/:imageId/primary] *)

(** The image paths carry no validator, so the [save] that ends this
    handler and the next stores the document. *)
Definition putPrimaryImage (products : gmap positive t) (id imageId : ObjectId)
    : Response * gmap positive t :=
  match products !! id with
  | None => (Routes.json 404 false "Product not found", products)
  | Some product =>
      match images product with
      | None =>
          (Routes.json 500 false "Server error updating primary image",
           products)
      | Some l =>
          match alterById imageId (setPrimary true) (setPrimary false <$> l) with
          | None => (Routes.json 404 false "Image not found", products)
          | Some l1 =>
              (Routes.json 200 true "Primary image updated successfully",
               <[id := with_images product (Some l1)]> products)
          end
      end
  end.

(** *** [DELETE /api/products/:id/images/:imageId], by position *)

(** [imageIndex] is [parseInt(req.params.imageId)], [None] for [NaN]: every
    comparison with [NaN] is false, and [splice(NaN, 1)] removes at
    position 0. *)
Definition deleteImageAt (products : gmap positive t) (id : ObjectId)
    (imageIndex : option Z) : Response * gmap positive t :=
  match products !! id with
  | None => (Routes.json 404 false "Product not found", products)
  | Some product =>
      match images product with
      | None => (Routes.json 500 false "Server error removing image", products)
      | Some l =>
          if match imageIndex with
             | Some i => (i <? 0) || (Z.of_nat (length l) <=? i)
             | None => false
             end
          then (Routes.json 400 false "Invalid image ID", products)
          else
            (Routes.json 200 true "Image removed successfully",
             <[id := with_images product
                       (Some (delete (Z.to_nat (default 0 imageIndex)) l))]>
               products)
      end
  end.

(** The number of images flagged as primary. *)
Definition primaryCount (l : list Image) : nat :=
  length (filter (fun img => Is_true (isPrimary img)) l).

(** At most one image of every stored product is flagged as primary. *)
Definition onePrimaryAtMost (products : gmap positive t) : Prop :=
  forall id p,
    products !! id = Some p ->
    (primaryCount (default [] (images p)) <= 1)%nat.

(** A product with two images, the first primary, and two price tiers. *)
Definition frontImage : Image :=
  mkImage 11 (Some "https://cdn.example.com/polo-front.jpg") (Some "Front") true.

Definition backImage : Image :=
  mkImage 12 (Some "https://cdn.example.com/polo-back.jpg") None false.

Definition polo : t :=
  mk (Product.mk "Polo shirt" "PS01" 200 50 10) None
     (Some [mkTier (Some 10) (Some 49) (Some 180) None;
            mkTier (Some 50) (Some 500) (Some 150) None])
     10 (Some [frontImage; backImage]).

Definition catalog : gmap positive t := {[5%positive := polo]}.

End ProductDoc.

(** ** Middleware *)

(** What a middleware does with a request: it calls [next()], or it sends
    an answer itself. *)
Module Auth.

Inductive Outcome :=
  | Next
  | Sent (r : Response).

(** *** [rateLimitAction] *)

(** [`${req.user?._id || req.ip}-${action}`], [client] being the text of the
    user id or the address. *)
Definition keyOf (client action : string) : string :=
  client +:+ "-" +:+ action.

(** One request through the middleware [rateLimitAction(action, maxAttempts,
    windowMs)] returns: [attempts] is the Map of the closure, [now] is
    [Date.now()].  A refused request leaves the Map as it is. *)
Definition rateLimitAction (action : string) (maxAttempts windowMs : Z)
    (attempts : gmap string (list Z)) (client : string) (now : Z)
    : Outcome * gmap string (list Z) :=
  let key := keyOf client action in
  let userAttempts := default [] (attempts !! key) in
  let validAttempts :=
    filter (fun timestamp => now - timestamp < windowMs) userAttempts in
  if maxAttempts <=? Z.of_nat (length validAttempts) then
    (Sent (Routes.json 429 false
             ("Too many " +:+ action +:+ " attempts. Please try again later.")),
     attempts)
  else (Next, <[key := validAttempts ++ [now]]> attempts).

(** Successive requests, each a client and the time it arrives at, through
    one instance of the middleware. *)
Fixpoint rateLimitSeq (action : string) (maxAttempts windowMs : Z)
    (attempts : gmap string (list Z)) (reqs : list (string * Z))
    : list Outcome :=
  match reqs with
  | [] => []
  | (client, now) :: rest =>
      let r := rateLimitAction action maxAttempts windowMs attempts client now in
      r.1 :: rateLimitSeq action maxAttempts windowMs r.2 rest
  end.

(** The requests that were let through, with their keys. *)
Fixpoint accepted (action : string) (reqs : list (string * Z))
    (outcomes : list Outcome) : list (string * Z) :=
  match reqs, outcomes with
  | (client, now) :: reqs', Next :: outcomes' =>
      (keyOf client action, now) :: accepted action reqs' outcomes'
  | _ :: reqs', _ :: outcomes' => accepted action reqs' outcomes'
  | _, _ => []
  end.

(** The entries of a log of accepted requests that have the key [key] and
    lie less than [windowMs] before [now]. *)
Definition recent (windowMs : Z) (key : string) (now : Z)
    (log : list (string * Z)) : list (string * Z) :=
  filter (fun e => e.1 = key /\ now - e.2 < windowMs) log.

(** The limiter that forgets nothing: it keeps every accepted request and
    lets a request through when fewer than [maxAttempts] accepted requests
    of its key lie in the window before it. *)
Fixpoint limitByLog (action : string) (maxAttempts windowMs : Z)
    (log : list (string * Z)) (reqs : list (string * Z)) : list bool :=
  match reqs with
  | [] => []
  | (client, now) :: rest =>
      let key := keyOf client action in
      if maxAttempts <=? Z.of_nat (length (recent windowMs key now log)) then
        false :: limitByLog action maxAttempts windowMs log rest
      else
        true :: limitByLog action maxAttempts windowMs (log ++ [(key, now)]) rest
  end.

Definition isNext (o : Outcome) : bool :=
  match o with
  | Next => true
  | Sent _ => false
  end.

(** The Map holds for every key what the log holds for it, as far as a
    request arriving at [last] or later can tell. *)
Definition agrees (windowMs : Z) (attempts : gmap string (list Z))
    (log : list (string * Z)) (last : Z) : Prop :=
  forall key now,
    last <= now ->
    filter (fun timestamp => now - timestamp < windowMs)
           (default [] (attempts !! key))
    = (recent windowMs key now log).*2.

(** Every entry of the log is one of at most [maxAttempts] entries of its
    key in the window that ends with it. *)
Definition windowBound (maxAttempts windowMs : Z) (log : list (string * Z))
    : Prop :=
  forall i key now,
    log !! i = Some (key, now) ->
    Z.of_nat (length (recent windowMs key now (take (S i) log))) <= maxAttempts.

(** Five login attempts, four of one user and one of another, against a
    limit of two in a window of one second. *)
Definition burst : list (string * Z) :=
  [("u1", 0); ("u1", 100); ("u1", 200); ("u2", 300); ("u1", 1100)].

(** *** [checkPermission] and [canAccessResource] *)

(** [userSchema.permissions]; the schema is strict, so these are the only
    keys the object of a stored user has. *)
Record Permissions := mkPermissions {
  customers : bool;
  products : bool;
  orders : bool;
  inquiries : bool;
  reports : bool;
  users : bool
}.

(** [permissions[key]], [None] for [undefined]. *)
Definition permission (p : Permissions) (key : string) : option bool :=
  if String.eqb key "customers" then Some (customers p)
  else if String.eqb key "products" then Some (products p)
  else if String.eqb key "orders" then Some (orders p)
  else if String.eqb key "inquiries" then Some (inquiries p)
  else if String.eqb key "reports" then Some (reports p)
  else if String.eqb key "users" then Some (users p)
  else None.

(** [req.user], as [authenticateToken] sets it. *)
Record User := mkUser {
  _id : ObjectId;
  role : string;
  permissions : Permissions
}.

Definition authRequired : Response :=
  Routes.json 401 false "Authentication required".

(** [checkPermission(permission)] *)
Definition checkPermission (key : string) (user : option User) : Outcome :=
  match user with
  | None => Sent authRequired
  | Some u =>
      if String.eqb (role u) "admin" then Next
      else if default false (permission (permissions u) key) then Next
      else Sent (Routes.json 403 false
                   ("Permission denied: " +:+ key +:+ " access required"))
  end.

(** [requireAdmin] *)
Definition requireAdmin (user : option User) : Outcome :=
  match user with
  | None => Sent authRequired
  | Some u =>
      if negb (String.eqb (role u) "admin")
      then Sent (Routes.json 403 false "Admin access required")
      else Next
  end.

(** Of a customer, an order or an inquiry, the two paths
    [canAccessResource] reads. *)
Record Resource := mkResource {
  assignedTo : option ObjectId;
  createdBy : option ObjectId
}.

(** The three collections [canAccessResource] looks a resource up in. *)
Record Stores := mkStores {
  customer : gmap positive Resource;
  order : gmap positive Resource;
  inquiry : gmap positive Resource
}.

(** [ref && ref.toString() === req.user._id.toString()] *)
Definition refers (ref : option ObjectId) (u : User) : bool :=
  match ref with
  | Some r => Pos.eqb r (_id u)
  | None => false
  end.

(** [canAccessResource(resourceType)]; [resourceId] is
    [req.params.id || req.body.id], a well-formed id when present. *)
Definition canAccessResource (resourceType : string) (stores : Stores)
    (user : option User) (resourceId : option ObjectId) : Outcome :=
  match user with
  | None => Sent authRequired
  | Some u =>
      if String.eqb (role u) "admin" then Next
      else
        match resourceId with
        | None => Next
        | Some id =>
            let found :=
              if String.eqb resourceType "customer"
              then Some (customer stores !! id)
              else if String.eqb resourceType "order"
              then Some (order stores !! id)
              else if String.eqb resourceType "inquiry"
              then Some (inquiry stores !! id)
              else None in
            match found with
            | None => Next
            | Some None => Sent (Routes.json 404 false "Resource not found")
            | Some (Some resource) =>
                if refers (assignedTo resource) u then Next
                else if refers (createdBy resource) u then Next
                else if default false
                          (permission (permissions u) resourceType)
                then Next
                else Sent (Routes.json 403 false
                             ("Access denied to " +:+ resourceType))
            end
        end
  end.

(** The guard of the routes on one customer, order or inquiry:
    [checkPermission(key)] and then [canAccessResource(resourceType)]. *)
Definition guard (key resourceType : string) (stores : Stores)
    (user : option User) (resourceId : option ObjectId) : Outcome :=
  match checkPermission key user with
  | Next => canAccessResource resourceType stores user resourceId
  | Sent r => Sent r
  end.

(** A staff user with the default permissions, and collections in which
    customer 1 is assigned to that user and customer 2 to nobody. *)
Definition clerk : User :=
  mkUser 7 "staff" (mkPermissions true true true true true false).

Definition office : Stores :=
  mkStores {[1%positive := mkResource (Some 7%positive) None;
             2%positive := mkResource None None]} ∅ ∅.

End Auth.

(** ** Paged listings *)

(** The paging of [GET /api/inquiries], [GET /api/orders] and the other
    listings.  [matching] is what [find(filter).sort(sort)] ranges over, in
    that order; [page] and [limit] are [parseInt(page)] and
    [parseInt(limit)], both at least 1 (a [limit] of 0 is no limit to
    MongoDB, and it refuses a negative [skip]). *)
Module Paging.

Record Pagination := mkPagination {
  currentPage : Z;
  totalPages : Z;
  total : Z;
  hasNextPage : bool;
  hasPrevPage : bool
}.

(** [Math.ceil(total / limit)] for [limit >= 1] *)
Definition ceilDiv (total limit : Z) : Z := (total + limit - 1) / limit.

Definition listing {A} (matching : list A) (page limit : Z)
    : list A * Pagination :=
  let skip := (page - 1) * limit in
  let docs := take (Z.to_nat limit) (drop (Z.to_nat skip) matching) in
  let total := Z.of_nat (length matching) in
  (docs,
   mkPagination page (ceilDiv total limit) total
     (skip + Z.of_nat (length docs) <? total) (1 <? page)).

(** The documents of the pages 1 to [n], one page after the other. *)
Definition pagesUpTo {A} (matching : list A) (limit : Z) (n : nat) : list A :=
  concat ((fun k => (listing matching (Z.of_nat (S k)) limit).1) <$> seq 0 n).

End Paging.

(** ** Order entry *)

(** Of [POST /api/orders], the loop that checks every requested line
    against the stock and builds the line items, and the order document
    made from them. *)
Module OrderEntry.

(** An element of [req.body.items]. *)
Record Line := mkLine {
  product : ObjectId;
  quantity : Z;
  unitPrice : Z;
  notes : option string
}.

(** The loop [for (const item of items)] from the state [subtotal],
    [orderItems] on: the answer of the first line that fails, or the
    subtotal and the line items. *)
Fixpoint collectItems (products : gmap positive Product.t)
    (items : list Line) (subtotal : Z) (orderItems : list Order.Item)
    : Response + Z * list Order.Item :=
  match items with
  | [] => inr (subtotal, orderItems)
  | item :: rest =>
      match products !! product item with
      | None =>
          inl (Routes.json 404 false
                 ("Product " +:+ Js.idToString (product item) +:+ " not found"))
      | Some p =>
          if Product.stockQuantity p <? quantity item then
            inl (Routes.json 400 false
                   ("Insufficient stock for product " +:+ Product.name p
                    +:+ ". Available: "
                    +:+ Js.numToString (Product.stockQuantity p)))
          else
            let totalPrice := quantity item * unitPrice item in
            collectItems products rest (subtotal + totalPrice)
              (orderItems
               ++ [Order.mkItem (product item) (Some (Product.name p))
                     (Some (Product.code p)) (quantity item) (unitPrice item)
                     totalPrice (notes item)])
      end
  end.

(** [new Order(orderData)]: [totalAmount] is the subtotal, the other paths of
    [Order.t] take the defaults of the schema. *)
Definition newOrder (orderNumber : string) (customer : ObjectId)
    (subtotal : Z) (orderItems : list Order.Item) : Order.t :=
  Order.mk orderNumber "draft" customer (Some orderItems) subtotal
    (Some 0) (Some 0) (Some 0) subtotal "pending" "cash" 0.

(** A line the stock covers, taken alone. *)
Definition available (products : gmap positive Product.t) (item : Line)
    : Prop :=
  exists p,
    products !! product item = Some p
    /\ quantity item <= Product.stockQuantity p.

(** The line item the loop builds for a line. *)
Definition built (products : gmap positive Product.t) (item : Line)
    (orderItem : Order.Item) : Prop :=
  exists p,
    products !! product item = Some p
    /\ orderItem
       = Order.mkItem (product item) (Some (Product.name p))
           (Some (Product.code p)) (quantity item) (unitPrice item)
           (quantity item * unitPrice item) (notes item).

(** Two lines of polo shirts, of a stock of 50. *)
Definition stock : gmap positive Product.t :=
  {[5%positive := Product.mk "Polo shirt" "PS01" 200 50 10;
    6%positive := Product.mk "Apron" "AP01" 120 8 10]}.

Definition request : list Line :=
  [mkLine 5 30 200 None; mkLine 6 8 120 (Some "embroidered")].

End OrderEntry.

(** ** Customer administration *)

(** [DELETE /api/customers/:id] on the collections of [Routes.Db]. *)
Module CustomerDesk.

(** [Customer.findById(id)] *)
Definition findById (customers : list Customer.t) (id : ObjectId)
    : option Customer.t :=
  List.find (fun c => Pos.eqb (Customer._id c) id) customers.

(** [Customer.findByIdAndDelete(id)]: the stored collection without the
    document of that [_id]. *)
Fixpoint removeById (id : ObjectId) (customers : list Customer.t)
    : list Customer.t :=
  match customers with
  | [] => []
  | c :: rest =>
      if Pos.eqb (Customer._id c) id then rest else c :: removeById id rest
  end.

(** [Order.exists({ customer: id })] *)
Definition hasOrders (orders : gmap positive Order.t) (id : ObjectId) : bool :=
  bool_decide (map_Exists (fun _ order => Order.customer order = id) orders).

Definition deleteCustomer (db : Routes.Db) (id : ObjectId)
    : Response * Routes.Db :=
  match findById (Routes.customers db) id with
  | None => (Routes.json 404 false "Customer not found", db)
  | Some _ =>
      if hasOrders (Routes.orders db) id then
        (Routes.json 400 false "Cannot delete customer with existing orders",
         db)
      else
        (Routes.json 200 true "Customer deleted successfully",
         Routes.with_customers db (removeById id (Routes.customers db)))
  end.

(** Every stored order names a stored customer. *)
Definition ordersResolved (db : Routes.Db) : Prop :=
  forall oid order,
    Routes.orders db !! oid = Some order ->
    is_Some (findById (Routes.customers db) (Order.customer order)).

(** The hotel customer with one draft order. *)
Definition ledger : Routes.Db :=
  Routes.mkDb [Sample.hotelCustomer] ∅ ∅
    {[1%positive := Sample.shirtOrder "draft"]}.

End CustomerDesk.

(** * Properties *)

(** ** Stock *)

Section StockFacts.

Import Product.

Lemma updateStock_decrease this quantity :
  stockQuantity (updateStock this quantity "decrease")
  = Z.max 0 (stockQuantity this - quantity).
Proof. reflexivity. Qed.

Lemma updateStock_increase this quantity :
  stockQuantity (updateStock this quantity "increase")
  = stockQuantity this + quantity.
Proof. reflexivity. Qed.

Lemma updateStock_cases this quantity operation :
  stockQuantity (updateStock this quantity operation)
    = Z.max 0 (stockQuantity this - quantity)
  \/ stockQuantity (updateStock this quantity operation)
    = stockQuantity this + quantity
  \/ updateStock this quantity operation = this.
Proof.
  unfold updateStock.
  destruct (String.eqb operation "decrease"); [by left|].
  destruct (String.eqb operation "increase"); [by right; left|by right; right].
Qed.

Lemma updateStock_nonneg this quantity operation :
  0 <= stockQuantity this -> 0 <= quantity ->
  0 <= stockQuantity (updateStock this quantity operation).
Proof.
  intros Hs Hq.
  destruct (updateStock_cases this quantity operation) as [E|[E|E]];
    rewrite E; lia.
Qed.

Lemma updateStockSeq_nonneg calls : forall this,
  0 <= stockQuantity this -> Forall (fun c => 0 <= c.1) calls ->
  0 <= stockQuantity (updateStockSeq this calls).
Proof.
  induction calls as [|c calls IH]; intros this Hs Hq; [done|].
  inversion Hq; subst. cbn. apply IH; [|done].
  by apply updateStock_nonneg.
Qed.

(** Whatever the call, the stored stock stays on the valid side of the
    validator. *)
Lemma updateStockById_stored_nonneg (products : gmap positive t) id quantity operation :
  (forall p, products !! id = Some p -> 0 <= stockQuantity p) ->
  forall p, updateStockById products id quantity operation !! id = Some p ->
            0 <= stockQuantity p.
Proof.
  intros Hinv p. unfold updateStockById.
  destruct (products !! id) as [product|] eqn:E; [|rewrite E; done].
  unfold save.
  destruct (stockQuantity (updateStock product quantity operation) <? 0) eqn:Hneg.
  - intros Hp. apply Hinv. congruence.
  - rewrite lookup_insert_eq. intros [= <-]. lia.
Qed.

Lemma updateStockByIdSeq_stored_nonneg calls :
  forall (products : gmap positive t) id,
  (forall p, products !! id = Some p -> 0 <= stockQuantity p) ->
  forall p, updateStockByIdSeq products id calls !! id = Some p ->
            0 <= stockQuantity p.
Proof.
  induction calls as [|c calls IH]; intros products id Hinv p; cbn.
  - apply Hinv.
  - apply IH. by apply updateStockById_stored_nonneg.
Qed.

(** With a quantity that is not negative the save goes through and the
    stored stock is the one [updateStock] computed. *)
Lemma updateStockById_stored (products : gmap positive t) id product quantity operation :
  products !! id = Some product ->
  0 <= stockQuantity product -> 0 <= quantity ->
  updateStockById products id quantity operation
  = <[id := updateStock product quantity operation]> products.
Proof.
  intros E Hs Hq. unfold updateStockById, save. rewrite E.
  pose proof (updateStock_nonneg product quantity operation Hs Hq).
  destruct (_ <? 0) eqn:Hneg; [lia|done].
Qed.

(** The save after a call: a result that is not negative is stored, a
    negative one is refused and the collection stays as it was. *)
Lemma updateStockById_cases (products : gmap positive t) id product quantity operation :
  products !! id = Some product ->
  (0 <= stockQuantity (updateStock product quantity operation) ->
   updateStockById products id quantity operation
   = <[id := updateStock product quantity operation]> products)
  /\ (stockQuantity (updateStock product quantity operation) < 0 ->
      updateStockById products id quantity operation = products).
Proof.
  intros E. unfold updateStockById, save. rewrite E.
  destruct (Z.ltb_spec (stockQuantity (updateStock product quantity operation)) 0);
    split; intros; (done || lia).
Qed.

(** Requests with quantities that are not negative all take effect: the
    stored product goes through the calls one by one. *)
Lemma updateStockByIdSeq_stored calls :
  forall (products : gmap positive t) id product,
  products !! id = Some product ->
  0 <= stockQuantity product -> Forall (fun c => 0 <= c.1) calls ->
  updateStockByIdSeq products id calls !! id
  = Some (updateStockSeq product calls).
Proof.
  induction calls as [|c calls IH]; intros products id product E Hs Hq; [done|].
  inversion Hq as [|? ? Hc Hrest]; subst. cbn.
  rewrite (updateStockById_stored _ _ _ _ _ E Hs Hc).
  apply IH; [apply lookup_insert_eq|by apply updateStock_nonneg|done].
Qed.

Lemma updateStockSeq_decreases_nonneg qs : forall this,
  0 <= stockQuantity this ->
  0 <= stockQuantity (updateStockSeq this ((fun q => (q, "decrease")) <$> qs)).
Proof.
  induction qs as [|q qs IH]; intros this Hs; [done|].
  change (0 <= stockQuantity
                 (updateStockSeq (updateStock this q "decrease")
                    ((fun q => (q, "decrease")) <$> qs))).
  apply IH. rewrite updateStock_decrease. lia.
Qed.

(** C5. A decrease sets the stock to max(0, stock - q) and an increase adds
    q, whatever q and the stock are.  A stock that is not negative stays so
    through every sequence of decreases, and through every sequence of calls
    whose quantities are not negative.  On the stored product a call takes
    effect exactly when its result is not negative, the save refusing a
    negative stock and leaving the collection as it was: requests with
    quantities that are not negative all take effect, and the stored stock
    stays at or above zero through every sequence of requests
    whatsoever. *)
Theorem updateStock_stock_floor :
  (forall this quantity,
     stockQuantity (updateStock this quantity "decrease")
     = Z.max 0 (stockQuantity this - quantity))
  /\ (forall this quantity,
     stockQuantity (updateStock this quantity "increase")
     = stockQuantity this + quantity)
  /\ (forall this qs,
     0 <= stockQuantity this ->
     0 <= stockQuantity
            (updateStockSeq this ((fun q => (q, "decrease")) <$> qs)))
  /\ (forall this calls,
     0 <= stockQuantity this -> Forall (fun c => 0 <= c.1) calls ->
     0 <= stockQuantity (updateStockSeq this calls))
  /\ (forall (products : gmap positive t) id product quantity operation,
     products !! id = Some product ->
     (0 <= stockQuantity (updateStock product quantity operation) ->
      updateStockById products id quantity operation
      = <[id := updateStock product quantity operation]> products)
     /\ (stockQuantity (updateStock product quantity operation) < 0 ->
         updateStockById products id quantity operation = products))
  /\ (forall (products : gmap positive t) id product calls,
     products !! id = Some product ->
     0 <= stockQuantity product -> Forall (fun c => 0 <= c.1) calls ->
     updateStockByIdSeq products id calls !! id
     = Some (updateStockSeq product calls))
  /\ (forall (products : gmap positive t) id calls,
     (forall p, products !! id = Some p -> 0 <= stockQuantity p) ->
     forall p, updateStockByIdSeq products id calls !! id = Some p ->
               0 <= stockQuantity p).
Proof.
  split; [exact updateStock_decrease|].
  split; [exact updateStock_increase|].
  split; [intros this qs; apply updateStockSeq_decreases_nonneg|].
  split; [intros this calls; apply updateStockSeq_nonneg|].
  split; [intros products id product quantity operation;
          apply updateStockById_cases|].
  split.
  - intros products id product calls. apply updateStockByIdSeq_stored.
  - intros products id calls. apply updateStockByIdSeq_stored_nonneg.
Qed.

End StockFacts.

Lemma updateStock_stock_floor_witness :
  (0 <= Product.stockQuantity Sample.shirt
   /\ 0 <= Product.stockQuantity
             (Product.updateStockSeq Sample.shirt
                ((fun q => (q, "decrease")) <$> [70; -30; 5])))
  /\ (Forall (fun c : Z * string => 0 <= c.1)
        [(70, "decrease"); (30, "increase")]
      /\ 0 <= Product.stockQuantity
                (Product.updateStockSeq Sample.shirt
                   [(70, "decrease"); (30, "increase")]))
  /\ (({[5%positive := Sample.shirt]} : gmap positive Product.t) !! 5%positive
      = Some Sample.shirt
      /\ Product.updateStockById {[5%positive := Sample.shirt]} 5%positive 70
           "decrease"
         = <[5%positive := Product.updateStock Sample.shirt 70 "decrease"]>
             {[5%positive := Sample.shirt]}
      /\ Product.updateStockById {[5%positive := Sample.shirt]} 5%positive
           (-70) "increase"
         = {[5%positive := Sample.shirt]}
      /\ Product.updateStockByIdSeq {[5%positive := Sample.shirt]} 5%positive
           [(70, "decrease"); (30, "increase")] !! 5%positive
         = Some (Product.updateStockSeq Sample.shirt
                   [(70, "decrease"); (30, "increase")]))
  /\ ((forall p,
         ({[5%positive := Sample.shirt]} : gmap positive Product.t)
           !! 5%positive = Some p ->
         0 <= Product.stockQuantity p)
      /\ forall p,
           Product.updateStockByIdSeq {[5%positive := Sample.shirt]} 5%positive
             [(70, "decrease"); (-30, "increase"); (30, "increase")]
             !! 5%positive = Some p ->
           0 <= Product.stockQuantity p).
Proof.
  assert (H0 : 0 <= Product.stockQuantity Sample.shirt) by (simpl; lia).
  assert (Hq : Forall (fun c : Z * string => 0 <= c.1)
                 [(70, "decrease"); (30, "increase")])
    by (repeat constructor; simpl; lia).
  assert (Hl : ({[5%positive := Sample.shirt]} : gmap positive Product.t)
                 !! 5%positive = Some Sample.shirt)
    by (vm_compute; reflexivity).
  assert (Hs : forall p,
             ({[5%positive := Sample.shirt]} : gmap positive Product.t)
               !! 5%positive = Some p ->
             0 <= Product.stockQuantity p)
    by (intros p; rewrite lookup_singleton_eq; intros [= <-]; simpl; lia).
  destruct updateStock_stock_floor
    as (_ & _ & Hdec & Hseq & Hcall & Hstored & Hinv).
  split; [|split; [|split]].
  - split; [exact H0|]. exact (Hdec Sample.shirt [70; -30; 5] H0).
  - split; [exact Hq|]. exact (Hseq _ _ H0 Hq).
  - split; [exact Hl|].
    split; [apply (proj1 (Hcall _ _ _ 70 "decrease" Hl)); simpl; lia|].
    split; [apply (proj2 (Hcall _ _ _ (-70) "increase" Hl)); simpl; lia|].
    exact (Hstored _ _ _ _ Hl H0 Hq).
  - split; [exact Hs|]. exact (Hinv _ _ _ Hs).
Defined.

(** C5 as stated does not hold of every sequence of calls: an increase by a
    negative quantity takes the stock of the document below zero.  The save
    that ends the call refuses it, and the stored product keeps its
    stock. *)
Lemma updateStock_negative_increase_counterexample :
  0 <= Product.stockQuantity Sample.shirt
  /\ Product.stockQuantity (Product.updateStock Sample.shirt (-70) "increase")
     = -20
  /\ Product.stockQuantity
       (Product.updateStockSeq Sample.shirt
          [(-70, "increase"); (10, "decrease")]) = 0
  /\ Product.updateStockById {[5%positive := Sample.shirt]} 5%positive (-70)
       "increase"
     = {[5%positive := Sample.shirt]}.
Proof. vm_compute. repeat split; (reflexivity || discriminate). Qed.

(** ** Order totals *)

Section OrderFacts.

Import Order.

Lemma fold_left_totalPrice (l : list Item) : forall acc,
  fold_left (fun sum item => sum + totalPrice item) l acc
  = acc + sumZ (totalPrice <$> l).
Proof.
  induction l as [|item l IH]; intros acc; cbn; [lia|].
  rewrite IH. unfold sumZ. lia.
Qed.

Lemma orZero_default n : Js.orZero n = default 0 n.
Proof.
  destruct n as [v|]; [|done]. unfold Js.orZero; cbn.
  destruct (Z.eqb_spec v 0); cbn; congruence.
Qed.

Lemma calculateTotals_subtotal this :
  subtotal (calculateTotals this) = sumZ (totalPrice <$> default [] (items this)).
Proof.
  unfold calculateTotals; cbn.
  destruct (items this) as [l|]; [|done].
  by rewrite fold_left_totalPrice.
Qed.

Lemma calculateTotals_totalAmount this :
  totalAmount (calculateTotals this)
  = subtotal (calculateTotals this) + default 0 (tax this)
    + default 0 (shippingCost this) - default 0 (discount this).
Proof. unfold calculateTotals; cbn. by rewrite !orZero_default. Qed.

Lemma addItem_items this itemData :
  items (addItem this itemData)
  = Some (default [] (items this) ++ [makeItem itemData]).
Proof. unfold addItem. destruct (items this) as [l|] eqn:E; cbn; by rewrite ?E. Qed.

(** C6. After calculateTotals the subtotal is the sum of the line items'
    totalPrice and totalAmount is subtotal + tax + shippingCost - discount
    (an undefined charge counts as zero); addItem appends the item with
    totalPrice = quantity * unitPrice and leaves the order in that state. *)
Theorem calculateTotals_invariant :
  (forall this,
     let o := calculateTotals this in
     items o = items this
     /\ subtotal o = sumZ (totalPrice <$> default [] (items o))
     /\ totalAmount o = subtotal o + default 0 (tax o)
                        + default 0 (shippingCost o) - default 0 (discount o))
  /\ (forall this itemData,
     let o := addItem this itemData in
     exists item,
       items o = Some (default [] (items this) ++ [item])
       /\ totalPrice item = d_quantity itemData * d_unitPrice itemData
       /\ quantity item = d_quantity itemData
       /\ unitPrice item = d_unitPrice itemData
       /\ subtotal o = sumZ (totalPrice <$> default [] (items o))
       /\ totalAmount o = subtotal o + default 0 (tax o)
                          + default 0 (shippingCost o) - default 0 (discount o)).
Proof.
  split.
  - intros this o. subst o. split; [reflexivity|]. split.
    + exact (calculateTotals_subtotal this).
    + exact (calculateTotals_totalAmount this).
  - intros this itemData o. exists (makeItem itemData).
    split; [apply addItem_items|]. do 3 (split; [reflexivity|]).
    subst o. unfold addItem.
    set (o2 := with_items _ _). split.
    + exact (calculateTotals_subtotal o2).
    + exact (calculateTotals_totalAmount o2).
Qed.

End OrderFacts.

(** ** Payment status *)

Section PaymentFacts.

Import Order.








End PaymentFacts.

(** Outside what the payment route accepts, the last branch is not taken to
    'pending': a payment of zero on an order that owes nothing any more
    keeps the status it had. *)
Remark updatePayment_zero_keeps_status :
  Order.paymentStatus
    (Order.updatePayment
       (Order.mk "UP2024010002" "pending" 1%positive (Some []) 2000 None None
          None 2000 "paid" "cash" 0) 0) = "paid".
Proof. reflexivity. Qed.

(** ** Inquiry status and conversion link *)

Section InquiryFacts.

Import Inquiry.

Lemma addNote_convertedTo this content userId isInternal now :
  convertedTo (addNote this content userId isInternal now) = convertedTo this.
Proof. reflexivity. Qed.

Lemma addCommunication_convertedTo this commData userId now :
  convertedTo (addCommunication this commData userId now) = convertedTo this.
Proof. unfold addCommunication. by destruct (_ && _). Qed.

Lemma addCommunication_status this commData userId now :
  status (addCommunication this commData userId now) = status this.
Proof. unfold addCommunication. by destruct (_ && _). Qed.

Lemma assignTo_convertedTo this userId notes now :
  convertedTo (assignTo this userId notes now) = convertedTo this.
Proof. unfold assignTo. by destruct (negb _). Qed.

Lemma scheduleFollowUp_convertedTo this date notes :
  convertedTo (scheduleFollowUp this date notes) = convertedTo this.
Proof. reflexivity. Qed.

Lemma updateStatus_status this newStatus userId notes now :
  status (updateStatus this newStatus userId notes now) = newStatus.
Proof.
  unfold updateStatus.
  destruct (negb (String.eqb notes "")); by destruct (_ && _).
Qed.

Lemma updateStatus_customer this newStatus userId notes now :
  customer (convertedTo (updateStatus this newStatus userId notes now))
  = customer (convertedTo this).
Proof.
  unfold updateStatus.
  destruct (negb (String.eqb notes "")); by destruct (_ && _).
Qed.

Lemma updateStatus_converted_dates this userId notes now :
  let i := updateStatus this "converted" userId notes now in
  match conversionDate (convertedTo this) with
  | None =>
      conversionDate (convertedTo i) = Some now /\ resolutionTime i = Some now
  | Some d =>
      conversionDate (convertedTo i) = Some d
      /\ resolutionTime i = resolutionTime this
  end.
Proof.
  unfold updateStatus; cbn.
  destruct (conversionDate (convertedTo this)) as [d|] eqn:E; cbn;
    destruct (negb (String.eqb notes "")); cbn; rewrite ?E; done.
Qed.

Lemma convertToCustomer_customer this customerId orderId conversionValue now :
  customer (convertedTo
              (convertToCustomer this customerId orderId conversionValue now))
  = Some customerId.
Proof. reflexivity. Qed.

(** Every method but convertToCustomer leaves the customer link alone. *)
Lemma call_customer this m now :
  customer (convertedTo (call this m now)) = customer (convertedTo this)
  \/ exists customerId orderId conversionValue,
       m = CallConvertToCustomer customerId orderId conversionValue.
Proof.
  destruct m as [commData userId|content userId isInternal
                |newStatus userId notes|userId notes|date notes
                |customerId orderId conversionValue]; cbn [call].
  - left. by rewrite addCommunication_convertedTo.
  - left. reflexivity.
  - left. apply updateStatus_customer.
  - left. by rewrite assignTo_convertedTo.
  - left. reflexivity.
  - right. eauto.
Qed.

(** C10. updateStatus(inquiry, 'converted', actor, notes) sets the status to
    'converted'; when convertedTo.conversionDate was unset it sets
    conversionDate and resolutionTime to the current time; it never changes
    convertedTo.customer.  So a newly created inquiry reaches status
    'converted' with an empty customer link, and among the methods of the
    inquiry only convertToCustomer changes the link, which it sets to the
    customer id it is given. *)
Theorem updateStatus_converted_leaves_customer_link :
  (forall this userId notes now,
     let i := updateStatus this "converted" userId notes now in
     status i = "converted"
     /\ (conversionDate (convertedTo this) = None ->
         conversionDate (convertedTo i) = Some now
         /\ resolutionTime i = Some now)
     /\ customer (convertedTo i) = customer (convertedTo this))
  /\ (forall data created userId notes now,
     let i := updateStatus (create data created) "converted" userId notes now in
     status i = "converted" /\ customer (convertedTo i) = None)
  /\ (forall this m now,
     customer (convertedTo (call this m now)) <> customer (convertedTo this) ->
     exists customerId orderId conversionValue,
       m = CallConvertToCustomer customerId orderId conversionValue
       /\ customer (convertedTo (call this m now)) = Some customerId).
Proof.
  split; [|split].
  - intros this userId notes now i. subst i.
    split; [apply updateStatus_status|]. split.
    + intros Hnone.
      pose proof (updateStatus_converted_dates this userId notes now) as H.
      cbn zeta in H. by rewrite Hnone in H.
    + apply updateStatus_customer.
  - intros data created userId notes now i. subst i.
    split; [apply updateStatus_status|].
    by rewrite updateStatus_customer.
  - intros this m now Hchanged.
    destruct (call_customer this m now) as [Hsame|(c & o & v & ->)];
      [done|].
    exists c, o, v. split; reflexivity.
Qed.

End InquiryFacts.

Lemma updateStatus_converted_leaves_customer_link_witness :
  Inquiry.conversionDate (Inquiry.convertedTo Sample.acme) = None
  /\ Inquiry.conversionDate
       (Inquiry.convertedTo
          (Inquiry.updateStatus Sample.acme "converted" Sample.staff ""
             Sample.jan16)) = Some Sample.jan16
  /\ Inquiry.resolutionTime
       (Inquiry.updateStatus Sample.acme "converted" Sample.staff ""
          Sample.jan16) = Some Sample.jan16
  /\ Inquiry.customer
       (Inquiry.convertedTo
          (Inquiry.call Sample.acme
             (Inquiry.CallConvertToCustomer 5%positive None 0) Sample.jan16))
     <> Inquiry.customer (Inquiry.convertedTo Sample.acme)
  /\ exists customerId orderId conversionValue,
       Inquiry.CallConvertToCustomer 5%positive None 0
       = Inquiry.CallConvertToCustomer customerId orderId conversionValue
       /\ Inquiry.customer
            (Inquiry.convertedTo
               (Inquiry.call Sample.acme
                  (Inquiry.CallConvertToCustomer 5%positive None 0)
                  Sample.jan16)) = Some customerId.
Proof.
  assert (H : Inquiry.conversionDate (Inquiry.convertedTo Sample.acme) = None)
    by reflexivity.
  assert (Hne : Inquiry.customer
                  (Inquiry.convertedTo
                     (Inquiry.call Sample.acme
                        (Inquiry.CallConvertToCustomer 5%positive None 0)
                        Sample.jan16))
                <> Inquiry.customer (Inquiry.convertedTo Sample.acme))
    by discriminate.
  split; [exact H|].
  split; [|split; [|split; [exact Hne|]]].
  - exact (proj1 (proj1 (proj2 (proj1
             updateStatus_converted_leaves_customer_link
             Sample.acme Sample.staff "" Sample.jan16)) H)).
  - exact (proj2 (proj1 (proj2 (proj1
             updateStatus_converted_leaves_customer_link
             Sample.acme Sample.staff "" Sample.jan16)) H)).
  - exact (proj2 (proj2 updateStatus_converted_leaves_customer_link)
             Sample.acme _ Sample.jan16 Hne).
Defined.

Example sample_acmeDb :
  Routes.inquiries Sample.acmeDb !! 1%positive = Some Sample.acme.
Proof. vm_compute. reflexivity. Qed.

(** ** Deleting an inquiry *)

Section DeleteInquiryFacts.

Import Routes.

(** C3, as the handler has it. For every stored inquiry whose status is
    'converted' and whose convertedTo.customer is set, the delete operation
    is rejected with status 400 and the message 'Cannot delete converted
    inquiries. Please archive instead.', and the database, the inquiry
    included, stays as it was. *)
Theorem deleteInquiry_converted_rejected db id inquiry :
  inquiries db !! id = Some inquiry ->
  Inquiry.status inquiry = "converted" ->
  is_Some (Inquiry.customer (Inquiry.convertedTo inquiry)) ->
  deleteInquiry db id
  = (json 400 false "Cannot delete converted inquiries. Please archive instead.",
     db).
Proof.
  intros Hfound Hstatus [c Hlink]. unfold deleteInquiry.
  by rewrite Hfound, Hstatus, Hlink.
Qed.

(** Every other stored inquiry is removed. *)
Lemma deleteInquiry_otherwise_removed db id inquiry :
  inquiries db !! id = Some inquiry ->
  Inquiry.status inquiry <> "converted"
  \/ Inquiry.customer (Inquiry.convertedTo inquiry) = None ->
  (deleteInquiry db id).1 = json 200 true "Inquiry deleted successfully"
  /\ inquiries (deleteInquiry db id).2 !! id = None.
Proof.
  intros Hfound Hguard. unfold deleteInquiry. rewrite Hfound.
  assert (String.eqb (Inquiry.status inquiry) "converted"
          && Js.truthyO (Inquiry.customer (Inquiry.convertedTo inquiry))
          = false) as ->.
  { destruct Hguard as [Hne| ->]; [|by rewrite andb_false_r].
    apply String.eqb_neq in Hne. by rewrite Hne. }
  cbn. split; [done|]. apply lookup_delete_eq.
Qed.

End DeleteInquiryFacts.

Lemma deleteInquiry_converted_rejected_witness :
  Routes.inquiries Sample.convertedDb !! 1%positive = Some Sample.convertedAcme
  /\ Inquiry.status Sample.convertedAcme = "converted"
  /\ is_Some (Inquiry.customer (Inquiry.convertedTo Sample.convertedAcme))
  /\ Routes.deleteInquiry Sample.convertedDb 1%positive
     = (Routes.json 400 false
          "Cannot delete converted inquiries. Please archive instead.",
        Sample.convertedDb).
Proof.
  assert (H1 : Routes.inquiries Sample.convertedDb !! 1%positive
               = Some Sample.convertedAcme) by (vm_compute; reflexivity).
  assert (H2 : Inquiry.status Sample.convertedAcme = "converted")
    by (vm_compute; reflexivity).
  assert (H3 : is_Some (Inquiry.customer
                          (Inquiry.convertedTo Sample.convertedAcme)))
    by (vm_compute; eexists; reflexivity).
  split; [exact H1|]. split; [exact H2|]. split; [exact H3|].
  exact (deleteInquiry_converted_rejected _ _ _ H1 H2 H3).
Defined.

(** C3 as stated does not hold: an inquiry with status 'converted' and no
    customer link is deleted. *)
Lemma deleteInquiry_converted_counterexample :
  Routes.inquiries Sample.markedDb !! 1%positive = Some Sample.markedAcme
  /\ Inquiry.status Sample.markedAcme = "converted"
  /\ Inquiry.customer (Inquiry.convertedTo Sample.markedAcme) = None
  /\ Routes.deleteInquiry Sample.markedDb 1%positive
     = (Routes.json 200 true "Inquiry deleted successfully",
        Routes.with_inquiries Sample.markedDb ∅)
  /\ Routes.inquiries (Routes.deleteInquiry Sample.markedDb 1%positive).2
       !! 1%positive = None.
Proof. vm_compute. repeat split; reflexivity. Qed.

(** ** Converting an inquiry: the guard *)

Section ConvertGuardFacts.

Import Routes.

(** The guard "Check if already converted". *)
Lemma convertToCustomer_guard db id body user now newId inquiry :
  inquiries db !! id = Some inquiry ->
  Inquiry.status inquiry = "converted" ->
  is_Some (Inquiry.customer (Inquiry.convertedTo inquiry)) ->
  convertToCustomer db id body user now newId
  = mkConvertResult
      (json 400 false
         (if convertBodyValid body
          then "Inquiry has already been converted to a customer"
          else "Validation errors"))
      None None db.
Proof.
  intros Hfound Hstatus [c Hlink]. unfold convertToCustomer.
  destruct (convertBodyValid body); cbn [negb]; [|done].
  by rewrite Hfound, Hstatus, Hlink.
Qed.

(** C2, as the handler has it. For every stored inquiry whose status is
    'converted' and whose convertedTo.customer is set, invoking the convert
    operation again fails with status 400 (with the message 'Inquiry has
    already been converted to a customer' when the request body is
    well-formed), hands back no customer, and leaves the database as it was:
    no customer is created and the inquiry, its convertedTo record included,
    is unchanged. *)
Theorem convertToCustomer_already_converted
    db id body user now newId inquiry :
  inquiries db !! id = Some inquiry ->
  Inquiry.status inquiry = "converted" ->
  is_Some (Inquiry.customer (Inquiry.convertedTo inquiry)) ->
  let r := convertToCustomer db id body user now newId in
  statusCode (response r) = 400
  /\ success (response r) = false
  /\ customer r = None
  /\ db' r = db
  /\ inquiries (db' r) !! id = Some inquiry
  /\ customers (db' r) = customers db
  /\ (convertBodyValid body = true ->
      message (response r) = "Inquiry has already been converted to a customer").
Proof.
  intros Hfound Hstatus Hlink r. subst r.
  rewrite (convertToCustomer_guard _ _ _ _ _ _ _ Hfound Hstatus Hlink). cbn.
  do 6 (split; [done|]). by intros ->.
Qed.

Lemma stampInquiry_success db id inquiry c isNew user now :
  statusCode (response (stampInquiry db id inquiry c isNew user now)) = 200 ->
  inquiries (db' (stampInquiry db id inquiry c isNew user now)) !! id
  = Some (Inquiry.addCommunication
            (Inquiry.convertToCustomer inquiry (Customer._id c) None 0 now)
            (conversionComm isNew (Customer._id c)) user now)
  /\ customer (stampInquiry db id inquiry c isNew user now) = Some c.
Proof.
  unfold stampInquiry, Inquiry.save.
  destruct (Inquiry.validate (Inquiry.convertToCustomer _ _ _ _ _));
    [discriminate|].
  destruct (Inquiry.validate (Inquiry.addCommunication _ _ _ _));
    [discriminate|].
  cbn. intros _. by rewrite lookup_insert_eq.
Qed.

(** A conversion that succeeds leaves the inquiry with status 'converted'
    and a customer link. *)
Lemma convertToCustomer_success_stamps db id body user now newId :
  statusCode (response (convertToCustomer db id body user now newId)) = 200 ->
  exists inquiry c,
    inquiries (db' (convertToCustomer db id body user now newId)) !! id
      = Some inquiry
    /\ Inquiry.status inquiry = "converted"
    /\ Inquiry.customer (Inquiry.convertedTo inquiry) = Some (Customer._id c)
    /\ customer (convertToCustomer db id body user now newId) = Some c.
Proof.
  unfold convertToCustomer.
  repeat case_match; try discriminate; intros H200;
    apply stampInquiry_success in H200 as [Hstored Hc];
    eexists _, _; (split; [exact Hstored|]);
    rewrite addCommunication_status, addCommunication_convertedTo;
    (split; [reflexivity|]); (split; [reflexivity|]); exact Hc.
Qed.

End ConvertGuardFacts.

(** Converting again right after a conversion that succeeded is refused. *)
Lemma convertToCustomer_twice db id body user now newId body2 user2 now2 newId2 :
  let r1 := Routes.convertToCustomer db id body user now newId in
  statusCode (Routes.response r1) = 200 ->
  let r2 := Routes.convertToCustomer (Routes.db' r1) id body2 user2 now2 newId2 in
  statusCode (Routes.response r2) = 400 /\ Routes.db' r2 = Routes.db' r1.
Proof.
  intros r1 H200 r2.
  destruct (convertToCustomer_success_stamps _ _ _ _ _ _ H200)
    as (inquiry & c & Hstored & Hstatus & Hlink & _).
  assert (Hsome : is_Some (Inquiry.customer (Inquiry.convertedTo inquiry)))
    by (by rewrite Hlink).
  subst r2 r1.
  by rewrite (convertToCustomer_guard _ _ body2 user2 now2 newId2 _
                Hstored Hstatus Hsome).
Qed.

Lemma convertToCustomer_already_converted_witness :
  Routes.inquiries Sample.convertedDb !! 1%positive = Some Sample.convertedAcme
  /\ Inquiry.status Sample.convertedAcme = "converted"
  /\ is_Some (Inquiry.customer (Inquiry.convertedTo Sample.convertedAcme))
  /\ Routes.convertBodyValid Sample.noBody = true
  /\ Routes.db' (Routes.convertToCustomer Sample.convertedDb 1%positive
                   Sample.noBody Sample.manager Sample.jan20 3%positive)
     = Sample.convertedDb
  /\ message (Routes.response
                (Routes.convertToCustomer Sample.convertedDb 1%positive
                   Sample.noBody Sample.manager Sample.jan20 3%positive))
     = "Inquiry has already been converted to a customer".
Proof.
  assert (H1 : Routes.inquiries Sample.convertedDb !! 1%positive
               = Some Sample.convertedAcme) by (vm_compute; reflexivity).
  assert (H2 : Inquiry.status Sample.convertedAcme = "converted")
    by (vm_compute; reflexivity).
  assert (H3 : is_Some (Inquiry.customer
                          (Inquiry.convertedTo Sample.convertedAcme)))
    by (vm_compute; eexists; reflexivity).
  assert (H4 : Routes.convertBodyValid Sample.noBody = true) by reflexivity.
  split; [exact H1|]. split; [exact H2|]. split; [exact H3|].
  split; [exact H4|].
  pose proof (convertToCustomer_already_converted Sample.convertedDb
                1%positive Sample.noBody Sample.manager Sample.jan20
                3%positive Sample.convertedAcme H1 H2 H3)
    as (_ & _ & _ & Hdb & _ & _ & Hmsg).
  split; [exact Hdb|exact (Hmsg H4)].
Defined.

(** C2 as stated does not hold: an inquiry that has a customer link but has
    been moved back to 'contacted' is converted again, with status 200 and a
    new convertedTo record. *)
Lemma convertToCustomer_guard_counterexample :
  Routes.inquiries Sample.reopenedDb !! 1%positive = Some Sample.reopenedAcme
  /\ Inquiry.status Sample.reopenedAcme = "contacted"
  /\ Inquiry.customer (Inquiry.convertedTo Sample.reopenedAcme)
     = Some 2%positive
  /\ Inquiry.conversionDate (Inquiry.convertedTo Sample.reopenedAcme)
     = Some Sample.jan16
  /\ statusCode
       (Routes.response
          (Routes.convertToCustomer Sample.reopenedDb 1%positive
             Sample.noBody Sample.manager Sample.jan20 3%positive)) = 200
  /\ (Inquiry.conversionDate ∘ Inquiry.convertedTo)
       <$> (Routes.inquiries
              (Routes.db'
                 (Routes.convertToCustomer Sample.reopenedDb 1%positive
                    Sample.noBody Sample.manager Sample.jan20 3%positive))
              !! 1%positive)
     = Some (Some Sample.jan20).
Proof. vm_compute. repeat split; reflexivity. Qed.

(** ** Converting an inquiry: the branches *)

Section ConvertBranchFacts.

Import Routes.

Lemma converted_in_statuses :
  bool_decide ("converted" ∈ Inquiry.statuses) = true.
Proof. by vm_compute. Qed.

(** Validity of an inquiry does not depend on the paths the conversion
    stamps, once the status is 'converted'. *)
Lemma validate_convertToCustomer inquiry customerId orderId value now :
  Inquiry.validate inquiry = None ->
  Inquiry.validate
    (Inquiry.convertToCustomer inquiry customerId orderId value now) = None.
Proof.
  unfold Inquiry.validate, Inquiry.convertToCustomer. cbn.
  rewrite converted_in_statuses. cbn.
  repeat (case_match; try discriminate); done.
Qed.

Lemma validate_addCommunication inquiry commData userId now :
  Inquiry.validate (Inquiry.addCommunication inquiry commData userId now)
  = Inquiry.validate inquiry.
Proof. unfold Inquiry.addCommunication. by destruct (_ && _). Qed.

Lemma validate_addNote (c : Customer.t) content userId now :
  Customer.validate (Customer.addNote c content userId now)
  = Customer.validate c.
Proof. reflexivity. Qed.

(** Once the customer is written, stamping a valid inquiry succeeds. *)
Lemma stampInquiry_valid db id inquiry c isNew user now :
  Inquiry.validate inquiry = None ->
  stampInquiry db id inquiry c isNew user now
  = mkConvertResult
      (json 200 true
         ("Inquiry successfully converted to "
          +:+ (if isNew then "new" else "existing") +:+ " customer"))
      (Some c) (Some isNew)
      (with_inquiries db
         (<[id := Inquiry.addCommunication
                    (Inquiry.convertToCustomer inquiry (Customer._id c) None 0 now)
                    (conversionComm isNew (Customer._id c)) user now]>
            (inquiries db))).
Proof.
  intros Hvalid. unfold stampInquiry, Inquiry.save.
  rewrite validate_addCommunication.
  rewrite (validate_convertToCustomer _ _ _ _ _ Hvalid).
  by rewrite insert_insert_eq.
Qed.

(** *** The existing-customer branch *)

Lemma fillS_populated fromInquiry current :
  Js.truthyS current = true -> fillS fromInquiry current = current.
Proof. intros H. unfold fillS. rewrite H. by rewrite andb_false_r. Qed.

Lemma fillS_empty fromInquiry current :
  Js.truthyS current = false ->
  fillS fromInquiry current
  = if Js.truthyS fromInquiry then fromInquiry else current.
Proof. intros H. unfold fillS. rewrite H. by rewrite andb_true_r. Qed.

Lemma fillN_populated fromInquiry current :
  Js.truthyN current = true -> fillN fromInquiry current = current.
Proof. intros H. unfold fillN. rewrite H. by rewrite andb_false_r. Qed.

(** A populated address line of the customer survives the merge. *)
Lemma mergeAddress_populated fromInquiry current (line : Address.t -> option string) :
  line = Address.street \/ line = Address.city \/ line = Address.state
  \/ line = Address.pincode \/ line = Address.country ->
  Js.truthyS (current ≫= line) = true ->
  mergeAddress fromInquiry current ≫= line = current ≫= line.
Proof.
  intros Hline Hpop. destruct current as [c|]; [|done].
  destruct fromInquiry as [a|]; [|done]. cbn in *.
  destruct Hline as [->|[->|[->|[->| ->]]]]; cbn; by apply fillS_populated.
Qed.

(** Of the paths the merge copies, every one but businessType keeps the
    value the customer had when that value is populated. *)
Lemma mergeInquiry_keeps_populated c inquiry assign status now :
  let m := mergeInquiry c inquiry assign status now in
  (Js.truthyS (Customer.phone c) = true -> Customer.phone m = Customer.phone c)
  /\ (Js.truthyS (Customer.company c) = true ->
      Customer.company m = Customer.company c)
  /\ (Js.truthyS (Customer.industry c) = true ->
      Customer.industry m = Customer.industry c)
  /\ (Js.truthyN (Customer.employeeCount c) = true ->
      Customer.employeeCount m = Customer.employeeCount c)
  /\ (forall line,
        line = Address.street \/ line = Address.city \/ line = Address.state
        \/ line = Address.pincode \/ line = Address.country ->
        Js.truthyS (Customer.address c ≫= line) = true ->
        Customer.address m ≫= line = Customer.address c ≫= line).
Proof.
  cbn. repeat split;
    auto using fillS_populated, fillN_populated, mergeAddress_populated.
Qed.

(** businessType is taken from the inquiry whenever the inquiry has one. *)
Lemma mergeInquiry_businessType c inquiry assign status now :
  Js.truthyS (Inquiry.businessType inquiry) = true ->
  Customer.businessType (mergeInquiry c inquiry assign status now)
  = Inquiry.businessType inquiry.
Proof. intros H. cbn. by rewrite H. Qed.

(** What a merge that succeeds hands back and stores: the customer on file,
    merged and with the conversion note. *)
Lemma convertToCustomer_existing_customer
    db id body user now newId inquiry existing :
  inquiries db !! id = Some inquiry ->
  Customer.findOneByEmail (customers db) (Inquiry.email inquiry)
    = Some existing ->
  let r := convertToCustomer db id body user now newId in
  statusCode (response r) = 200 ->
  let merged :=
    mergeInquiry existing inquiry (assignTo body)
      (default "prospect" (customerStatus body)) now in
  isNewCustomer r = Some false
  /\ customer r
     = Some (Customer.addNote merged
               (mergeNote inquiry (additionalNotes body)) user now)
  /\ customers (db' r)
     = Customer.upsert
         (Customer.addNote merged
            (mergeNote inquiry (additionalNotes body)) user now)
         (Customer.upsert
            (Customer.addNote merged
               (mergeNote inquiry (additionalNotes body)) user now)
            (customers db)).
Proof.
  intros Hfound Hexisting r. subst r. unfold convertToCustomer.
  destruct (negb (convertBodyValid body)); [discriminate|].
  rewrite Hfound. destruct (_ && _); [discriminate|].
  rewrite Hexisting. unfold Customer.save.
  destruct (Customer.validate _); [discriminate|].
  unfold stampInquiry, Inquiry.save.
  destruct (Inquiry.validate (Inquiry.convertToCustomer _ _ _ _ _));
    [discriminate|].
  destruct (Inquiry.validate (Inquiry.addCommunication _ _ _ _));
    [discriminate|].
  done.
Qed.

(** C1 fails on businessType: the merge copies it without looking at the
    customer.  For every conversion that succeeds on an inquiry whose email
    is that of a customer on file, when both have a businessType and the two
    differ, the customer handed back is the one on file, merged, and its
    businessType is the one of the inquiry: the populated businessType of
    the customer has been overwritten. *)
Theorem convertToCustomer_merge_overwrites_businessType
    db id body user now newId inquiry existing :
  inquiries db !! id = Some inquiry ->
  Customer.findOneByEmail (customers db) (Inquiry.email inquiry)
    = Some existing ->
  Js.truthyS (Customer.businessType existing) = true ->
  Js.truthyS (Inquiry.businessType inquiry) = true ->
  Customer.businessType existing <> Inquiry.businessType inquiry ->
  let r := convertToCustomer db id body user now newId in
  statusCode (response r) = 200 ->
  exists c,
    customer r = Some c
    /\ isNewCustomer r = Some false
    /\ Customer._id c = Customer._id existing
    /\ Customer.businessType c = Inquiry.businessType inquiry
    /\ Customer.businessType c <> Customer.businessType existing.
Proof.
  intros Hfound Hexisting _ Hinq Hdiff r H200.
  destruct (convertToCustomer_existing_customer _ _ _ _ _ _ _ _
              Hfound Hexisting H200) as (Hnew & Hc & _).
  eexists. split; [exact Hc|]. split; [exact Hnew|].
  split; [reflexivity|].
  assert (Hbt : forall m content,
            Customer.businessType (Customer.addNote m content user now)
            = Customer.businessType m) by reflexivity.
  rewrite Hbt, (mergeInquiry_businessType _ _ _ _ _ Hinq).
  split; [reflexivity|]. congruence.
Qed.

End ConvertBranchFacts.

Lemma convertToCustomer_merge_overwrites_businessType_witness :
  Routes.inquiries Sample.hotelDb !! 1%positive = Some Sample.acme
  /\ Customer.findOneByEmail (Routes.customers Sample.hotelDb)
       (Inquiry.email Sample.acme) = Some Sample.hotelCustomer
  /\ Customer.businessType Sample.hotelCustomer = Some "hotel"
  /\ Inquiry.businessType Sample.acme = Some "school"
  /\ statusCode
       (Routes.response
          (Routes.convertToCustomer Sample.hotelDb 1%positive Sample.noBody
             Sample.staff Sample.jan16 2%positive)) = 200
  /\ exists c,
       Routes.customer
         (Routes.convertToCustomer Sample.hotelDb 1%positive Sample.noBody
            Sample.staff Sample.jan16 2%positive) = Some c
       /\ Routes.isNewCustomer
            (Routes.convertToCustomer Sample.hotelDb 1%positive Sample.noBody
               Sample.staff Sample.jan16 2%positive) = Some false
       /\ Customer._id c = Customer._id Sample.hotelCustomer
       /\ Customer.businessType c = Inquiry.businessType Sample.acme
       /\ Customer.businessType c <> Customer.businessType Sample.hotelCustomer.
Proof.
  assert (H1 : Routes.inquiries Sample.hotelDb !! 1%positive = Some Sample.acme)
    by (vm_compute; reflexivity).
  assert (H2 : Customer.findOneByEmail (Routes.customers Sample.hotelDb)
                 (Inquiry.email Sample.acme) = Some Sample.hotelCustomer)
    by (vm_compute; reflexivity).
  assert (H3 : Js.truthyS (Customer.businessType Sample.hotelCustomer) = true)
    by reflexivity.
  assert (H4 : Js.truthyS (Inquiry.businessType Sample.acme) = true)
    by reflexivity.
  assert (H5 : Customer.businessType Sample.hotelCustomer
               <> Inquiry.businessType Sample.acme) by discriminate.
  assert (H6 : statusCode
                 (Routes.response
                    (Routes.convertToCustomer Sample.hotelDb 1%positive
                       Sample.noBody Sample.staff Sample.jan16 2%positive))
               = 200) by (vm_compute; reflexivity).
  split; [exact H1|]. split; [exact H2|]. do 2 (split; [reflexivity|]).
  split; [exact H6|].
  exact (convertToCustomer_merge_overwrites_businessType Sample.hotelDb
           1%positive Sample.noBody Sample.staff Sample.jan16 2%positive
           Sample.acme Sample.hotelCustomer H1 H2 H3 H4 H5 H6).
Defined.

(** The sample merge, evaluated: the customer on file as a hotel is stored
    as a school; its phone and street are kept, the company and the country
    it lacked or had are as the guards leave them. *)
Example convertToCustomer_merge_sample :
  let r := Routes.convertToCustomer Sample.hotelDb 1%positive Sample.noBody
             Sample.staff Sample.jan16 2%positive in
  statusCode (Routes.response r) = 200
  /\ Routes.isNewCustomer r = Some false
  /\ Customer.businessType <$> Routes.customers (Routes.db' r) = [Some "school"]
  /\ Customer.phone <$> Routes.customers (Routes.db' r) = [Some "022-555-0100"]
  /\ (fun c => Customer.address c ≫= Address.street)
       <$> Routes.customers (Routes.db' r) = [Some "1 Main Street"].
Proof. vm_compute. repeat split; reflexivity. Qed.

Section ConvertNewCustomerFacts.

Import Routes.

(** *** The new-customer branch *)

(** A customer whose source is not one the customer schema lists does not
    pass validation. *)
Lemma validate_source_rejected (c : Customer.t) :
  Customer.source c ∉ Customer.sources -> Customer.validate c <> None.
Proof.
  intros Hsrc. unfold Customer.validate.
  repeat (case_match; try discriminate);
    match goal with
    | H : negb (bool_decide (Customer.source c ∈ _)) = false |- _ =>
        apply negb_false_iff, bool_decide_eq_true in H; contradiction
    end.
Qed.

Lemma orStr_truthy s d : Js.truthyS (Some s) = true -> Js.orStr (Some s) d = s.
Proof. intros H. unfold Js.orStr. by rewrite H. Qed.

Lemma inquiry_only_sources s :
  s ∈ ["phone"; "email"; "walk-in"] ->
  (s ∈ Inquiry.sources) /\ (s ∉ Customer.sources)
  /\ Js.truthyS (Some s) = true.
Proof.
  rewrite !elem_of_cons, elem_of_nil.
  intros [->|[->|[->|[]]]].
  all: split; [|split]; [| |reflexivity].
  all: apply (bool_decide_unpack _); by vm_compute.
Qed.

(** C9 fails for the sources only the inquiry schema lists.  For every
    stored inquiry that is not yet converted, has no customer under its
    email and has source 'phone', 'email' or 'walk-in' (each a value the
    source field of an inquiry may hold), the conversion ends with status
    500 and 'Server error converting inquiry to customer'; no customer is
    created and the inquiry is left as it was. *)
Theorem convertToCustomer_source_rejected
    db id body user now newId inquiry s :
  convertBodyValid body = true ->
  inquiries db !! id = Some inquiry ->
  Inquiry.customer (Inquiry.convertedTo inquiry) = None ->
  Customer.findOneByEmail (customers db) (Inquiry.email inquiry) = None ->
  Inquiry.source inquiry = Some s ->
  s ∈ ["phone"; "email"; "walk-in"] ->
  (s ∈ Inquiry.sources)
  /\ convertToCustomer db id body user now newId
     = mkConvertResult
         (json 500 false "Server error converting inquiry to customer")
         None None db.
Proof.
  intros Hbody Hfound Hlink Hnone Hsrc Hs.
  destruct (inquiry_only_sources s Hs) as (Hin & Hnotin & Htruthy).
  split; [exact Hin|].
  unfold convertToCustomer. rewrite Hbody, Hfound, Hlink, Hnone. cbn [negb].
  rewrite andb_false_r. unfold Customer.save.
  destruct (Customer.validate _) as [path|] eqn:Hv; [done|].
  exfalso. revert Hv. apply validate_source_rejected. cbn.
  rewrite Hsrc, (orStr_truthy _ _ Htruthy). exact Hnotin.
Qed.

Lemma convertToCustomer_source_rejected_witness :
  Routes.convertBodyValid Sample.noBody = true
  /\ (exists inquiry,
        Routes.inquiries Sample.phoneDb !! 1%positive = Some inquiry
        /\ Inquiry.customer (Inquiry.convertedTo inquiry) = None
        /\ Customer.findOneByEmail (Routes.customers Sample.phoneDb)
             (Inquiry.email inquiry) = None
        /\ Inquiry.source inquiry = Some "phone"
        /\ Inquiry.validate inquiry = None)
  /\ "phone" ∈ ["phone"; "email"; "walk-in"]
  /\ Routes.convertToCustomer Sample.phoneDb 1%positive Sample.noBody
       Sample.staff Sample.jan16 2%positive
     = Routes.mkConvertResult
         (Routes.json 500 false "Server error converting inquiry to customer")
         None None Sample.phoneDb.
Proof.
  set (inquiry := default Sample.acme
                    (Routes.inquiries Sample.phoneDb !! 1%positive)).
  assert (H1 : Routes.convertBodyValid Sample.noBody = true) by reflexivity.
  assert (H2 : Routes.inquiries Sample.phoneDb !! 1%positive = Some inquiry)
    by (vm_compute; reflexivity).
  assert (H3 : Inquiry.customer (Inquiry.convertedTo inquiry) = None)
    by (vm_compute; reflexivity).
  assert (H4 : Customer.findOneByEmail (Routes.customers Sample.phoneDb)
                 (Inquiry.email inquiry) = None) by (vm_compute; reflexivity).
  assert (H5 : Inquiry.source inquiry = Some "phone")
    by (vm_compute; reflexivity).
  assert (H6 : "phone" ∈ ["phone"; "email"; "walk-in"])
    by (apply (bool_decide_unpack _); vm_compute; exact I).
  split; [exact H1|]. split.
  { exists inquiry. do 4 (split; [assumption|]). vm_compute. reflexivity. }
  split; [exact H6|].
  exact (proj2 (convertToCustomer_source_rejected Sample.phoneDb 1%positive
                  Sample.noBody Sample.staff Sample.jan16 2%positive
                  inquiry "phone" H1 H2 H3 H4 H5 H6)).
Defined.

Lemma validate_customerFromInquiry newId inquiry assign status user now :
  Inquiry.validate inquiry = None ->
  status ∈ Customer.statuses ->
  Js.orStr (Inquiry.source inquiry) "website" ∈ Customer.sources ->
  Customer.validate (customerFromInquiry newId inquiry assign status user now)
  = None.
Proof.
  intros Hv Hst Hsrc. unfold Inquiry.validate in Hv.
  pose proof (bool_decide_eq_true_2 _ Hst) as Hst'.
  pose proof (bool_decide_eq_true_2 _ Hsrc) as Hsrc'.
  unfold Customer.validate, customerFromInquiry; cbn.
  unfold Customer.businessTypes; unfold Inquiry.businessTypes in Hv.
  rewrite Hst', Hsrc'.
  destruct (String.eqb (Inquiry.customerName inquiry) "");
    [by repeat (case_match; try discriminate)|].
  destruct (String.eqb (Inquiry.email inquiry) "");
    [by repeat (case_match; try discriminate)|].
  destruct (negb (Js.truthyS (Inquiry.businessType inquiry)));
    [by repeat (case_match; try discriminate)|].
  destruct (negb (bool_decide (default "" (Inquiry.businessType inquiry) ∈ _)));
    [by repeat (case_match; try discriminate)|].
  destruct (Inquiry.employeeCount inquiry) as [n|]; [|done].
  cbn. destruct (Z.eqb_spec n 0) as [->|Hn]; cbn; [done|].
  destruct (n <? 1); [by repeat (case_match; try discriminate)|done].
Qed.

Lemma upsert_fresh c customers :
  Forall (fun x => Customer._id x <> Customer._id c) customers ->
  Customer.upsert c customers = customers ++ [c].
Proof.
  induction 1 as [|x rest Hx _ IH]; [done|]. cbn.
  apply Pos.eqb_neq in Hx. rewrite Hx. by rewrite IH.
Qed.

Lemma upsert_last c c2 customers :
  Forall (fun x => Customer._id x <> Customer._id c) customers ->
  Customer._id c2 = Customer._id c ->
  Customer.upsert c2 (customers ++ [c]) = customers ++ [c2].
Proof.
  intros Hfresh Hid. induction Hfresh as [|x rest Hx _ IH]; cbn.
  - by rewrite Hid, Pos.eqb_refl.
  - rewrite Hid. apply Pos.eqb_neq in Hx. rewrite Hx. by rewrite IH.
Qed.

Lemma statuses_of_valid_body body :
  convertBodyValid body = true ->
  default "prospect" (customerStatus body) ∈ Customer.statuses.
Proof.
  unfold convertBodyValid. destruct (customerStatus body) as [v|]; cbn.
  - by intros ?%bool_decide_eq_true.
  - intros _. apply (bool_decide_unpack _). by vm_compute.
Qed.

(** The rest of C9 holds.  For every stored, valid inquiry that is not yet
    converted, has no customer under its email and whose source is one the
    customer schema lists too, the conversion answers 200, and creates a
    customer seeded from the inquiry, with the requested status ('prospect'
    when none is requested) and assigned to the requested assignee, else
    the inquiry's assignee, else the acting user. *)
Lemma convertToCustomer_new_customer db id body user now newId inquiry :
  convertBodyValid body = true ->
  inquiries db !! id = Some inquiry ->
  Inquiry.validate inquiry = None ->
  Inquiry.customer (Inquiry.convertedTo inquiry) = None ->
  Customer.findOneByEmail (customers db) (Inquiry.email inquiry) = None ->
  Js.orStr (Inquiry.source inquiry) "website" ∈ Customer.sources ->
  Forall (fun x => Customer._id x <> newId) (customers db) ->
  let r := convertToCustomer db id body user now newId in
  exists c,
    response r
    = json 200 true "Inquiry successfully converted to new customer"
    /\ isNewCustomer r = Some true
    /\ customer r = Some c
    /\ customers (db' r) = customers db ++ [c]
    /\ Customer.name c = Inquiry.customerName inquiry
    /\ Customer.email c = Inquiry.email inquiry
    /\ Customer.phone c = Some (Js.orStr (Inquiry.phone inquiry) "")
    /\ Customer.company c = Some (Js.orStr (Inquiry.company inquiry) "")
    /\ Customer.businessType c = Inquiry.businessType inquiry
    /\ Customer.industry c = Some (Js.orStr (Inquiry.industry inquiry) "")
    /\ Customer.employeeCount c
       = (if Js.truthyN (Inquiry.employeeCount inquiry)
          then Inquiry.employeeCount inquiry else None)
    /\ Customer.address c
       = Some (Address.withDefaults
                 (default Address.empty (Inquiry.address inquiry)))
    /\ Customer.source c = Js.orStr (Inquiry.source inquiry) "website"
    /\ Customer.status c = default "prospect" (customerStatus body)
    /\ Customer.assignedTo c
       = Some (default (default user (Inquiry.assignedTo inquiry))
                 (assignTo body)).
Proof.
  intros Hbody Hfound Hvalid Hlink Hnone Hsrc Hfresh r.
  set (c1 := customerFromInquiry newId inquiry (assignTo body)
               (default "prospect" (customerStatus body)) user now).
  set (c2 := Customer.addNote c1
               (creationNote inquiry (additionalNotes body)) user now).
  assert (Hv1 : Customer.validate c1 = None).
  { apply validate_customerFromInquiry;
      auto using statuses_of_valid_body. }
  assert (Hr : r = stampInquiry
                     (with_customers db (customers db ++ [c2]))
                     id inquiry c2 true user now).
  { subst r. unfold convertToCustomer.
    rewrite Hbody, Hfound, Hlink, Hnone. cbn [negb].
    rewrite andb_false_r. unfold Customer.save.
    fold c1. rewrite Hv1. fold c2.
    change (Customer.validate c2) with (Customer.validate c1). rewrite Hv1.
    rewrite (upsert_fresh c1) by done.
    by rewrite (upsert_last c1 c2). }
  rewrite Hr, (stampInquiry_valid _ _ _ _ _ _ _ Hvalid). cbn.
  exists c2. repeat split.
  subst c2 c1. cbn.
  by destruct (assignTo body), (Inquiry.assignedTo inquiry).
Qed.

End ConvertNewCustomerFacts.

(** ** Deleting an order *)

Section DeleteOrderFacts.

Import Routes.

Implicit Types (products : gmap positive Product.t) (items : list Order.Item).

Lemma with_stockQuantity_twice p a b :
  Product.with_stockQuantity (Product.with_stockQuantity p a) b
  = Product.with_stockQuantity p b.
Proof. reflexivity. Qed.

Lemma with_stockQuantity_same p :
  Product.with_stockQuantity p (Product.stockQuantity p) = p.
Proof. by destruct p. Qed.

Lemma quantityOf_cons_eq item items :
  quantityOf (Order.product item) (item :: items)
  = Order.quantity item + quantityOf (Order.product item) items.
Proof. unfold quantityOf. by rewrite filter_cons_True. Qed.

Lemma quantityOf_cons_ne pid item items :
  Order.product item <> pid ->
  quantityOf pid (item :: items) = quantityOf pid items.
Proof. intros Hne. unfold quantityOf. by rewrite filter_cons_False. Qed.

Lemma quantityOf_nonneg pid items :
  Forall (fun item => 1 <= Order.quantity item) items ->
  0 <= quantityOf pid items.
Proof.
  induction 1 as [|item items Hq _ IH]; [done|].
  destruct (decide (Order.product item = pid)) as [<-|Hne].
  - rewrite quantityOf_cons_eq. lia.
  - by rewrite quantityOf_cons_ne.
Qed.

Lemma stockValid_insert products pid p :
  stockValid products -> 0 <= Product.stockQuantity p ->
  stockValid (<[pid := p]> products).
Proof.
  intros Hv Hp pid' p'. rewrite lookup_insert.
  case_decide; [intros [= <-]; done|apply Hv].
Qed.

(** The restoring loop runs to its end and adds to every product the
    quantity the items hold of it. *)
Lemma restoreStock_spec items : forall products,
  stockValid products ->
  Forall (fun item => 1 <= Order.quantity item) items ->
  exists products1,
    restoreStock items products = (products1, true)
    /\ forall pid,
         products1 !! pid
         = (fun p => Product.with_stockQuantity p
                       (Product.stockQuantity p + quantityOf pid items))
           <$> products !! pid.
Proof.
  induction items as [|item items IH]; intros products Hvalid Hq.
  - exists products. split; [done|]. intros pid.
    destruct (products !! pid) as [p|]; cbn; [|done].
    unfold quantityOf; cbn. rewrite Z.add_0_r.
    by rewrite with_stockQuantity_same.
  - inversion Hq as [|? ? Hitem Hrest]; subst. cbn [restoreStock].
    destruct (products !! Order.product item) as [p|] eqn:Hp.
    + pose proof (Hvalid _ _ Hp) as Hp0.
      unfold Product.save.
      rewrite updateStock_increase.
      destruct (Z.ltb_spec (Product.stockQuantity p + Order.quantity item) 0)
        as [?|_]; [lia|].
      destruct (IH (<[Order.product item :=
                       Product.updateStock p (Order.quantity item) "increase"]>
                      products)) as (products1 & Hrun & Hlook); [|done|].
      { apply stockValid_insert; [done|].
        rewrite updateStock_increase. lia. }
      exists products1. split; [exact Hrun|]. intros pid. rewrite Hlook.
      destruct (decide (Order.product item = pid)) as [<-|Hne].
      * rewrite lookup_insert_eq, Hp, quantityOf_cons_eq. cbn.
        f_equal. f_equal. lia.
      * by rewrite lookup_insert_ne, quantityOf_cons_ne.
    + destruct (IH products Hvalid Hrest) as (products1 & Hrun & Hlook).
      exists products1. split; [exact Hrun|]. intros pid. rewrite Hlook.
      destruct (decide (Order.product item = pid)) as [<-|Hne].
      * by rewrite Hp.
      * by rewrite quantityOf_cons_ne.
Qed.

Lemma flooredStock_bounds qs : forall s,
  0 <= s -> Forall (fun q => 1 <= q) qs ->
  0 <= flooredStock s qs
  /\ s - Order.sumZ qs <= flooredStock s qs
  /\ (Order.sumZ qs <= s -> flooredStock s qs = s - Order.sumZ qs).
Proof.
  induction qs as [|q qs IH]; intros s Hs Hq; cbn.
  - unfold flooredStock; cbn. lia.
  - inversion Hq as [|? ? Hq1 Hqs]; subst.
    destruct (IH (Z.max 0 (s - q))) as (H0 & Hlow & Hexact); [lia|done|].
    assert (0 <= Order.sumZ qs).
    { clear -Hqs. induction Hqs; cbn; [done|]. unfold Order.sumZ in *. cbn. lia. }
    unfold flooredStock in *; cbn. unfold Order.sumZ in *; cbn.
    split; [exact H0|]. split; [lia|]. intros Hle.
    rewrite Hexact; lia.
Qed.

Lemma quantityOf_quantitiesOf pid items :
  quantityOf pid items = Order.sumZ (quantitiesOf pid items).
Proof. reflexivity. Qed.

Lemma quantitiesOf_ge1 pid items :
  Forall (fun item => 1 <= Order.quantity item) items ->
  Forall (fun q => 1 <= q) (quantitiesOf pid items).
Proof.
  unfold quantitiesOf. induction 1 as [|item items Hq _ IH]; [constructor|].
  rewrite filter_cons. case_decide; [|exact IH].
  rewrite fmap_cons. by constructor.
Qed.

(** The reserving loop, when it runs to its end, leaves of every product the
    stock floored after each of its lines. *)
Lemma reserveStock_spec items : forall products products1,
  reserveStock items products = (products1, true) ->
  forall pid,
    products1 !! pid
    = (fun p => Product.with_stockQuantity p
                  (flooredStock (Product.stockQuantity p)
                     (quantitiesOf pid items)))
      <$> products !! pid.
Proof.
  induction items as [|item items IH]; intros products products1 Hrun pid.
  - injection Hrun as <-. destruct (products !! pid) as [p|]; cbn; [|done].
    by rewrite with_stockQuantity_same.
  - cbn [reserveStock] in Hrun.
    destruct (products !! Order.product item) as [p|] eqn:Hp; [|done].
    unfold Product.save in Hrun. rewrite updateStock_decrease in Hrun.
    destruct (Z.ltb_spec
                (Z.max 0 (Product.stockQuantity p - Order.quantity item)) 0)
      as [?|_]; [lia|].
    rewrite (IH _ _ Hrun pid). unfold quantitiesOf.
    destruct (decide (Order.product item = pid)) as [<-|Hne].
    + by rewrite lookup_insert_eq, Hp, filter_cons_True.
    + by rewrite lookup_insert_ne, filter_cons_False.
Qed.

Lemma stockValid_reserved items products products1 :
  stockValid products ->
  Forall (fun item => 1 <= Order.quantity item) items ->
  reserveStock items products = (products1, true) ->
  stockValid products1.
Proof.
  intros Hvalid Hq Hrun pid p1.
  rewrite (reserveStock_spec _ _ _ Hrun pid).
  destruct (products !! pid) as [p|] eqn:Hp; [|done].
  intros [= <-]. cbn.
  apply flooredStock_bounds; [by eapply Hvalid|by apply quantitiesOf_ge1].
Qed.

(** The restoring loop, product by product: a product on file comes out
    with its stock raised by the quantity the items hold of it and its other
    paths as they were; nothing is added to the collection. *)
Lemma restoreStock_stock items products :
  stockValid products ->
  Forall (fun item => 1 <= Order.quantity item) items ->
  exists products1,
    restoreStock items products = (products1, true)
    /\ forall pid,
         match products !! pid with
         | None => products1 !! pid = None
         | Some p =>
             exists p1,
               products1 !! pid = Some p1
               /\ Product.stockQuantity p1
                  = Product.stockQuantity p + quantityOf pid items
               /\ Product.name p1 = Product.name p
               /\ Product.code p1 = Product.code p
               /\ Product.basePrice p1 = Product.basePrice p
               /\ Product.reorderLevel p1 = Product.reorderLevel p
         end.
Proof.
  intros Hvalid Hq.
  destruct (restoreStock_spec items products Hvalid Hq)
    as (products1 & Hrun & Hlook).
  exists products1. split; [exact Hrun|]. intros pid. rewrite Hlook.
  destruct (products !! pid) as [p|]; [|done].
  eexists. split; [reflexivity|]. by repeat split.
Qed.

(** C4. Deleting an order whose status is not 'draft' is refused with status
    400 and 'Only draft orders can be deleted', and nothing changes.
    Deleting a draft order succeeds: the order is removed, and every product
    on file has its stock raised by the quantity of each of its line items,
    its other paths and the other collections staying as they were.  After
    the reservation of the creation and the deletion, a product has the
    stock the floored decrements left plus the full quantity of its lines:
    the stock it had before the order when the order did not ask for more
    than was there, and more than that when it did. *)
Theorem deleteOrder_draft_only :
  (forall db id order,
     orders db !! id = Some order ->
     Order.status order <> "draft" ->
     deleteOrder db id
     = (json 400 false "Only draft orders can be deleted", db))
  /\ (forall db id order items,
     orders db !! id = Some order ->
     Order.status order = "draft" ->
     Order.items order = Some items ->
     stockValid (products db) ->
     Forall (fun item => 1 <= Order.quantity item) items ->
     exists products1,
       deleteOrder db id
       = (json 200 true "Order deleted successfully",
          mkDb (customers db) products1 (inquiries db) (delete id (orders db)))
       /\ forall pid,
            match products db !! pid with
            | None => products1 !! pid = None
            | Some p =>
                exists p1,
                  products1 !! pid = Some p1
                  /\ Product.stockQuantity p1
                     = Product.stockQuantity p + quantityOf pid items
                  /\ Product.name p1 = Product.name p
                  /\ Product.code p1 = Product.code p
                  /\ Product.basePrice p1 = Product.basePrice p
                  /\ Product.reorderLevel p1 = Product.reorderLevel p
            end)
  /\ (forall items products products1,
     stockValid products ->
     Forall (fun item => 1 <= Order.quantity item) items ->
     reserveStock items products = (products1, true) ->
     exists products2,
       restoreStock items products1 = (products2, true)
       /\ forall pid p,
            products !! pid = Some p ->
            exists p2,
              products2 !! pid = Some p2
              /\ Product.stockQuantity p2
                 = flooredStock (Product.stockQuantity p)
                     (quantitiesOf pid items)
                   + quantityOf pid items
              /\ (quantityOf pid items <= Product.stockQuantity p -> p2 = p)
              /\ (Product.stockQuantity p < quantityOf pid items ->
                  Product.stockQuantity p < Product.stockQuantity p2)).
Proof.
  split; [|split].
  - intros db id order Hfound Hstatus. unfold deleteOrder.
    rewrite Hfound. apply String.eqb_neq in Hstatus. by rewrite Hstatus.
  - intros db id order items Hfound Hstatus Hitems Hvalid Hq.
    destruct (restoreStock_stock items (products db) Hvalid Hq)
      as (products1 & Hrun & Hlook).
    exists products1. split; [|exact Hlook].
    unfold deleteOrder. by rewrite Hfound, Hstatus, Hitems, Hrun.
  - intros items products products1 Hvalid Hq Hrun.
    pose proof (stockValid_reserved _ _ _ Hvalid Hq Hrun) as Hvalid1.
    destruct (restoreStock_spec items products1 Hvalid1 Hq)
      as (products2 & Hrun2 & Hlook2).
    exists products2. split; [exact Hrun2|]. intros pid p Hp.
    rewrite Hlook2, (reserveStock_spec _ _ _ Hrun pid), Hp. cbn.
    destruct (flooredStock_bounds (quantitiesOf pid items)
                (Product.stockQuantity p))
      as (H0 & Hlow & Hexact);
      [by eapply Hvalid|by apply quantitiesOf_ge1|].
    rewrite quantityOf_quantitiesOf in *.
    eexists. split; [reflexivity|]. cbn. split; [done|]. split.
    + intros Hle. specialize (Hexact Hle).
      transitivity (Product.with_stockQuantity p (Product.stockQuantity p));
        [|apply with_stockQuantity_same].
      unfold Product.with_stockQuantity; cbn. f_equal. lia.
    + intros Hlt. lia.
Qed.

End DeleteOrderFacts.

Lemma stockValid_singleton pid p :
  0 <= Product.stockQuantity p -> Routes.stockValid {[pid := p]}.
Proof.
  intros Hp pid' p'. rewrite lookup_singleton_Some. by intros [_ <-].
Qed.

Lemma deleteOrder_draft_only_witness :
  (Routes.orders (Sample.orderDb "confirmed") !! 1%positive
     = Some (Sample.shirtOrder "confirmed")
   /\ Order.status (Sample.shirtOrder "confirmed") <> "draft"
   /\ Routes.deleteOrder (Sample.orderDb "confirmed") 1%positive
      = (Routes.json 400 false "Only draft orders can be deleted",
         Sample.orderDb "confirmed"))
  /\ (Routes.orders (Sample.orderDb "draft") !! 1%positive
        = Some (Sample.shirtOrder "draft")
      /\ Order.status (Sample.shirtOrder "draft") = "draft"
      /\ Order.items (Sample.shirtOrder "draft") = Some [Sample.tenShirts]
      /\ Routes.stockValid (Routes.products (Sample.orderDb "draft"))
      /\ Forall (fun item => 1 <= Order.quantity item) [Sample.tenShirts]
      /\ exists products1,
           Routes.deleteOrder (Sample.orderDb "draft") 1%positive
           = (Routes.json 200 true "Order deleted successfully",
              Routes.mkDb [] products1 ∅ (delete 1%positive
                 (Routes.orders (Sample.orderDb "draft"))))
           /\ exists p1,
                products1 !! 5%positive = Some p1
                /\ Product.stockQuantity p1 = 40 + 10)
  /\ (Routes.stockValid {[5%positive := Sample.shirt]}
      /\ Routes.reserveStock [Sample.tenShirts] {[5%positive := Sample.shirt]}
         = ({[5%positive := Product.mk "Polo shirt" "PS01" 200 40 10]}, true)
      /\ exists products2,
           Routes.restoreStock [Sample.tenShirts]
             {[5%positive := Product.mk "Polo shirt" "PS01" 200 40 10]}
           = (products2, true)
           /\ products2 !! 5%positive = Some Sample.shirt).
Proof.
  assert (Hq : Forall (fun item => 1 <= Order.quantity item) [Sample.tenShirts])
    by (repeat constructor; simpl; lia).
  assert (Hv40 : Routes.stockValid (Routes.products (Sample.orderDb "draft")))
    by (apply stockValid_singleton; simpl; lia).
  assert (Hv50 : Routes.stockValid {[5%positive := Sample.shirt]})
    by (apply stockValid_singleton; simpl; lia).
  assert (Hc : Routes.orders (Sample.orderDb "confirmed") !! 1%positive
               = Some (Sample.shirtOrder "confirmed"))
    by (vm_compute; reflexivity).
  assert (Hd : Routes.orders (Sample.orderDb "draft") !! 1%positive
               = Some (Sample.shirtOrder "draft"))
    by (vm_compute; reflexivity).
  assert (Hne : Order.status (Sample.shirtOrder "confirmed") <> "draft")
    by discriminate.
  assert (Hr : Routes.reserveStock [Sample.tenShirts]
                 {[5%positive := Sample.shirt]}
               = ({[5%positive := Product.mk "Polo shirt" "PS01" 200 40 10]},
                  true))
    by (vm_compute; reflexivity).
  assert (H5 : ({[5%positive := Sample.shirt]} : gmap positive Product.t)
                 !! 5%positive = Some Sample.shirt)
    by (vm_compute; reflexivity).
  split; [|split].
  - split; [exact Hc|]. split; [exact Hne|].
    exact (proj1 deleteOrder_draft_only _ _ _ Hc Hne).
  - split; [exact Hd|]. do 2 (split; [reflexivity|]).
    split; [exact Hv40|]. split; [exact Hq|].
    destruct (proj1 (proj2 deleteOrder_draft_only) _ _ _ _ Hd eq_refl eq_refl
                Hv40 Hq) as (products1 & Hdel & Hlook).
    exists products1. split; [exact Hdel|].
    destruct (Hlook 5%positive) as (p1 & Hp1 & Hs1 & _).
    exists p1. split; [exact Hp1|exact Hs1].
  - split; [exact Hv50|]. split; [exact Hr|].
    destruct (proj2 (proj2 deleteOrder_draft_only) _ _ _ Hv50 Hq Hr)
      as (products2 & Hres & Hlook).
    exists products2. split; [exact Hres|].
    destruct (Hlook 5%positive Sample.shirt H5) as (p2 & Hp2 & _ & Hsame & _).
    rewrite Hp2. f_equal. apply Hsame. vm_compute. discriminate.
Defined.

(** The sample order deleted: the stock of shirts is back at 50. *)
Example deleteOrder_sample :
  Product.stockQuantity
    <$> Routes.products (Routes.deleteOrder (Sample.orderDb "draft") 1%positive).2
        !! 5%positive
  = Some 50.
Proof. vm_compute. reflexivity. Qed.

(** C4 as stated does not hold: the deletion does not always give back the
    decrements the order caused.  Two lines of eight of a product with a
    stock of ten pass the availability loop of the creation one by one; the
    stock update takes the ten that are there (10, 2, 0), and the deletion
    of the draft order gives back sixteen. *)
Lemma deleteOrder_restore_counterexample :
  let apron := Product.mk "Apron" "AP01" 120 10 10 in
  let lines :=
    [OrderEntry.mkLine 5 8 120 None; OrderEntry.mkLine 5 8 120 None] in
  exists subtotal items products1,
    OrderEntry.collectItems {[5%positive := apron]} lines 0 []
    = inr (subtotal, items)
    /\ Routes.reserveStock items {[5%positive := apron]} = (products1, true)
    /\ Product.stockQuantity <$> products1 !! 5%positive = Some 0
    /\ statusCode
         (Routes.deleteOrder
            (Routes.mkDb [] products1 ∅
               {[1%positive :=
                   OrderEntry.newOrder "UP2024010001" 9 subtotal items]})
            1%positive).1 = 200
    /\ Product.stockQuantity
         <$> Routes.products
               (Routes.deleteOrder
                  (Routes.mkDb [] products1 ∅
                     {[1%positive :=
                         OrderEntry.newOrder "UP2024010001" 9 subtotal items]})
                  1%positive).2 !! 5%positive
       = Some 16.
Proof. vm_compute. do 3 eexists. repeat split; reflexivity. Qed.

(** ** Inquiry numbers *)

Section NumberFacts.

Lemma string_length_app (s1 s2 : string) :
  String.length (s1 +:+ s2) = (String.length s1 + String.length s2)%nat.
Proof. induction s1 as [|a s1 IH]; simpl; [done|]. by f_equal. Qed.

Lemma replicate_char_length n c : String.length (Js.replicate_char n c) = n.
Proof. induction n as [|n IH]; cbn; [done|]. by rewrite IH. Qed.

Lemma padStart_length n c s :
  String.length (Js.padStart n c s) = (n `max` String.length s)%nat.
Proof.
  unfold Js.padStart. rewrite string_length_app, replicate_char_length. lia.
Qed.

Lemma parseDigits_zero s :
  Js.parseDigits (String "0" s) = Js.parseDigits s.
Proof.
  unfold Js.parseDigits; cbn. by destruct (NilEmpty.uint_of_string s).
Qed.

Lemma parseDigits_padStart n s :
  Js.parseDigits (Js.padStart n "0" s) = Js.parseDigits s.
Proof.
  unfold Js.padStart.
  induction (n - String.length s)%nat as [|k IH]; [done|].
  change (Js.replicate_char (S k) "0" +:+ s)
    with (String "0" (Js.replicate_char k "0" +:+ s)).
  by rewrite parseDigits_zero.
Qed.

Lemma parseDigits_numToString n :
  0 <= n -> Js.parseDigits (Js.numToString n) = Some n.
Proof.
  intros Hn. unfold Js.numToString, Js.parseDigits.
  destruct (Z.ltb_spec n 0); [lia|].
  rewrite NilEmpty.usu; cbn. rewrite Unsigned.of_to. f_equal. lia.
Qed.

(** The number of decimal digits of an integer from 0 to 9999. *)
Lemma numToString_length z :
  0 <= z < 10000 ->
  String.length (Js.numToString z)
  = if z <? 10 then 1%nat else if z <? 100 then 2%nat
    else if z <? 1000 then 3%nat else 4%nat.
Proof.
  intros Hz.
  assert (H : Forall (fun z => String.length (Js.numToString z)
                      = if z <? 10 then 1%nat else if z <? 100 then 2%nat
                        else if z <? 1000 then 3%nat else 4%nat)
                (seqZ 0 10000))
    by (apply (bool_decide_unpack _); by vm_compute).
  rewrite Forall_forall in H. apply H. apply elem_of_seqZ. lia.
Qed.

Lemma year_length y :
  1000 <= y <= 9999 -> String.length (Js.numToString y) = 4%nat.
Proof.
  intros Hy. rewrite numToString_length by lia.
  repeat (case_match; try lia).
Qed.

Lemma month_length m :
  0 <= m <= 11 ->
  String.length (Js.padStart 2 "0" (Js.numToString (m + 1))) = 2%nat.
Proof.
  intros Hm. rewrite padStart_length, numToString_length by lia.
  repeat (case_match; try lia).
Qed.

Lemma sequence_length n :
  1 <= n ->
  (4 <= String.length (Js.padStart 4 "0" (Js.numToString n)))%nat
  /\ (n <= 9999 ->
      String.length (Js.padStart 4 "0" (Js.numToString n)) = 4%nat).
Proof.
  intros Hn. rewrite padStart_length. split; [lia|]. intros Hle.
  rewrite numToString_length by lia.
  repeat (case_match; try lia).
Qed.

(** *** The month of the count *)

Lemma firstOfMonth_this y m :
  0 <= m <= 11 -> Date.firstOfMonth y m = Date.mk y m 0.
Proof.
  intros Hm. unfold Date.firstOfMonth.
  rewrite Z.div_small, Z.mod_small by lia. f_equal. lia.
Qed.

Lemma firstOfMonth_next y m :
  0 <= m <= 11 ->
  Date.firstOfMonth y (m + 1)
  = if m =? 11 then Date.mk (y + 1) 0 0 else Date.mk y (m + 1) 0.
Proof.
  intros Hm. destruct (Z.eqb_spec m 11) as [->|Hne]; [done|].
  apply firstOfMonth_this. lia.
Qed.

(** The filter of the count selects the inquiries of the year and month of
    [date]. *)
Lemma inMonthOf_spec date i :
  Date.wf date -> Date.wf (Inquiry.inquiryDate i) ->
  Inquiry.inMonthOf date i = true
  <-> Date.year (Inquiry.inquiryDate i) = Date.year date
      /\ Date.month (Inquiry.inquiryDate i) = Date.month date.
Proof.
  intros [Hm _] [Hm' Hms']. unfold Inquiry.inMonthOf.
  unfold Date.getFullYear, Date.getMonth.
  rewrite firstOfMonth_this, firstOfMonth_next by done.
  unfold Date.geb, Date.ltb.
  destruct (Z.eqb_spec (Date.month date) 11); cbn;
    rewrite andb_true_iff, negb_true_iff, orb_false_iff, !orb_true_iff,
      !andb_false_iff, !andb_true_iff, !orb_false_iff, !andb_false_iff;
    rewrite ?Z.ltb_lt, ?Z.ltb_ge, ?Z.eqb_eq, ?Z.eqb_neq; lia.
Qed.

(** *** Successive submissions *)

Lemma countDocuments_insert f (inquiries : gmap positive Inquiry.t) id i :
  inquiries !! id = None -> f i = true ->
  Inquiry.countDocuments f (<[id := i]> inquiries)
  = Inquiry.countDocuments f inquiries + 1.
Proof.
  intros Hfresh Hf. unfold Inquiry.countDocuments.
  rewrite map_filter_insert_True by (cbn; by rewrite Hf).
  rewrite map_size_insert_None
    by (apply map_lookup_filter_None_2; by left).
  lia.
Qed.

Lemma countDocuments_inMonthOf date (inquiries : gmap positive Inquiry.t) :
  Date.wf date ->
  map_Forall (fun _ i => Date.wf (Inquiry.inquiryDate i)) inquiries ->
  Inquiry.countDocuments (Inquiry.inMonthOf date) inquiries
  = Z.of_nat
      (size (filter
               (fun kv : positive * Inquiry.t =>
                  Date.year (Inquiry.inquiryDate kv.2) = Date.year date
                  /\ Date.month (Inquiry.inquiryDate kv.2) = Date.month date)
               inquiries)).
Proof.
  intros Hdate Hstored. unfold Inquiry.countDocuments. do 2 f_equal.
  apply map_filter_ext. intros id i Hi. cbn.
  rewrite Is_true_true. apply inMonthOf_spec; [done|].
  exact (Hstored id i Hi).
Qed.

(** A submission that is answered 201 has stored one new inquiry, dated
    [now] and numbered by the generator. *)
Lemma postInquiry_created isEmail db body now newId r db1 :
  Routes.postInquiry isEmail db body now newId = (r, db1) ->
  statusCode r = 201 ->
  exists i,
    Routes.inquiries db !! newId = None
    /\ Routes.inquiries db1 = <[newId := i]> (Routes.inquiries db)
    /\ Inquiry.inquiryNumber i
       = Inquiry.generateInquiryNumber now (Routes.inquiries db)
    /\ Inquiry.inquiryDate i = now
    /\ Inquiry.status i = "new".
Proof.
  unfold Routes.postInquiry, Inquiry.insert.
  destruct (negb _); [by intros [= <- <-]|].
  destruct (Inquiry.validate _); [by intros [= <- <-]|].
  destruct (Routes.inquiries db !! newId) eqn:Hfresh; cbn;
    [by intros [= <- <-]|].
  destruct (bool_decide _); [by intros [= <- <-]|].
  intros [= <- <-] _. eexists. by repeat split.
Qed.

(** A submission that is not answered 201 has stored nothing. *)
Lemma postInquiry_not_created isEmail db body now newId :
  statusCode (Routes.postInquiry isEmail db body now newId).1 <> 201 ->
  (Routes.postInquiry isEmail db body now newId).2 = db.
Proof.
  unfold Routes.postInquiry. destruct (negb _); [done|].
  by destruct (Inquiry.insert _ _ _).
Qed.

Lemma inMonthOf_same date date' :
  Date.year date' = Date.year date ->
  Date.month date' = Date.month date ->
  Inquiry.inMonthOf date' = Inquiry.inMonthOf date.
Proof.
  intros Hy Hm. unfold Inquiry.inMonthOf, Date.getFullYear, Date.getMonth.
  by rewrite Hy, Hm.
Qed.

Lemma created_cons r answers :
  Routes.created (r :: answers)
  = (if decide (statusCode r = 201) then 1 else 0) + Routes.created answers.
Proof.
  unfold Routes.created. rewrite filter_cons.
  destruct (decide (statusCode r = 201)); cbn [length]; lia.
Qed.

(** A run of submissions of one month raises the count of the month by the
    number of those that were answered 201. *)
Lemma postInquiries_count isEmail date reqs : forall db,
  Date.wf date ->
  Forall (fun req : Routes.InquiryBody * Date.t * ObjectId =>
            Date.wf req.1.2
            /\ Date.year req.1.2 = Date.year date
            /\ Date.month req.1.2 = Date.month date) reqs ->
  Inquiry.countDocuments (Inquiry.inMonthOf date)
    (Routes.inquiries (Routes.postInquiries isEmail db reqs).2)
  = Inquiry.countDocuments (Inquiry.inMonthOf date) (Routes.inquiries db)
    + Routes.created (Routes.postInquiries isEmail db reqs).1.
Proof.
  induction reqs as [|[[body now] newId] reqs IH]; intros db Hdate Hreqs.
  - cbn. unfold Routes.created. cbn. lia.
  - inversion Hreqs as [|? ? (Hwf & Hy & Hm) Hrest]; subst. cbn in Hwf, Hy, Hm.
    cbn [Routes.postInquiries fst snd]. rewrite created_cons, IH by done.
    destruct (Routes.postInquiry isEmail db body now newId) as [r db1] eqn:Hpost.
    cbn [fst snd]. destruct (decide (statusCode r = 201)) as [H201|Hnot].
    + destruct (postInquiry_created _ _ _ _ _ _ _ Hpost H201)
        as (i & Hfresh & -> & _ & Hi & _).
      rewrite countDocuments_insert; [lia|done|].
      apply inMonthOf_spec; [done|by rewrite Hi|by rewrite Hi].
    + pose proof (postInquiry_not_created isEmail db body now newId) as Hsame.
      rewrite Hpost in Hsame. cbn [fst snd] in Hsame. rewrite Hsame by done.
      lia.
Qed.

(** Removing a stored inquiry of the month lowers the count by one. *)
Lemma countDocuments_delete f (inquiries : gmap positive Inquiry.t) id i :
  inquiries !! id = Some i -> f i = true ->
  Inquiry.countDocuments f (delete id inquiries)
  = Inquiry.countDocuments f inquiries - 1.
Proof.
  intros Hi Hf. unfold Inquiry.countDocuments.
  rewrite map_filter_delete.
  assert (filter (fun kv : positive * Inquiry.t => Is_true (f kv.2)) inquiries
            !! id = Some i) as Hin.
  { apply map_lookup_filter_Some. split; [done|]. cbn. by rewrite Hf. }
  rewrite map_size_delete, Hin.
  assert (size (filter (fun kv : positive * Inquiry.t => Is_true (f kv.2))
                  inquiries) <> 0%nat) as Hsize.
  { apply map_size_non_empty_iff. intros Hempty.
    by rewrite Hempty, lookup_empty in Hin. }
  lia.
Qed.

(** C8. A generated inquiry number is 'INQ', the year in four digits, the
    month in two digits with a leading zero where needed, and count + 1
    padded with zeros to four digits, where count is the number of stored
    inquiries whose inquiryDate lies from the first of the month of the
    clock to the first of the next month, that is, the stored inquiries of
    that year and month.  The sequence number follows that count: a
    submission answered 201 has stored its inquiry under the generated
    number and raised the count by one; a run of submissions of the month
    raises it by the number of those answered 201, so of two stored
    submissions of a month the later has the greater sequence number when
    nothing was deleted in between; a submission that is not answered 201
    stores nothing, and the next generation of the month gives the same
    number again; and the deletion of an inquiry of the month lowers the
    count by one. *)
Theorem generateInquiryNumber_sequential :
  (forall date (inquiries : gmap positive Inquiry.t),
     Date.wf date -> 1000 <= Date.year date <= 9999 ->
     let count := Inquiry.countDocuments (Inquiry.inMonthOf date) inquiries in
     exists yyyy mm nnnn,
       Inquiry.generateInquiryNumber date inquiries
       = "INQ" +:+ yyyy +:+ mm +:+ nnnn
       /\ String.length yyyy = 4%nat
       /\ Js.parseDigits yyyy = Some (Date.year date)
       /\ String.length mm = 2%nat
       /\ Js.parseDigits mm = Some (Date.month date + 1)
       /\ Js.parseDigits nnnn = Some (count + 1)
       /\ (4 <= String.length nnnn)%nat
       /\ (count + 1 <= 9999 -> String.length nnnn = 4%nat))
  /\ (forall date (inquiries : gmap positive Inquiry.t),
     Date.wf date ->
     map_Forall (fun _ i => Date.wf (Inquiry.inquiryDate i)) inquiries ->
     Inquiry.countDocuments (Inquiry.inMonthOf date) inquiries
     = Z.of_nat
         (size (filter
                  (fun kv : positive * Inquiry.t =>
                     Date.year (Inquiry.inquiryDate kv.2) = Date.year date
                     /\ Date.month (Inquiry.inquiryDate kv.2) = Date.month date)
                  inquiries)))
  /\ (forall isEmail db body now newId r db1 later,
     Routes.postInquiry isEmail db body now newId = (r, db1) ->
     statusCode r = 201 ->
     Date.wf now ->
     Date.year later = Date.year now ->
     Date.month later = Date.month now ->
     (exists i,
        Routes.inquiries db1 !! newId = Some i
        /\ Inquiry.inquiryNumber i
           = Inquiry.generateInquiryNumber now (Routes.inquiries db))
     /\ Inquiry.countDocuments (Inquiry.inMonthOf later) (Routes.inquiries db1) + 1
        = (Inquiry.countDocuments (Inquiry.inMonthOf now) (Routes.inquiries db) + 1)
          + 1)
  /\ (forall isEmail db reqs date,
     Date.wf date ->
     Forall (fun req : Routes.InquiryBody * Date.t * ObjectId =>
               Date.wf req.1.2
               /\ Date.year req.1.2 = Date.year date
               /\ Date.month req.1.2 = Date.month date) reqs ->
     Inquiry.countDocuments (Inquiry.inMonthOf date)
       (Routes.inquiries (Routes.postInquiries isEmail db reqs).2) + 1
     = (Inquiry.countDocuments (Inquiry.inMonthOf date) (Routes.inquiries db) + 1)
       + Routes.created (Routes.postInquiries isEmail db reqs).1)
  /\ (forall isEmail db body1 t1 id1 between body2 t2 id2,
     let r1 := Routes.postInquiry isEmail db body1 t1 id1 in
     let rs := Routes.postInquiries isEmail r1.2 between in
     let r2 := Routes.postInquiry isEmail rs.2 body2 t2 id2 in
     statusCode r1.1 = 201 ->
     statusCode r2.1 = 201 ->
     Date.wf t1 -> Date.wf t2 ->
     Date.year t2 = Date.year t1 -> Date.month t2 = Date.month t1 ->
     Forall (fun req : Routes.InquiryBody * Date.t * ObjectId =>
               Date.wf req.1.2
               /\ Date.year req.1.2 = Date.year t1
               /\ Date.month req.1.2 = Date.month t1) between ->
     exists i1 i2,
       Routes.inquiries r1.2 !! id1 = Some i1
       /\ Routes.inquiries r2.2 !! id2 = Some i2
       /\ Inquiry.inquiryNumber i1
          = Inquiry.generateInquiryNumber t1 (Routes.inquiries db)
       /\ Inquiry.inquiryNumber i2
          = Inquiry.generateInquiryNumber t2 (Routes.inquiries rs.2)
       /\ Inquiry.countDocuments (Inquiry.inMonthOf t2) (Routes.inquiries rs.2) + 1
          = (Inquiry.countDocuments (Inquiry.inMonthOf t1) (Routes.inquiries db) + 1)
            + 1 + Routes.created rs.1
       /\ Inquiry.countDocuments (Inquiry.inMonthOf t1) (Routes.inquiries db) + 1
          < Inquiry.countDocuments (Inquiry.inMonthOf t2) (Routes.inquiries rs.2)
            + 1)
  /\ (forall isEmail db body now newId later,
     statusCode (Routes.postInquiry isEmail db body now newId).1 <> 201 ->
     Date.year later = Date.year now ->
     Date.month later = Date.month now ->
     (Routes.postInquiry isEmail db body now newId).2 = db
     /\ Inquiry.generateInquiryNumber later
          (Routes.inquiries (Routes.postInquiry isEmail db body now newId).2)
        = Inquiry.generateInquiryNumber now (Routes.inquiries db))
  /\ (forall db id inquiry date,
     Routes.inquiries db !! id = Some inquiry ->
     statusCode (Routes.deleteInquiry db id).1 = 200 ->
     Date.wf date -> Date.wf (Inquiry.inquiryDate inquiry) ->
     Date.year (Inquiry.inquiryDate inquiry) = Date.year date ->
     Date.month (Inquiry.inquiryDate inquiry) = Date.month date ->
     Inquiry.countDocuments (Inquiry.inMonthOf date)
       (Routes.inquiries (Routes.deleteInquiry db id).2) + 1
     = Inquiry.countDocuments (Inquiry.inMonthOf date) (Routes.inquiries db)).
Proof.
  split; [|split; [|split; [|split; [|split; [|split]]]]].
  - intros date inquiries [Hm Hms] Hy count.
    assert (0 <= count) by (subst count; unfold Inquiry.countDocuments; lia).
    exists (Js.numToString (Date.year date)),
      (Js.padStart 2 "0" (Js.numToString (Date.month date + 1))),
      (Js.padStart 4 "0" (Js.numToString (count + 1))).
    split; [reflexivity|].
    split; [by apply year_length|].
    split; [apply parseDigits_numToString; lia|].
    split; [by apply month_length|].
    split; [rewrite parseDigits_padStart; apply parseDigits_numToString; lia|].
    split; [rewrite parseDigits_padStart; apply parseDigits_numToString; lia|].
    apply sequence_length. lia.
  - intros date inquiries. apply countDocuments_inMonthOf.
  - intros isEmail db body now newId r db1 later Hpost H201 Hnow Hy Hmo.
    destruct (postInquiry_created _ _ _ _ _ _ _ Hpost H201)
      as (i & Hfresh & -> & Hnumber & Hdate & _).
    split.
    + exists i. split; [apply lookup_insert_eq|exact Hnumber].
    + rewrite (inMonthOf_same now later Hy Hmo), countDocuments_insert;
        [done|done|].
      apply inMonthOf_spec; [done|by rewrite Hdate|by rewrite Hdate].
  - intros isEmail db reqs date Hdate Hreqs.
    rewrite (postInquiries_count isEmail date reqs db Hdate Hreqs). lia.
  - intros isEmail db body1 t1 id1 between body2 t2 id2. cbn zeta.
    destruct (Routes.postInquiry isEmail db body1 t1 id1) as [r1 db1] eqn:H1.
    cbn [fst snd].
    destruct (Routes.postInquiries isEmail db1 between) as [answers dbs] eqn:Hs.
    cbn [fst snd].
    destruct (Routes.postInquiry isEmail dbs body2 t2 id2) as [r2 db2] eqn:H2.
    cbn [fst snd].
    intros Hr1 Hr2 Hwf1 Hwf2 Hy Hm Hbetween.
    destruct (postInquiry_created _ _ _ _ _ _ _ H1 Hr1)
      as (i1 & Hfresh1 & Hdb1 & Hnum1 & Hdate1 & _).
    destruct (postInquiry_created _ _ _ _ _ _ _ H2 Hr2)
      as (i2 & Hfresh2 & Hdb2 & Hnum2 & _).
    pose proof (postInquiries_count isEmail t1 between db1 Hwf1 Hbetween)
      as Hcount.
    rewrite Hs in Hcount. cbn [fst snd] in Hcount.
    rewrite Hdb1 in Hcount.
    rewrite countDocuments_insert in Hcount;
      [|done|apply inMonthOf_spec; [done|by rewrite Hdate1|by rewrite Hdate1]].
    rewrite (inMonthOf_same t1 t2 Hy Hm).
    assert (0 <= Routes.created answers) by (unfold Routes.created; lia).
    exists i1, i2. rewrite Hdb1, Hdb2, !lookup_insert_eq.
    repeat split; [done|done|lia|lia].
  - intros isEmail db body now newId later Hnot Hy Hm.
    rewrite postInquiry_not_created by done. split; [done|].
    unfold Inquiry.generateInquiryNumber, Date.getFullYear, Date.getMonth.
    by rewrite (inMonthOf_same now later Hy Hm), Hy, Hm.
  - intros db id inquiry date Hi H200 Hdate Hwf Hy Hm.
    revert H200. unfold Routes.deleteInquiry. rewrite Hi.
    destruct (_ && _); [done|]. intros _. cbn [fst snd Routes.inquiries
      Routes.with_inquiries].
    rewrite (countDocuments_delete _ _ id inquiry); [lia|done|].
    by apply inMonthOf_spec.
Qed.

End NumberFacts.

Lemma wf_jan15 : Date.wf Sample.jan15.
Proof. unfold Date.wf; cbn; lia. Qed.

(** The format and the count at 15 January 2024; then three January
    submissions in a row, a submission that is refused, and a deletion. *)
Lemma generateInquiryNumber_sequential_witness :
  ((Date.wf Sample.jan15
   /\ 1000 <= Date.year Sample.jan15 <= 9999
   /\ exists yyyy mm nnnn,
        Inquiry.generateInquiryNumber Sample.jan15 ∅
        = "INQ" +:+ yyyy +:+ mm +:+ nnnn
        /\ String.length yyyy = 4%nat
        /\ Js.parseDigits yyyy = Some 2024
        /\ String.length mm = 2%nat
        /\ Js.parseDigits mm = Some 1
        /\ Js.parseDigits nnnn = Some 1)
  /\ (map_Forall (fun _ i => Date.wf (Inquiry.inquiryDate i))
        (Routes.inquiries Sample.acmeDb)
      /\ Inquiry.countDocuments (Inquiry.inMonthOf Sample.jan15)
           (Routes.inquiries Sample.acmeDb)
         = Z.of_nat
             (size (filter
                      (fun kv : positive * Inquiry.t =>
                         Date.year (Inquiry.inquiryDate kv.2) = 2024
                         /\ Date.month (Inquiry.inquiryDate kv.2) = 0)
                      (Routes.inquiries Sample.acmeDb))))
  /\ (Routes.postInquiry Sample.anyEmail Sample.emptyDb Sample.acmeBody
        Sample.jan15 1%positive
      = (Routes.json 201 true "Inquiry submitted successfully", Sample.acmeDb)
      /\ Inquiry.countDocuments (Inquiry.inMonthOf Sample.jan20)
           (Routes.inquiries Sample.acmeDb) + 1
         = (Inquiry.countDocuments (Inquiry.inMonthOf Sample.jan15) ∅ + 1) + 1))
  /\ (let r1 :=
      Routes.postInquiry Sample.anyEmail Sample.emptyDb Sample.acmeBody
        Sample.jan15 1 in
    let rs :=
      Routes.postInquiries Sample.anyEmail r1.2
        [(Sample.phoneBody, Sample.jan16, 2%positive)] in
    let r2 :=
      Routes.postInquiry Sample.anyEmail rs.2 Sample.acmeBody Sample.jan20 3 in
    (exists i1 i2,
       Routes.inquiries r1.2 !! 1%positive = Some i1
       /\ Routes.inquiries r2.2 !! 3%positive = Some i2
       /\ Inquiry.inquiryNumber i1
          = Inquiry.generateInquiryNumber Sample.jan15
              (Routes.inquiries Sample.emptyDb)
       /\ Inquiry.inquiryNumber i2
          = Inquiry.generateInquiryNumber Sample.jan20 (Routes.inquiries rs.2)
       /\ Inquiry.countDocuments (Inquiry.inMonthOf Sample.jan20)
            (Routes.inquiries rs.2) + 1
          = (Inquiry.countDocuments (Inquiry.inMonthOf Sample.jan15)
              (Routes.inquiries Sample.emptyDb) + 1)
            + 1 + Routes.created rs.1
       /\ Inquiry.countDocuments (Inquiry.inMonthOf Sample.jan15)
              (Routes.inquiries Sample.emptyDb) + 1
          < Inquiry.countDocuments (Inquiry.inMonthOf Sample.jan20)
              (Routes.inquiries rs.2) + 1)
    /\ Inquiry.generateInquiryNumber Sample.jan20
         (Routes.inquiries
            (Routes.postInquiry Sample.anyEmail Sample.acmeDb Sample.acmeBody
               Sample.jan16 1).2)
       = Inquiry.generateInquiryNumber Sample.jan16
           (Routes.inquiries Sample.acmeDb)
    /\ Inquiry.countDocuments (Inquiry.inMonthOf Sample.jan20)
         (Routes.inquiries (Routes.deleteInquiry Sample.acmeDb 1).2) + 1
       = Inquiry.countDocuments (Inquiry.inMonthOf Sample.jan20)
           (Routes.inquiries Sample.acmeDb)).
Proof.
  split.
  { assert (Hy : 1000 <= Date.year Sample.jan15 <= 9999) by (simpl; lia).
    assert (Hstored : map_Forall (fun _ i => Date.wf (Inquiry.inquiryDate i))
                        (Routes.inquiries Sample.acmeDb)).
    { replace (Routes.inquiries Sample.acmeDb)
        with ({[1%positive := Sample.acme]} : gmap positive Inquiry.t)
        by (vm_compute; reflexivity).
      apply map_Forall_singleton. exact wf_jan15. }
    assert (Hpost : Routes.postInquiry Sample.anyEmail Sample.emptyDb
                      Sample.acmeBody Sample.jan15 1%positive
                    = (Routes.json 201 true "Inquiry submitted successfully",
                       Sample.acmeDb)) by (vm_compute; reflexivity).
    split; [|split].
    - split; [exact wf_jan15|]. split; [exact Hy|].
      destruct (proj1 generateInquiryNumber_sequential Sample.jan15 ∅
                  wf_jan15 Hy)
        as (yyyy & mm & nnnn & H1 & H2 & H3 & H4 & H5 & H6 & _).
      exists yyyy, mm, nnnn. repeat split; assumption.
    - split; [exact Hstored|].
      exact (proj1 (proj2 generateInquiryNumber_sequential) Sample.jan15 _
               wf_jan15 Hstored).
    - split; [exact Hpost|].
      exact (proj2 (proj1 (proj2 (proj2 generateInquiryNumber_sequential))
                      _ _ _ _ _ _ _
                      Sample.jan20 Hpost eq_refl wf_jan15 eq_refl eq_refl)). }
  assert (Hw16 : Date.wf Sample.jan16)
    by (vm_compute; (split; [split|]); congruence || lia).
  assert (Hw20 : Date.wf Sample.jan20)
    by (vm_compute; (split; [split|]); congruence || lia).
  destruct generateInquiryNumber_sequential
    as (_ & _ & _ & _ & Hrun & Hfail & Hdel).
  split; [|split].
  - refine (Hrun Sample.anyEmail Sample.emptyDb Sample.acmeBody Sample.jan15
              1%positive [(Sample.phoneBody, Sample.jan16, 2%positive)]
              Sample.acmeBody Sample.jan20 3%positive
              eq_refl eq_refl wf_jan15 Hw20 eq_refl eq_refl _).
    constructor; [|constructor].
    split; [exact Hw16|split; reflexivity].
  - apply (Hfail Sample.anyEmail Sample.acmeDb Sample.acmeBody Sample.jan16
             1%positive Sample.jan20); [vm_compute; discriminate|done|done].
  - apply (Hdel Sample.acmeDb 1%positive Sample.acme Sample.jan20);
      try reflexivity; try exact Hw20; exact wf_jan15.
Defined.

(** C8 as stated does not hold: successive generations of a month do not
    always give increasing sequence numbers.  With the second of two January
    leads deleted, the next submission is given the number of the deleted
    one again, and is stored under it. *)
Lemma generateInquiryNumber_repeat_counterexample :
  let r1 :=
    Routes.postInquiry Sample.anyEmail Sample.emptyDb Sample.acmeBody
      Sample.jan15 1 in
  let r2 :=
    Routes.postInquiry Sample.anyEmail r1.2 Sample.phoneBody Sample.jan16 2 in
  let r3 := Routes.deleteInquiry r2.2 2 in
  let r4 :=
    Routes.postInquiry Sample.anyEmail r3.2 Sample.acmeBody Sample.jan20 3 in
  statusCode r1.1 = 201
  /\ statusCode r2.1 = 201
  /\ statusCode r3.1 = 200
  /\ statusCode r4.1 = 201
  /\ Inquiry.inquiryNumber <$> Routes.inquiries r2.2 !! 2%positive
     = Some "INQ2024010002"
  /\ Inquiry.inquiryNumber <$> Routes.inquiries r4.2 !! 3%positive
     = Some "INQ2024010002".
Proof. vm_compute. repeat split; reflexivity. Qed.

(** The first two numbers of January 2024. *)
Example generateInquiryNumber_sample :
  Inquiry.generateInquiryNumber Sample.jan15 ∅ = "INQ2024010001"
  /\ Inquiry.generateInquiryNumber Sample.jan20 (Routes.inquiries Sample.acmeDb)
     = "INQ2024010002"
  /\ Inquiry.generateInquiryNumber Sample.feb03 (Routes.inquiries Sample.acmeDb)
     = "INQ2024020001".
Proof. vm_compute. repeat split; reflexivity. Qed.

(** The count follows deletions too: with the first of two January leads
    deleted, the generator hands out the number of the second again, and the
    unique index rejects the submission. *)
Remark generateInquiryNumber_after_delete :
  let db2 := (Routes.postInquiry Sample.anyEmail Sample.acmeDb Sample.phoneBody
                Sample.jan16 2%positive).2 in
  let db3 := (Routes.deleteInquiry db2 1%positive).2 in
  Inquiry.inquiryNumber <$> Routes.inquiries db2 !! 2%positive
    = Some "INQ2024010002"
  /\ Inquiry.generateInquiryNumber Sample.jan20 (Routes.inquiries db3)
     = "INQ2024010002"
  /\ statusCode (Routes.postInquiry Sample.anyEmail db3 Sample.acmeBody
                   Sample.jan20 3%positive).1 = 500.
Proof. vm_compute. repeat split; reflexivity. Qed.

(** * Further properties *)

(** ** Stock updates in sequence *)

Section StockSequenceFacts.

Import Product.

(** X1. An increase followed by a decrease of the same quantity gives the
    document back; a decrease followed by an increase of the same quantity
    gives it back exactly when the quantity did not exceed the stock, and
    leaves a stock equal to the quantity otherwise. *)
Theorem updateStock_round_trips this quantity :
  0 <= stockQuantity this -> 0 <= quantity ->
  updateStock (updateStock this quantity "increase") quantity "decrease" = this
  /\ (quantity <= stockQuantity this ->
      updateStock (updateStock this quantity "decrease") quantity "increase"
      = this)
  /\ (stockQuantity this < quantity ->
      stockQuantity
        (updateStock (updateStock this quantity "decrease") quantity "increase")
      = quantity).
Proof.
  intros Hs Hq. destruct this as [n c b s r]. cbn in *.
  unfold updateStock, with_stockQuantity; cbn.
  split; [f_equal; lia|]. split; [intros; f_equal; lia|lia].
Qed.

Lemma updateStock_round_trips_witness :
  0 <= stockQuantity Sample.shirt /\ 0 <= 20
  /\ updateStock (updateStock Sample.shirt 20 "increase") 20 "decrease"
     = Sample.shirt.
Proof.
  assert (Hs : 0 <= stockQuantity Sample.shirt) by (simpl; lia).
  assert (Hq : 0 <= 20) by lia.
  split; [exact Hs|]. split; [exact Hq|].
  exact (proj1 (updateStock_round_trips Sample.shirt 20 Hs Hq)).
Defined.

(** X2. A run of decreases leaves max(0, initial - sum of the quantities),
    whatever the order in which the floor was hit. *)
Theorem updateStock_decreases_sum this qs :
  0 <= stockQuantity this -> Forall (fun q => 0 <= q) qs ->
  stockQuantity (updateStockSeq this ((fun q => (q, "decrease")) <$> qs))
  = Z.max 0 (stockQuantity this - Order.sumZ qs).
Proof.
  revert this. induction qs as [|q qs IH]; intros this Hs Hq.
  - cbn. lia.
  - inversion Hq as [|? ? Hq1 Hqs]; subst.
    assert (0 <= Order.sumZ qs).
    { clear -Hqs. induction Hqs; [done|]. unfold Order.sumZ in *. cbn. lia. }
    change (stockQuantity
              (updateStockSeq (updateStock this q "decrease")
                 ((fun q => (q, "decrease")) <$> qs))
            = Z.max 0 (stockQuantity this - Order.sumZ (q :: qs))).
    rewrite IH; [|rewrite updateStock_decrease; lia|done].
    rewrite updateStock_decrease. unfold Order.sumZ in *. cbn. lia.
Qed.

Lemma updateStock_decreases_sum_witness :
  0 <= stockQuantity Sample.shirt
  /\ Forall (fun q => 0 <= q) [30; 30; 5]
  /\ stockQuantity
       (updateStockSeq Sample.shirt
          ((fun q => (q, "decrease")) <$> [30; 30; 5]))
     = Z.max 0 (stockQuantity Sample.shirt - Order.sumZ [30; 30; 5]).
Proof.
  assert (Hs : 0 <= stockQuantity Sample.shirt) by (simpl; lia).
  assert (Hq : Forall (fun q => 0 <= q) [30; 30; 5])
    by (repeat constructor; lia).
  split; [exact Hs|]. split; [exact Hq|].
  exact (updateStock_decreases_sum Sample.shirt [30; 30; 5] Hs Hq).
Defined.

End StockSequenceFacts.

(** ** The product routes *)

Section ProductRouteFacts.

Import Routes Inventory.

Lemma stockBodyValid_inv body :
  stockBodyValid body = true ->
  quantityValid (quantity body) = true
  /\ (operation body = "increase" \/ operation body = "decrease").
Proof.
  unfold stockBodyValid. rewrite andb_true_iff, bool_decide_eq_true.
  rewrite !elem_of_cons, elem_of_nil. intros [Hq [H|[H|[]]]]; auto.
Qed.

Lemma uint_of_string_app a b :
  is_Some (NilEmpty.uint_of_string a) ->
  is_Some (NilEmpty.uint_of_string b) ->
  is_Some (NilEmpty.uint_of_string (a +:+ b)).
Proof.
  intros Ha Hb. induction a as [|c a IH]; [done|].
  change (String c a +:+ b) with (String c (a +:+ b)).
  cbn [NilEmpty.uint_of_string] in Ha |- *.
  destruct (NilEmpty.uint_of_string a) as [da|];
    [|by destruct Ha as [? Ha]].
  destruct (IH ltac:(by eexists)) as [x ->].
  destruct Ha as [d Ha].
  destruct c as [[] [] [] [] [] [] [] []]; cbn in Ha |- *;
    (discriminate || by eexists).
Qed.

Lemma uint_of_string_plus a d :
  NilEmpty.uint_of_string (a +:+ String "+" d) = None.
Proof.
  induction a as [|c a IH].
  - change ("" +:+ String "+" d) with (String "+" d). cbn.
    by destruct (NilEmpty.uint_of_string d).
  - change (String c a +:+ String "+" d) with (String c (a +:+ String "+" d)).
    cbn [NilEmpty.uint_of_string]. by rewrite IH.
Qed.

Lemma uint_of_string_first c r :
  is_Some (NilEmpty.uint_of_string (String c r)) ->
  Ascii.eqb c "+" = false /\ Ascii.eqb c "-" = false.
Proof.
  cbn. destruct (NilEmpty.uint_of_string r) as [d|]; [|by intros [? ?]].
  intros [x Hx].
  destruct c as [[] [] [] [] [] [] [] []]; cbn in Hx |- *;
    (discriminate || done).
Qed.

(** On a text that is all digits, and not empty, [intValue] reads the
    digits. *)
Lemma intValue_digits t :
  t <> "" -> is_Some (NilEmpty.uint_of_string t) ->
  intValue t = Js.parseDigits t.
Proof.
  intros Hne Hsome. destruct t as [|c r]; [done|].
  destruct (uint_of_string_first c r Hsome) as [Hplus Hminus].
  unfold intValue. by rewrite Hplus, Hminus.
Qed.

Lemma numToString_digits n :
  0 <= n ->
  Js.numToString n <> ""
  /\ is_Some (NilEmpty.uint_of_string (Js.numToString n)).
Proof.
  intros Hn. unfold Js.numToString.
  destruct (Z.ltb_spec n 0); [lia|].
  rewrite NilEmpty.usu. split; [|by eexists].
  intros Hempty.
  pose proof (NilEmpty.usu (N.to_uint (Z.to_N n))) as Hu.
  rewrite Hempty in Hu. cbn in Hu. injection Hu as Hu.
  pose proof (Unsigned.of_to (Z.to_N n)) as Hof. rewrite <- Hu in Hof.
  cbn in Hof. destruct (Z.to_N n) eqn:E; [by cbn in Hu|discriminate].
Qed.

(** What a valid string quantity is: an optional plus sign and digits that
    read as a number from 1 on. *)
Lemma quantityValid_string s :
  quantityValid (QStr s) = true ->
  exists v,
    intValue s = Some v /\ 1 <= v
    /\ if signed s
       then exists d, s = String "+" d
       else s <> "" /\ is_Some (NilEmpty.uint_of_string s).
Proof.
  unfold quantityValid. destruct (intValue s) as [v|] eqn:Hv; [|done].
  rewrite Z.leb_le. intros Hle. exists v. split; [done|]. split; [done|].
  destruct s as [|c d]; [done|]. revert Hv. unfold intValue, signed.
  destruct (Ascii.eqb_spec c "+") as [->|Hplus]; [by eexists|].
  destruct (Ascii.eqb c "-").
  - destruct (String.eqb d ""); [done|]. unfold Js.parseDigits.
    destruct (NilEmpty.uint_of_string d); [|done]. cbn. intros [= <-]. lia.
  - cbn [String.eqb]. unfold Js.parseDigits.
    destruct (NilEmpty.uint_of_string (String c d)) eqn:E; [|done].
    intros _. split; [done|by eexists].
Qed.

Lemma parseDigits_nonneg t w : Js.parseDigits t = Some w -> 0 <= w.
Proof.
  unfold Js.parseDigits. destruct (NilEmpty.uint_of_string t); [|done].
  cbn. intros [= <-]. lia.
Qed.

(** The method on a quantity the route accepts. *)
Lemma updateStockWith_valid product q op :
  0 <= Product.stockQuantity product ->
  quantityValid q = true ->
  match q with
  | QNum n =>
      1 <= n
      /\ updateStockWith product q op = Some (Product.updateStock product n op)
  | QStr s =>
      exists v,
        intValue s = Some v /\ 1 <= v
        /\ (op = "decrease" ->
            updateStockWith product q op
            = Some (Product.with_stockQuantity product
                      (Z.max 0 (Product.stockQuantity product - v))))
        /\ (op = "increase" ->
            if signed s then updateStockWith product q op = None
            else
              exists w,
                Js.parseDigits
                  (Js.numToString (Product.stockQuantity product) +:+ s)
                = Some w
                /\ updateStockWith product q op
                   = Some (Product.with_stockQuantity product w))
  end.
Proof.
  intros Hs Hq. destruct q as [n|s].
  - split; [by apply Z.leb_le|done].
  - destruct (quantityValid_string s Hq) as (v & Hv & Hle & Hform).
    exists v. split; [done|]. split; [done|].
    destruct (numToString_digits _ Hs) as [Hne Hsome].
    assert (forall t, Js.numToString (Product.stockQuantity product) +:+ t <> "")
      as Hne'.
    { intros t. by destruct (Js.numToString (Product.stockQuantity product)). }
    split.
    + intros ->. cbn. by rewrite Hv.
    + intros ->. cbn [updateStockWith String.eqb Ascii.eqb Bool.eqb].
      destruct (signed s).
      * destruct Hform as [d ->].
        assert (intValue
                  (Js.numToString (Product.stockQuantity product)
                   +:+ String "+" d) = None) as ->; [|done].
        destruct (Js.numToString (Product.stockQuantity product)) as [|c r]
          eqn:Hn; [done|].
        destruct (uint_of_string_first c r Hsome) as [Hplus Hminus].
        change (String c r +:+ String "+" d)
          with (String c (r +:+ String "+" d)).
        unfold intValue. rewrite Hplus, Hminus. cbn [String.eqb].
        unfold Js.parseDigits.
        change (String c (r +:+ String "+" d))
          with (String c r +:+ String "+" d).
        by rewrite uint_of_string_plus.
      * destruct Hform as [Hs1 Hs2].
        rewrite intValue_digits; [|done|by apply uint_of_string_app].
        unfold Js.parseDigits.
        destruct (uint_of_string_app _ _ Hsome Hs2) as [x ->]. cbn.
        by eexists.
Qed.

(** X3. [PUT /api/products/:id/stock] on a stored product whose stock is
    not negative, with a request the route accepts; the other products and
    collections stay as they were.  With the quantity as a number it
    answers 200 and stores the stock plus the quantity, or the stock less
    the quantity floored at zero, and after a decrease the product reports
    'out-of-stock' exactly when the quantity was at least the stock.  With
    the quantity as a string a decrease does the same on the number the
    string stands for, but an increase appends the string to the digits of
    the stock: with digits alone it answers 200 and stores the number with
    those digits, and with a plus sign in front it answers 500 and stores
    nothing. *)
Theorem putStock_stored db id body product :
  products db !! id = Some product ->
  0 <= Product.stockQuantity product ->
  stockBodyValid body = true ->
  let r := putStock db id body in
  let storedWith (stock : Z -> Prop) :=
    statusCode r.1 = 200
    /\ exists stored,
         products r.2 !! id = Some stored
         /\ Product.name stored = Product.name product
         /\ Product.code stored = Product.code product
         /\ Product.basePrice stored = Product.basePrice product
         /\ Product.reorderLevel stored = Product.reorderLevel product
         /\ stock (Product.stockQuantity stored) in
  customers r.2 = customers db
  /\ inquiries r.2 = inquiries db
  /\ orders r.2 = orders db
  /\ (forall pid, pid <> id -> products r.2 !! pid = products db !! pid)
  /\ match quantity body with
     | QNum n =>
         (operation body = "increase" ->
          storedWith (fun stock => stock = Product.stockQuantity product + n))
         /\ (operation body = "decrease" ->
             storedWith
               (fun stock =>
                  stock = Z.max 0 (Product.stockQuantity product - n))
             /\ forall stored,
                  products r.2 !! id = Some stored ->
                  (stockStatus stored = "out-of-stock"
                   <-> Product.stockQuantity product <= n))
     | QStr s =>
         exists v,
           intValue s = Some v /\ 1 <= v
           /\ (operation body = "decrease" ->
               storedWith
                 (fun stock =>
                    stock = Z.max 0 (Product.stockQuantity product - v)))
           /\ (operation body = "increase" ->
               if signed s then statusCode r.1 = 500 /\ r.2 = db
               else
                 storedWith
                   (fun stock =>
                      Js.parseDigits
                        (Js.numToString (Product.stockQuantity product) +:+ s)
                      = Some stock))
     end.
Proof.
  intros Hfound Hs Hvalid. cbn zeta.
  destruct (stockBodyValid_inv body Hvalid) as [Hq Hop].
  assert (forall updated,
            updateStockWith product (quantity body) (operation body)
            = Some updated ->
            0 <= Product.stockQuantity updated ->
            putStock db id body
            = (json 200 true ("Stock " +:+ operation body +:+ "d successfully"),
               with_products db (<[id := updated]> (products db)))) as Hok.
  { intros updated Hupd H0. unfold putStock, Product.save.
    rewrite Hvalid, Hfound, Hupd. cbn [negb].
    destruct (Z.ltb_spec (Product.stockQuantity updated) 0); [lia|done]. }
  assert (updateStockWith product (quantity body) (operation body) = None ->
          putStock db id body
          = (json 500 false "Server error updating stock", db)) as Hfail.
  { intros Hupd. unfold putStock. by rewrite Hvalid, Hfound, Hupd. }
  pose proof (updateStockWith_valid product (quantity body) (operation body)
                Hs Hq) as Hcases.
  assert (customers (putStock db id body).2 = customers db
          /\ inquiries (putStock db id body).2 = inquiries db
          /\ orders (putStock db id body).2 = orders db
          /\ (forall pid, pid <> id ->
                products (putStock db id body).2 !! pid = products db !! pid))
    as (Hc & Hi & Ho & Hp).
  { unfold putStock. rewrite Hvalid, Hfound. cbn [negb].
    destruct (updateStockWith _ _ _); [|done].
    destruct (Product.save _); [|done].
    cbn. repeat split. intros pid Hne. by rewrite lookup_insert_ne. }
  do 4 (split; [done|]). clear Hc Hi Ho Hp.
  destruct (quantity body) as [n|s].
  - destruct Hcases as [Hn Hupd]. split.
    + intros E.
      rewrite (Hok _ Hupd) by (rewrite E, updateStock_increase; lia).
      cbn [fst snd products with_products]. rewrite lookup_insert_eq.
      split; [done|]. eexists. split; [done|]. by rewrite E.
    + intros E.
      rewrite (Hok _ Hupd) by (rewrite E, updateStock_decrease; lia).
      cbn [fst snd products with_products]. rewrite lookup_insert_eq.
      split.
      * split; [done|]. eexists. split; [done|]. by rewrite E.
      * intros stored [= <-]. unfold stockStatus. rewrite E.
        rewrite updateStock_decrease.
        destruct (Z.eqb_spec (Z.max 0 (Product.stockQuantity product - n)) 0)
          as [E0|E0].
        -- split; [intros _; lia|done].
        -- split; [|intros; lia]. by destruct (_ <=? _).
  - destruct Hcases as (v & Hv & Hle & Hdec & Hinc).
    exists v. split; [done|]. split; [done|]. split.
    + intros E. rewrite (Hok _ (Hdec E)) by (cbn; lia).
      cbn [fst snd products with_products]. rewrite lookup_insert_eq.
      split; [done|]. eexists. split; [done|]. by repeat split.
    + intros E. specialize (Hinc E). destruct (signed s).
      * by rewrite (Hfail Hinc).
      * destruct Hinc as (w & Hw & Hupd).
        rewrite (Hok _ Hupd) by (cbn; by eapply parseDigits_nonneg).
        cbn [fst snd products with_products]. rewrite lookup_insert_eq.
        split; [done|]. eexists. split; [done|]. by repeat split.
Qed.

Lemma putStock_stored_witness :
  Routes.products (Sample.orderDb "draft") !! 5%positive
    = Some (Product.with_stockQuantity Sample.shirt 40)
  /\ 0 <= Product.stockQuantity (Product.with_stockQuantity Sample.shirt 40)
  /\ stockBodyValid (mkStockBody (QStr "5") "increase") = true
  /\ statusCode
       (putStock (Sample.orderDb "draft") 5%positive
          (mkStockBody (QStr "5") "increase")).1 = 200
  /\ exists stored,
       Routes.products
         (putStock (Sample.orderDb "draft") 5%positive
            (mkStockBody (QStr "5") "increase")).2 !! 5%positive
       = Some stored
       /\ Product.stockQuantity stored = 405.
Proof.
  assert (H1 : Routes.products (Sample.orderDb "draft") !! 5%positive
               = Some (Product.with_stockQuantity Sample.shirt 40))
    by (vm_compute; reflexivity).
  assert (H2 : 0 <= Product.stockQuantity
                      (Product.with_stockQuantity Sample.shirt 40))
    by (simpl; lia).
  assert (H3 : stockBodyValid (mkStockBody (QStr "5") "increase") = true)
    by (vm_compute; reflexivity).
  split; [exact H1|]. split; [exact H2|]. split; [exact H3|].
  destruct (putStock_stored _ _ _ _ H1 H2 H3)
    as (_ & _ & _ & _ & v & _ & _ & _ & Hinc).
  destruct (Hinc eq_refl) as (H200 & stored & Hstored & _ & _ & _ & _ & Hstock).
  split; [exact H200|]. exists stored. split; [exact Hstored|].
  change (Some 405 = Some (Product.stockQuantity stored)) in Hstock.
  by injection Hstock.
Defined.

Lemma hasOrders_false (orders : gmap positive Order.t) id oid order item :
  hasOrders orders id = false ->
  orders !! oid = Some order ->
  item ∈ default [] (Order.items order) ->
  Order.product item <> id.
Proof.
  intros Hno Horder Hitem Heq. unfold hasOrders in Hno.
  apply bool_decide_eq_false in Hno. apply Hno.
  exists oid, order. split; [done|].
  apply Exists_exists. by exists item.
Qed.

(** X4. [DELETE /api/products/:id] never removes a product that a line of a
    stored order names: when every line of every order names a stored
    product before the request, the same holds after it.  A request that
    is not answered 200 changes nothing; one that is has removed the
    product and nothing else. *)
Theorem deleteProduct_keeps_lines_resolved db id :
  linesResolved db ->
  let r := deleteProduct db id in
  linesResolved r.2
  /\ (statusCode r.1 <> 200 -> r.2 = db)
  /\ (statusCode r.1 = 200 ->
      products r.2 = delete id (products db)
      /\ orders r.2 = orders db
      /\ customers r.2 = customers db
      /\ inquiries r.2 = inquiries db).
Proof.
  intros Hres r. subst r. unfold deleteProduct.
  destruct (products db !! id) as [p|] eqn:Hp; [|by repeat split].
  destruct (hasOrders (orders db) id) eqn:Hno; [by repeat split|].
  cbn. split; [|by repeat split].
  intros oid order item Horder Hitem. cbn in *.
  rewrite lookup_delete_ne; [by eapply Hres|].
  apply not_eq_sym. by eapply hasOrders_false.
Qed.

Lemma linesResolved_orderDb status : linesResolved (Sample.orderDb status).
Proof.
  intros oid order item. unfold Sample.orderDb; cbn.
  rewrite lookup_singleton_Some. intros [_ <-]. cbn.
  rewrite list_elem_of_singleton. intros ->. cbn.
  rewrite lookup_singleton_eq. by eexists.
Qed.

Lemma deleteProduct_keeps_lines_resolved_witness :
  linesResolved (Sample.orderDb "draft")
  /\ linesResolved (deleteProduct (Sample.orderDb "draft") 5%positive).2
  /\ statusCode (deleteProduct (Sample.orderDb "draft") 5%positive).1 = 400.
Proof.
  split; [exact (linesResolved_orderDb "draft")|].
  split; [|vm_compute; reflexivity].
  exact (proj1 (deleteProduct_keeps_lines_resolved _ 5%positive
                  (linesResolved_orderDb "draft"))).
Defined.

End ProductRouteFacts.

(** ** Inquiry methods in sequence *)

Section InquiryLogFacts.

Import Inquiry InquiryLog.

Lemma call_firstResponseTime this m now :
  firstResponseTime (call this m now)
  = match firstResponseTime this with
    | Some t => Some t
    | None => if isOutbound m then Some now else None
    end.
Proof.
  destruct m as [commData userId|content userId isInternal
                |newStatus userId notes|userId notes|date notes
                |customerId orderId conversionValue];
    cbn [call isOutbound].
  - unfold addCommunication; cbn.
    destruct (String.eqb (d_direction commData) "outbound");
      destruct (firstResponseTime this) eqn:E; cbn; by rewrite ?E.
  - cbn. by destruct (firstResponseTime this).
  - unfold updateStatus.
    destruct (negb (String.eqb notes "")), (_ && _); cbn;
      by destruct (firstResponseTime this).
  - unfold assignTo. destruct (negb _); cbn;
      by destruct (firstResponseTime this).
  - cbn. by destruct (firstResponseTime this).
  - cbn. by destruct (firstResponseTime this).
Qed.

(** X5. firstResponseTime is written once: through any sequence of method
    calls an inquiry keeps the first response time it has, and one that has
    none gets the time of the first outbound communication of the sequence,
    or stays without when there is none. *)
Theorem firstResponseTime_set_once calls : forall this,
  firstResponseTime (callSeq this calls)
  = match firstResponseTime this with
    | Some t => Some t
    | None => firstOutbound calls
    end.
Proof.
  induction calls as [|[m now] calls IH]; intros this.
  - unfold callSeq, firstOutbound; cbn. by destruct (firstResponseTime this).
  - change (callSeq this ((m, now) :: calls))
      with (callSeq (call this m now) calls).
    rewrite IH, call_firstResponseTime. unfold firstOutbound. cbn.
    destruct (firstResponseTime this); [done|].
    by destruct (isOutbound m).
Qed.

Lemma call_append_only this m now :
  notes this `prefix_of` notes (call this m now)
  /\ communications this `prefix_of` communications (call this m now).
Proof.
  destruct m as [commData userId|content userId isInternal
                |newStatus userId notes|userId notes|date notes
                |customerId orderId conversionValue];
    cbn [call].
  - unfold addCommunication. destruct (_ && _); cbn;
      split; (done || by apply prefix_app_r).
  - split; [by apply prefix_app_r|done].
  - unfold updateStatus.
    destruct (negb (String.eqb notes "")), (_ && _); cbn;
      split; (done || by apply prefix_app_r).
  - unfold assignTo. destruct (negb _); cbn;
      split; (done || by apply prefix_app_r).
  - by split.
  - by split.
Qed.

(** X6. The notes and the communications of an inquiry only grow: after any
    sequence of method calls the lists the inquiry had are a prefix of the
    lists it has. *)
Theorem inquiry_lists_append_only calls : forall this,
  notes this `prefix_of` notes (callSeq this calls)
  /\ communications this `prefix_of` communications (callSeq this calls).
Proof.
  induction calls as [|[m now] calls IH]; intros this; [done|].
  change (callSeq this ((m, now) :: calls))
    with (callSeq (call this m now) calls).
  destruct (call_append_only this m now) as [Hn Hc].
  destruct (IH (call this m now)) as [Hn' Hc'].
  split; by etrans.
Qed.

End InquiryLogFacts.

Section InquiryValidityFacts.

Import Inquiry InquiryLog.

Lemma validate_updateStatus this newStatus userId notes now :
  validate this = None -> newStatus ∈ statuses ->
  validate (updateStatus this newStatus userId notes now) = None.
Proof.
  intros Hvalid Hin'. pose proof (bool_decide_eq_true_2 _ Hin') as Hin.
  unfold updateStatus.
  destruct (negb (String.eqb notes "")), (_ && _);
    unfold validate in *; cbn; rewrite Hin; cbn;
    repeat (case_match; try discriminate); done.
Qed.

Lemma call_valid this m now :
  valid this = true -> accepted m = true -> valid (call this m now) = true.
Proof.
  unfold valid. rewrite !andb_true_iff, !bool_decide_eq_true.
  intros [Hvalid Hcomms] Hacc.
  destruct m as [commData userId|content userId isInternal
                |newStatus userId notes|userId notes|date notes
                |customerId orderId conversionValue];
    cbn [call accepted] in *.
  - rewrite validate_addCommunication. split; [done|].
    apply andb_true_iff in Hacc as [Ht Hd].
    unfold addCommunication.
    destruct (_ && _); cbn; rewrite forallb_app, Hcomms; cbn;
      unfold commValid; cbn; by rewrite Ht, Hd.
  - done.
  - apply andb_true_iff in Hacc as [Hs Hn].
    apply bool_decide_eq_true in Hs. apply String.eqb_eq in Hn as ->.
    split; [by apply validate_updateStatus|].
    unfold updateStatus. cbn. by destruct (_ && _).
  - apply String.eqb_eq in Hacc as ->. done.
  - done.
  - split; [by apply validate_convertToCustomer|done].
Qed.

Lemma call_identity this m now :
  inquiryNumber (call this m now) = inquiryNumber this
  /\ inquiryDate (call this m now) = inquiryDate this
  /\ email (call this m now) = email this
  /\ customerName (call this m now) = customerName this.
Proof.
  destruct m as [commData userId|content userId isInternal
                |newStatus userId notes|userId notes|date notes
                |customerId orderId conversionValue];
    cbn [call].
  - unfold addCommunication. by destruct (_ && _).
  - done.
  - unfold updateStatus. by destruct (negb (String.eqb notes "")), (_ && _).
  - unfold assignTo. by destruct (negb _).
  - done.
  - done.
Qed.

(** X7. The methods of an inquiry keep it valid and keep its identity: a
    document that passes every validator of the schema, those of its
    communications included, still passes them after any sequence of calls
    that save once and are given values of the enums (a status for
    updateStatus, a type and a direction for addCommunication), so that the
    save ending each call passes validation; and its inquiryNumber,
    inquiryDate, email and customerName are the ones it had. *)
Theorem inquiry_methods_keep_valid calls : forall this,
  valid this = true ->
  Forall (fun c => accepted c.1 = true) calls ->
  valid (callSeq this calls) = true
  /\ inquiryNumber (callSeq this calls) = inquiryNumber this
  /\ inquiryDate (callSeq this calls) = inquiryDate this
  /\ email (callSeq this calls) = email this
  /\ customerName (callSeq this calls) = customerName this.
Proof.
  induction calls as [|[m now] calls IH]; intros this Hvalid Hacc; [done|].
  inversion Hacc as [|? ? Hm Hrest]; subst.
  change (callSeq this ((m, now) :: calls))
    with (callSeq (call this m now) calls).
  destruct (IH (call this m now)) as (Hv & Hn & Hd & He & Hc);
    [by apply call_valid|done|].
  destruct (call_identity this m now) as (Hn1 & Hd1 & He1 & Hc1).
  split; [exact Hv|]. by rewrite Hn, Hd, He, Hc.
Qed.

Lemma inquiry_methods_keep_valid_witness :
  valid Sample.acme = true
  /\ Forall (fun c : MethodCall * Date.t => accepted c.1 = true)
       [(CallAddCommunication
           (mkCommData "phone" "Quote" "Called about the quote" "outbound"
              "interested" "send samples") Sample.staff, Sample.jan16);
        (CallUpdateStatus "quoted" Sample.staff "", Sample.jan16);
        (CallAssignTo Sample.manager "", Sample.jan20)]
  /\ valid
       (callSeq Sample.acme
          [(CallAddCommunication
              (mkCommData "phone" "Quote" "Called about the quote" "outbound"
                 "interested" "send samples") Sample.staff, Sample.jan16);
           (CallUpdateStatus "quoted" Sample.staff "", Sample.jan16);
           (CallAssignTo Sample.manager "", Sample.jan20)]) = true.
Proof.
  assert (Hv : valid Sample.acme = true) by (vm_compute; reflexivity).
  assert (Ha : Forall (fun c : MethodCall * Date.t => accepted c.1 = true)
                 [(CallAddCommunication
                     (mkCommData "phone" "Quote" "Called about the quote"
                        "outbound" "interested" "send samples") Sample.staff,
                   Sample.jan16);
                  (CallUpdateStatus "quoted" Sample.staff "", Sample.jan16);
                  (CallAssignTo Sample.manager "", Sample.jan20)]).
  { repeat constructor. }
  split; [exact Hv|]. split; [exact Ha|].
  exact (proj1 (inquiry_methods_keep_valid _ _ Hv Ha)).
Defined.

End InquiryValidityFacts.

(** ** Order status history and milestones *)

Section OrderDocFacts.

Import OrderDoc.

Lemma updateStatus_milestones this c :
  let o := updateStatus this (s_status c) (s_user c) (s_notes c) (s_now c) in
  let first (reached : string) (date : option Date.t) :=
    match date with
    | Some t => Some t
    | None => if String.eqb (s_status c) reached then Some (s_now c) else None
    end in
  productionStartDate o = first "in-production" (productionStartDate this)
  /\ actualCompletionDate o = first "ready" (actualCompletionDate this)
  /\ actualDeliveryDate o = first "delivered" (actualDeliveryDate this).
Proof.
  cbn.
  destruct (productionStartDate this), (actualCompletionDate this),
    (actualDeliveryDate this); cbn; rewrite ?andb_false_r, ?andb_true_r;
    repeat split; by repeat case_match.
Qed.

(** X8. The milestone dates of an order are written once: through any
    sequence of status changes productionStartDate, actualCompletionDate and
    actualDeliveryDate keep the value they have, and one that is unset
    becomes the time of the first change to 'in-production', 'ready' or
    'delivered' respectively; coming back to such a status later does not
    move the date. *)
Theorem order_milestones_set_once calls : forall this,
  let first (reached : string) (date : option Date.t) :=
    match date with
    | Some t => Some t
    | None => firstReached reached calls
    end in
  productionStartDate (updateStatusSeq this calls)
    = first "in-production" (productionStartDate this)
  /\ actualCompletionDate (updateStatusSeq this calls)
     = first "ready" (actualCompletionDate this)
  /\ actualDeliveryDate (updateStatusSeq this calls)
     = first "delivered" (actualDeliveryDate this).
Proof.
  induction calls as [|c calls IH]; intros this; cbn zeta.
  - unfold updateStatusSeq, firstReached; cbn.
    by destruct (productionStartDate this), (actualCompletionDate this),
      (actualDeliveryDate this).
  - change (updateStatusSeq this (c :: calls))
      with (updateStatusSeq
              (updateStatus this (s_status c) (s_user c) (s_notes c) (s_now c))
              calls).
    destruct (IH (updateStatus this (s_status c) (s_user c) (s_notes c)
                    (s_now c))) as (Hp & Hc & Hd).
    destruct (updateStatus_milestones this c) as (Hp1 & Hc1 & Hd1).
    cbn zeta in *. rewrite Hp, Hc, Hd, Hp1, Hc1, Hd1.
    unfold firstReached; cbn.
    destruct (productionStartDate this), (actualCompletionDate this),
      (actualDeliveryDate this); repeat split; by repeat case_match.
Qed.

(** X9. The status history is the log of the status changes: after any
    sequence of changes it is the history the order had followed by one
    entry per change, in order, each with the status, actor, notes and time
    of the change, and the status of the order is that of the last change
    (its own when there was none). *)
Theorem order_history_is_log calls : forall this,
  default [] (statusHistory (updateStatusSeq this calls))
    = default [] (statusHistory this) ++ (entryOf <$> calls)
  /\ Order.status (core (updateStatusSeq this calls))
     = default (Order.status (core this)) (s_status <$> last calls).
Proof.
  induction calls as [|c calls IH]; intros this.
  - unfold updateStatusSeq; cbn. by rewrite app_nil_r.
  - change (updateStatusSeq this (c :: calls))
      with (updateStatusSeq
              (updateStatus this (s_status c) (s_user c) (s_notes c) (s_now c))
              calls).
    destruct (IH (updateStatus this (s_status c) (s_user c) (s_notes c)
                    (s_now c))) as (Hh & Hs).
    rewrite Hh, Hs. cbn. rewrite <- app_assoc. split; [done|].
    destruct calls as [|c2 calls]; [done|].
    change (last (c :: c2 :: calls)) with (last (c2 :: calls)).
    destruct (last (c2 :: calls)) eqn:E; [done|].
    by apply last_None in E.
Qed.

Lemma actualDeliveryDate_kept calls : forall this t,
  actualDeliveryDate this = Some t ->
  actualDeliveryDate (updateStatusSeq this calls) = Some t.
Proof.
  induction calls as [|c calls IH]; intros this t Ht; [done|].
  change (updateStatusSeq this (c :: calls))
    with (updateStatusSeq
            (updateStatus this (s_status c) (s_user c) (s_notes c) (s_now c))
            calls).
  apply IH. destruct (updateStatus_milestones this c) as (_ & _ & Hd).
  cbn zeta in Hd. by rewrite Hd, Ht.
Qed.

(** X10. Delivery is final for the delivery status: once a status change to
    'delivered' has been made, the virtual deliveryStatus reads 'delivered'
    after every further sequence of status changes and at every time, also
    when the status itself has been moved away from 'delivered'. *)
Theorem deliveryStatus_stays_delivered this userId notes t0 calls now :
  deliveryStatus
    (updateStatusSeq (updateStatus this "delivered" userId notes t0) calls)
    now
  = "delivered".
Proof.
  unfold deliveryStatus.
  destruct (updateStatus_milestones this
              (mkStatusCall "delivered" userId notes t0)) as (_ & _ & Hd1).
  cbn zeta in Hd1. cbn [s_status s_user s_notes s_now] in Hd1.
  assert (exists t,
            actualDeliveryDate (updateStatus this "delivered" userId notes t0)
            = Some t) as [t Ht].
  { rewrite Hd1. destruct (actualDeliveryDate this); by eexists. }
  rewrite (actualDeliveryDate_kept calls _ t Ht).
  by destruct (String.eqb (Order.status _) "delivered").
Qed.

End OrderDocFacts.

(** ** Product images *)

Section ImageFacts.

Import ProductDoc.

Implicit Types (l : list Image) (products : gmap positive ProductDoc.t).

Lemma primaryCount_cons img l :
  primaryCount (img :: l)
  = ((if isPrimary img then 1 else 0) + primaryCount l)%nat.
Proof.
  unfold primaryCount. rewrite filter_cons.
  destruct (isPrimary img); by case_decide.
Qed.

Lemma primaryCount_app l1 l2 :
  primaryCount (l1 ++ l2) = (primaryCount l1 + primaryCount l2)%nat.
Proof. unfold primaryCount. by rewrite filter_app, length_app. Qed.

Lemma primaryCount_cleared l : primaryCount (setPrimary false <$> l) = 0%nat.
Proof.
  induction l as [|img l IH]; [done|].
  rewrite fmap_cons, primaryCount_cons. by rewrite IH.
Qed.

Lemma primaryCount_delete k l :
  (primaryCount (delete k l) <= primaryCount l)%nat.
Proof.
  revert k. induction l as [|img l IH]; intros [|k]; try done.
  - change (delete 0%nat (img :: l)) with l. rewrite primaryCount_cons. lia.
  - change (delete (S k) (img :: l)) with (img :: delete k l).
    rewrite !primaryCount_cons. specialize (IH k). lia.
Qed.

Lemma find_none_primaryCount l :
  primaryCount l = 0%nat -> List.find isPrimary l = None.
Proof.
  induction l as [|img l IH]; [done|].
  rewrite primaryCount_cons. cbn. destruct (isPrimary img); [lia|].
  intros H. by apply IH.
Qed.

(** Flagging by id on a list without a primary image. *)
Lemma alterById_primary imageId l l1 :
  primaryCount l = 0%nat ->
  alterById imageId (setPrimary true) l = Some l1 ->
  primaryCount l1 = 1%nat
  /\ img_id <$> l1 = img_id <$> l
  /\ url <$> l1 = url <$> l
  /\ exists img,
       List.find isPrimary l1 = Some img
       /\ img_id img = imageId
       /\ url <$> List.find (fun x => Pos.eqb (img_id x) imageId) l
          = Some (url img).
Proof.
  revert l1. induction l as [|x l IH]; intros l1 H0 Halter; [done|].
  rewrite primaryCount_cons in H0. cbn in Halter.
  destruct (isPrimary x) eqn:Hx; [lia|]. cbn in H0.
  cbn [List.find]. destruct (Pos.eqb_spec (img_id x) imageId) as [Hid|Hid].
  - injection Halter as <-. rewrite primaryCount_cons. cbn. rewrite H0.
    repeat split. eexists. by repeat split.
  - destruct (alterById imageId (setPrimary true) l) as [l2|] eqn:E;
      [|discriminate].
    injection Halter as <-.
    destruct (IH l2 H0 eq_refl) as (Hc & Hids & Hurls & img & Hf & Hi & Hu).
    rewrite primaryCount_cons, Hx, Hc, !fmap_cons, Hids, Hurls. cbn.
    rewrite Hx. repeat split. by exists img.
Qed.

Lemma primaryCount_delete_lookup k l img :
  l !! k = Some img ->
  primaryCount l
  = ((if isPrimary img then 1 else 0) + primaryCount (delete k l))%nat.
Proof.
  revert k. induction l as [|x l IH]; intros [|k] Hk; try done.
  - injection Hk as ->. change (delete 0%nat (img :: l)) with l.
    by rewrite primaryCount_cons.
  - change (delete (S k) (x :: l)) with (x :: delete k l).
    rewrite !primaryCount_cons, (IH k Hk). lia.
Qed.

Lemma onePrimaryAtMost_insert products id p :
  onePrimaryAtMost products ->
  (primaryCount (default [] (images p)) <= 1)%nat ->
  onePrimaryAtMost (<[id := p]> products).
Proof.
  intros Hinv Hp id' p'. destruct (decide (id' = id)) as [->|Hne].
  - rewrite lookup_insert_eq. by intros [= <-].
  - rewrite lookup_insert_ne by done. apply Hinv.
Qed.

Lemma addImage_primaryCount this imageData newId :
  (primaryCount (default [] (images this)) <= 1)%nat ->
  (primaryCount (default [] (images (addImage this imageData newId))) <= 1)%nat.
Proof.
  intros H. unfold addImage, with_images. cbn [images default from_option id].
  rewrite primaryCount_app, primaryCount_cons. cbn [isPrimary].
  change (primaryCount []) with 0%nat.
  destruct (d_isPrimary imageData).
  - rewrite primaryCount_cleared. lia.
  - lia.
Qed.

Lemma onePrimaryAtMost_catalog : onePrimaryAtMost catalog.
Proof.
  intros id p. unfold catalog. intros [_ <-]%lookup_singleton_Some.
  vm_compute. lia.
Qed.

(** X11. Of every stored product at most one image is flagged as primary,
    and the three operations on images keep it so: [addImage] on a stored
    product, the removal of an image by position and the choice of a primary
    image, whatever the request and whatever the answer. *)
Theorem image_operations_keep_one_primary products id :
  onePrimaryAtMost products ->
  (forall product imageData newId,
     products !! id = Some product ->
     onePrimaryAtMost (<[id := addImage product imageData newId]> products))
  /\ (forall imageIndex,
        onePrimaryAtMost (deleteImageAt products id imageIndex).2)
  /\ (forall imageId,
        onePrimaryAtMost (putPrimaryImage products id imageId).2).
Proof.
  intros Hinv. split; [|split].
  - intros product imageData newId Hp.
    apply onePrimaryAtMost_insert; [done|].
    apply addImage_primaryCount. by eapply Hinv.
  - intros imageIndex. unfold deleteImageAt.
    destruct (products !! id) as [product|] eqn:Hp; [|done].
    destruct (images product) as [l|] eqn:Hl; [|done].
    case_match; [done|]. cbn [snd].
    apply onePrimaryAtMost_insert; [done|]. cbn.
    pose proof (Hinv _ _ Hp) as Hone. rewrite Hl in Hone. cbn in Hone.
    etrans; [apply primaryCount_delete|done].
  - intros imageId. unfold putPrimaryImage.
    destruct (products !! id) as [product|] eqn:Hp; [|done].
    destruct (images product) as [l|] eqn:Hl; [|done].
    destruct (alterById _ _ _) as [l1|] eqn:Halter; [|done]. cbn [snd].
    apply onePrimaryAtMost_insert; [done|].
    unfold with_images. cbn [images default from_option Datatypes.id].
    destruct (alterById_primary _ _ _ (primaryCount_cleared l) Halter)
      as [-> _]. lia.
Qed.

Lemma image_operations_keep_one_primary_witness :
  onePrimaryAtMost
    (<[5%positive :=
         addImage polo (mkImageData (Some "https://cdn.example.com/polo-side.jpg")
                          None true) 13]> catalog)
  /\ onePrimaryAtMost (deleteImageAt catalog 5 (Some 0)).2
  /\ onePrimaryAtMost (putPrimaryImage catalog 5 12).2.
Proof.
  destruct (image_operations_keep_one_primary catalog 5
              onePrimaryAtMost_catalog) as (Hadd & Hdel & Hput).
  split; [|split].
  - apply Hadd. reflexivity.
  - apply Hdel.
  - apply Hput.
Defined.

(** X12. When the choice of a primary image answers 200, the stored product
    has exactly one primary image, the one asked for; the images, their ids
    and urls are otherwise as before, and the virtual [primaryImage] is the
    url of the chosen image.  With any other answer the collection is
    unchanged. *)
Theorem putPrimaryImage_outcome products id imageId :
  let r := putPrimaryImage products id imageId in
  (statusCode r.1 = 200 ->
   exists product l l1 img,
     products !! id = Some product
     /\ images product = Some l
     /\ r.2 = <[id := with_images product (Some l1)]> products
     /\ primaryCount l1 = 1%nat
     /\ img_id <$> l1 = img_id <$> l
     /\ url <$> l1 = url <$> l
     /\ List.find isPrimary l1 = Some img
     /\ img_id img = imageId
     /\ primaryImage (with_images product (Some l1)) = url img)
  /\ (statusCode r.1 <> 200 -> r.2 = products).
Proof.
  cbn zeta. unfold putPrimaryImage.
  destruct (products !! id) as [product|] eqn:Hp; [|by split].
  destruct (images product) as [l|] eqn:Hl; [|by split].
  destruct (alterById _ _ _) as [l1|] eqn:Halter; [|by split].
  split; [|done]. intros _.
  destruct (alterById_primary _ _ _ (primaryCount_cleared l) Halter)
    as (Hc & Hids & Hurls & img & Hfind & Hid & _).
  exists product, l, l1, img. repeat split; try done.
  - rewrite Hids, <- list_fmap_compose. by apply list_fmap_ext.
  - rewrite Hurls, <- list_fmap_compose. by apply list_fmap_ext.
  - unfold primaryImage. cbn. by rewrite Hfind.
Qed.

Lemma putPrimaryImage_outcome_witness :
  exists product l l1 img,
    catalog !! 5%positive = Some product
    /\ images product = Some l
    /\ (putPrimaryImage catalog 5 12).2
       = <[5%positive := with_images product (Some l1)]> catalog
    /\ primaryCount l1 = 1%nat
    /\ img_id <$> l1 = img_id <$> l
    /\ url <$> l1 = url <$> l
    /\ List.find isPrimary l1 = Some img
    /\ img_id img = 12%positive
    /\ primaryImage (with_images product (Some l1)) = url img.
Proof.
  apply (putPrimaryImage_outcome catalog 5 12). reflexivity.
Defined.

(** X13. Removing by position the one image flagged as primary leaves the
    product without a flagged image: when [DELETE .../images/:imageId]
    answers 200 for the position of the primary image of a product with at
    most one, the virtual [primaryImage] of the stored product falls back to
    the url of the first remaining image. *)
Theorem deleteImageAt_primary_falls_back products id i product l img :
  products !! id = Some product ->
  images product = Some l ->
  (primaryCount l <= 1)%nat ->
  l !! Z.to_nat i = Some img ->
  0 <= i ->
  isPrimary img = true ->
  let r := deleteImageAt products id (Some i) in
  statusCode r.1 = 200
  /\ exists stored,
       r.2 !! id = Some stored
       /\ images stored = Some (delete (Z.to_nat i) l)
       /\ primaryCount (delete (Z.to_nat i) l) = 0%nat
       /\ primaryImage stored = head (delete (Z.to_nat i) l) ≫= url.
Proof.
  intros Hp Hl Hone Hi Hpos Hprim. cbn zeta. unfold deleteImageAt.
  rewrite Hp, Hl.
  pose proof (lookup_lt_Some _ _ _ Hi) as Hlt.
  replace ((i <? 0) || (Z.of_nat (length l) <=? i)) with false
    by (symmetry; apply orb_false_iff; split;
        [apply Z.ltb_ge|apply Z.leb_gt]; lia).
  split; [done|]. cbn [snd default].
  eexists. rewrite lookup_insert_eq. split; [done|].
  pose proof (primaryCount_delete_lookup _ _ _ Hi) as Hc.
  rewrite Hprim in Hc.
  assert (primaryCount (delete (Z.to_nat i) l) = 0%nat) as H0 by lia.
  repeat split; [done|].
  unfold primaryImage. cbn. rewrite (find_none_primaryCount _ H0).
  by destruct (head _).
Qed.

Lemma deleteImageAt_primary_falls_back_witness :
  let r := deleteImageAt catalog 5 (Some 0) in
  statusCode r.1 = 200
  /\ exists stored,
       r.2 !! 5%positive = Some stored
       /\ images stored = Some [backImage]
       /\ primaryCount [backImage] = 0%nat
       /\ primaryImage stored = url backImage.
Proof.
  apply (deleteImageAt_primary_falls_back catalog 5 0 polo
           [frontImage; backImage] frontImage);
    [reflexivity|reflexivity|vm_compute; lia|reflexivity|lia|reflexivity].
Defined.

(** X14. [parseInt] of a position that is not a number gives [NaN], which
    passes both range tests and makes [splice] remove at position 0: the
    request answers 200 and the first image is gone, also when the list is
    empty; a numeric position outside the list answers 400 and changes
    nothing. *)
Theorem deleteImageAt_position_edges products id product l :
  products !! id = Some product ->
  images product = Some l ->
  (let r := deleteImageAt products id None in
   statusCode r.1 = 200
   /\ r.2 = <[id := with_images product (Some (tail l))]> products)
  /\ (forall i,
        i < 0 \/ Z.of_nat (length l) <= i ->
        let r := deleteImageAt products id (Some i) in
        statusCode r.1 = 400 /\ r.2 = products).
Proof.
  intros Hp Hl. split.
  - cbn zeta. unfold deleteImageAt. rewrite Hp, Hl. cbn.
    split; [done|]. by destruct l.
  - intros i Hi. cbn zeta. unfold deleteImageAt. rewrite Hp, Hl.
    replace ((i <? 0) || (Z.of_nat (length l) <=? i)) with true; [done|].
    symmetry. apply orb_true_iff.
    destruct Hi; [left; apply Z.ltb_lt|right; apply Z.leb_le]; lia.
Qed.

Lemma deleteImageAt_position_edges_witness :
  (let r := deleteImageAt catalog 5 None in
   statusCode r.1 = 200
   /\ r.2 = <[5%positive := with_images polo (Some [backImage])]> catalog)
  /\ (let r := deleteImageAt catalog 5 (Some 2) in
      statusCode r.1 = 400 /\ r.2 = catalog).
Proof.
  destruct (deleteImageAt_position_edges catalog 5 polo
              [frontImage; backImage] eq_refl eq_refl) as [Hnan Hout].
  split; [exact Hnan|]. apply Hout. right. cbn. lia.
Defined.



End ImageFacts.

(** ** Rate limiting *)

Section RateLimitFacts.

Import Auth.

Variables (action : string) (maxAttempts windowMs : Z).

Implicit Types (attempts : gmap string (list Z)) (log : list (string * Z)).

Lemma recent_app key now log1 log2 :
  recent windowMs key now (log1 ++ log2)
  = recent windowMs key now log1 ++ recent windowMs key now log2.
Proof. apply filter_app. Qed.

Lemma recent_singleton key now key' now' :
  recent windowMs key now [(key', now')]
  = if bool_decide (key' = key /\ now - now' < windowMs)
    then [(key', now')] else [].
Proof.
  unfold recent. case_bool_decide as H.
  - by rewrite filter_cons_True.
  - by rewrite filter_cons_False.
Qed.

Lemma filter_window_later now now' (l : list Z) :
  now <= now' ->
  filter (fun timestamp => now' - timestamp < windowMs)
         (filter (fun timestamp => now - timestamp < windowMs) l)
  = filter (fun timestamp => now' - timestamp < windowMs) l.
Proof.
  intros Hle. induction l as [|t l IH]; [done|].
  destruct (decide (now - t < windowMs)) as [Hin|Hout].
  - rewrite (filter_cons_True (fun timestamp => now - timestamp < windowMs))
      by done.
    destruct (decide (now' - t < windowMs)).
    + rewrite !(filter_cons_True
                  (fun timestamp => now' - timestamp < windowMs)) by done.
      by rewrite IH.
    + rewrite !(filter_cons_False
                  (fun timestamp => now' - timestamp < windowMs)) by done.
      done.
  - rewrite (filter_cons_False (fun timestamp => now - timestamp < windowMs))
      by done.
    rewrite (filter_cons_False (fun timestamp => now' - timestamp < windowMs))
      by lia.
    done.
Qed.

Lemma agrees_empty last : agrees windowMs ∅ [] last.
Proof. intros key now _. by rewrite lookup_empty. Qed.

(** One request: the answer is the one the full log gives, and the Map
    keeps agreeing with the log. *)
Lemma rateLimitAction_agrees attempts log last client now :
  agrees windowMs attempts log last ->
  last <= now ->
  let key := keyOf client action in
  let r := rateLimitAction action maxAttempts windowMs attempts client now in
  isNext r.1
  = negb (maxAttempts
          <=? Z.of_nat (length (recent windowMs key now log)))
  /\ agrees windowMs r.2
       (if isNext r.1 then log ++ [(key, now)] else log) now.
Proof.
  intros Hagree Hle. cbn zeta. unfold rateLimitAction.
  rewrite (Hagree (keyOf client action) now Hle), length_fmap.
  destruct (maxAttempts <=? _) eqn:Hfull; cbn [fst snd isNext negb].
  - split; [done|]. intros key now' Hle'. apply Hagree. lia.
  - split; [done|]. intros key now' Hle'.
    rewrite recent_app, fmap_app, recent_singleton.
    destruct (decide (key = keyOf client action)) as [->|Hne].
    + rewrite lookup_insert_eq. cbn [default from_option Datatypes.id].
      rewrite filter_app, <- (Hagree (keyOf client action) now Hle).
      rewrite filter_window_later by done.
      rewrite (Hagree (keyOf client action) now') by lia. f_equal.
      destruct (decide (now' - now < windowMs)).
      * rewrite filter_cons_True by done.
        by rewrite bool_decide_eq_true_2.
      * rewrite filter_cons_False by done.
        rewrite bool_decide_eq_false_2; [done|]. by intros [_ ?].
    + rewrite lookup_insert_ne by done.
      rewrite bool_decide_eq_false_2 by (by intros [? _]).
      rewrite fmap_nil, app_nil_r. apply Hagree. lia.
Qed.

Lemma rateLimitSeq_agrees reqs : forall attempts log last,
  agrees windowMs attempts log last ->
  Sorted Z.le (last :: reqs.*2) ->
  isNext <$> rateLimitSeq action maxAttempts windowMs attempts reqs
  = limitByLog action maxAttempts windowMs log reqs.
Proof.
  induction reqs as [|[client now] reqs IH]; intros attempts log last Hagree Hs;
    [done|].
  apply Sorted_inv in Hs as [Hs Hhd].
  apply HdRel_inv in Hhd.
  destruct (rateLimitAction_agrees attempts log last client now Hagree Hhd)
    as [Hdec Hagree'].
  cbn [rateLimitSeq limitByLog fmap list_fmap]. cbn zeta.
  change (list_fmap _ _ isNext ?l) with (isNext <$> l).
  rewrite Hdec.
  destruct (maxAttempts <=? _) eqn:Hfull; cbn [negb].
  - f_equal. rewrite Hdec in Hagree'. by eapply IH.
  - f_equal. rewrite Hdec in Hagree'. by eapply IH.
Qed.

Lemma sorted_from_head (l : list Z) :
  Sorted Z.le l -> Sorted Z.le (default 0 (head l) :: l).
Proof.
  intros Hs. constructor; [done|]. destruct l; constructor. cbn. lia.
Qed.

(** X16. Forgetting the timestamps that have left the window loses nothing:
    for requests that arrive in the order of their times, the middleware
    answers each one as a limiter does that keeps every accepted request and
    lets one through exactly when fewer than [maxAttempts] accepted requests
    of the same key lie less than [windowMs] before it. *)
Theorem rateLimitAction_refines_log reqs :
  Sorted Z.le reqs.*2 ->
  isNext <$> rateLimitSeq action maxAttempts windowMs ∅ reqs
  = limitByLog action maxAttempts windowMs [] reqs.
Proof.
  intros Hs.
  apply (rateLimitSeq_agrees reqs ∅ [] (default 0 (head reqs.*2)));
    [apply agrees_empty|by apply sorted_from_head].
Qed.

Lemma windowBound_snoc log key now :
  windowBound maxAttempts windowMs log ->
  Z.of_nat (length (recent windowMs key now log)) < maxAttempts ->
  windowBound maxAttempts windowMs (log ++ [(key, now)]).
Proof.
  intros Hb Hlt i k t Hi.
  destruct (decide (i < length log)%nat) as [Hin|Hout].
  - rewrite lookup_app_l in Hi by done.
    rewrite take_app_le by lia. by apply Hb.
  - rewrite lookup_app_r in Hi by lia.
    apply list_lookup_singleton_Some in Hi as [Hi [= <- <-]].
    rewrite take_ge by (rewrite length_app; cbn; lia).
    rewrite recent_app, length_app, recent_singleton.
    case_bool_decide; cbn; lia.
Qed.

Lemma rateLimitSeq_windowBound reqs : forall attempts log last,
  agrees windowMs attempts log last ->
  Sorted Z.le (last :: reqs.*2) ->
  windowBound maxAttempts windowMs log ->
  windowBound maxAttempts windowMs
    (log ++ accepted action reqs
              (rateLimitSeq action maxAttempts windowMs attempts reqs)).
Proof.
  induction reqs as [|[client now] reqs IH];
    intros attempts log last Hagree Hs Hb.
  - cbn. by rewrite app_nil_r.
  - apply Sorted_inv in Hs as [Hs Hhd].
    apply HdRel_inv in Hhd.
    destruct (rateLimitAction_agrees attempts log last client now Hagree Hhd)
      as [Hdec Hagree'].
    cbn [rateLimitSeq accepted]. cbn zeta.
    destruct (rateLimitAction action maxAttempts windowMs attempts client now)
      as [[|r] attempts'] eqn:Hr; cbn [fst snd isNext] in *.
    + symmetry in Hdec. apply negb_true_iff, Z.leb_gt in Hdec.
      rewrite cons_middle, app_assoc.
      apply (IH attempts' _ now Hagree' Hs).
      by apply windowBound_snoc.
    + by apply (IH attempts' _ now Hagree' Hs).
Qed.

(** X17. The limit holds over every sliding window: for requests that
    arrive in the order of their times, each request the middleware lets
    through is one of at most [maxAttempts] requests of its key let through
    in the [windowMs] that end with it. *)
Theorem rateLimitAction_window_bound reqs :
  Sorted Z.le reqs.*2 ->
  windowBound maxAttempts windowMs
    (accepted action reqs
       (rateLimitSeq action maxAttempts windowMs ∅ reqs)).
Proof.
  intros Hs.
  apply (rateLimitSeq_windowBound reqs ∅ [] (default 0 (head reqs.*2)));
    [apply agrees_empty|by apply sorted_from_head|].
  intros i key now Hi. by rewrite lookup_nil in Hi.
Qed.

End RateLimitFacts.

Lemma rateLimitAction_refines_log_witness :
  Sorted Z.le (Auth.burst).*2
  /\ Auth.isNext <$> Auth.rateLimitSeq "login" 2 1000 ∅ Auth.burst
     = Auth.limitByLog "login" 2 1000 [] Auth.burst.
Proof.
  assert (Hs : Sorted Z.le (Auth.burst).*2)
    by (repeat constructor; cbn; lia).
  split; [exact Hs|].
  exact (rateLimitAction_refines_log "login" 2 1000 Auth.burst Hs).
Defined.

Lemma rateLimitAction_window_bound_witness :
  Sorted Z.le (Auth.burst).*2
  /\ Auth.windowBound 2 1000
       (Auth.accepted "login" Auth.burst
          (Auth.rateLimitSeq "login" 2 1000 ∅ Auth.burst)).
Proof.
  assert (Hs : Sorted Z.le (Auth.burst).*2)
    by (repeat constructor; cbn; lia).
  split; [exact Hs|].
  exact (rateLimitAction_window_bound "login" 2 1000 Auth.burst Hs).
Defined.

Lemma burst_outcomes :
  Auth.isNext <$> Auth.rateLimitSeq "login" 2 1000 ∅ Auth.burst
  = [true; true; false; true; true].
Proof. by vm_compute. Qed.

(** ** Access to one resource *)

Section AccessFacts.

Import Auth.

Lemma permission_singular p resourceType :
  resourceType ∈ ["customer"; "order"; "inquiry"] ->
  permission p resourceType = None.
Proof.
  intros H. repeat (apply elem_of_cons in H as [->|H]; [done|]).
  by apply elem_of_nil in H.
Qed.

Lemma refers_spec ref u : refers ref u = true <-> ref = Some (_id u).
Proof.
  destruct ref as [r|]; cbn; [|done].
  rewrite Pos.eqb_eq. split; [by intros ->|by intros [= ->]].
Qed.

Lemma access_by_ownership (found : option Resource) u resourceType :
  permission (permissions u) resourceType = None ->
  match found with
  | None => Sent (Routes.json 404 false "Resource not found")
  | Some resource =>
      if refers (assignedTo resource) u then Next
      else if refers (createdBy resource) u then Next
      else if default false (permission (permissions u) resourceType)
      then Next
      else Sent (Routes.json 403 false ("Access denied to " +:+ resourceType))
  end = Next
  <-> exists resource,
        found = Some resource
        /\ (assignedTo resource = Some (_id u)
            \/ createdBy resource = Some (_id u)).
Proof.
  intros ->. destruct found as [resource|].
  - destruct (refers (assignedTo resource) u) eqn:Ha.
    { split; [|done]. intros _. exists resource. split; [done|].
      left. by apply refers_spec. }
    destruct (refers (createdBy resource) u) eqn:Hc.
    { split; [|done]. intros _. exists resource. split; [done|].
      right. by apply refers_spec. }
    cbn. split; [done|]. intros (? & [= <-] & [H|H]);
      apply refers_spec in H; congruence.
  - split; [done|]. by intros (? & ? & _).
Qed.

(** X18. For a user who is not an admin, [canAccessResource] on a customer,
    an order or an inquiry lets the request through exactly when the
    resource exists and is assigned to the user or was created by the user:
    the permissions of the user are looked up under the singular name of the
    resource, which is none of their keys, so they grant nothing here. *)
Theorem canAccessResource_ownership stores u id :
  role u <> "admin" ->
  let owns (collection : gmap positive Resource) :=
    exists resource,
      collection !! id = Some resource
      /\ (assignedTo resource = Some (_id u)
          \/ createdBy resource = Some (_id u)) in
  (canAccessResource "customer" stores (Some u) (Some id) = Next
   <-> owns (customer stores))
  /\ (canAccessResource "order" stores (Some u) (Some id) = Next
      <-> owns (order stores))
  /\ (canAccessResource "inquiry" stores (Some u) (Some id) = Next
      <-> owns (inquiry stores)).
Proof.
  intros Hrole. cbn zeta. unfold canAccessResource.
  apply String.eqb_neq in Hrole. rewrite Hrole. cbn [String.eqb Ascii.eqb].
  cbn - [permission refers].
  split; [|split]; apply access_by_ownership, permission_singular;
    set_solver.
Qed.

Lemma canAccessResource_ownership_witness :
  role clerk <> "admin"
  /\ (canAccessResource "customer" office (Some clerk) (Some 2%positive) = Next
      <-> exists resource,
            customer office !! 2%positive = Some resource
            /\ (assignedTo resource = Some (_id clerk)
                \/ createdBy resource = Some (_id clerk))).
Proof.
  assert (Hrole : role clerk <> "admin") by (cbn; congruence).
  split; [exact Hrole|].
  exact (proj1 (canAccessResource_ownership office clerk 2 Hrole)).
Defined.

(** X19. A resource type other than 'customer', 'order' and 'inquiry' is
    never looked up: [canAccessResource] lets every authenticated user
    through, so a route guarded by [checkPermission(key)] and
    [canAccessResource('product')] is guarded by [checkPermission(key)]
    alone. *)
Theorem canAccessResource_other_types key resourceType stores user resourceId :
  resourceType ∉ ["customer"; "order"; "inquiry"] ->
  (is_Some user ->
   canAccessResource resourceType stores user resourceId = Next)
  /\ guard key resourceType stores user resourceId = checkPermission key user.
Proof.
  intros Hnot.
  assert (String.eqb resourceType "customer" = false
          /\ String.eqb resourceType "order" = false
          /\ String.eqb resourceType "inquiry" = false) as (Hc & Ho & Hi).
  { repeat split; apply String.eqb_neq; intros ->; apply Hnot; set_solver. }
  assert (forall u, canAccessResource resourceType stores (Some u) resourceId
                    = Next) as Hnext.
  { intros u. unfold canAccessResource. rewrite Hc, Ho, Hi.
    destruct (String.eqb (role u) "admin"); [done|]. by destruct resourceId. }
  split.
  - intros [u ->]. apply Hnext.
  - unfold guard. destruct user as [u|]; [|done].
    destruct (checkPermission key (Some u)); [apply Hnext|done].
Qed.

Lemma canAccessResource_other_types_witness :
  ("product" ∉ ["customer"; "order"; "inquiry"])
  /\ guard "products" "product" office (Some clerk) (Some 5%positive)
     = checkPermission "products" (Some clerk).
Proof.
  assert (Hnot : "product" ∉ ["customer"; "order"; "inquiry"])
    by (apply (bool_decide_unpack _); by vm_compute).
  split; [exact Hnot|].
  exact (proj2 (canAccessResource_other_types "products" "product" office
                  (Some clerk) (Some 5%positive) Hnot)).
Defined.

End AccessFacts.

(** ** Paged listings *)

Section PagingFacts.

Import Paging.

Context {A : Type}.

Implicit Types (matching : list A).

Lemma ceilDiv_bounds total limit :
  0 <= total -> 1 <= limit ->
  (ceilDiv total limit - 1) * limit < total <= ceilDiv total limit * limit.
Proof.
  intros Ht Hl. unfold ceilDiv.
  pose proof (Z.div_mod (total + limit - 1) limit ltac:(lia)) as Hdm.
  pose proof (Z.mod_pos_bound (total + limit - 1) limit ltac:(lia)) as Hm.
  nia.
Qed.

Lemma pagesUpTo_take matching limit n :
  1 <= limit ->
  pagesUpTo matching limit n = take (n * Z.to_nat limit) matching.
Proof.
  intros Hl. unfold pagesUpTo. induction n as [|n IH]; [done|].
  rewrite seq_S, fmap_app, concat_app, IH. cbn [fmap list_fmap concat].
  rewrite app_nil_r. unfold listing. cbn [fst].
  replace (Z.to_nat ((Z.of_nat (S (0 + n)) - 1) * limit))
    with (n * Z.to_nat limit)%nat by nia.
  rewrite take_take_drop. f_equal. lia.
Qed.

(** X20. The pages of a listing partition what the filter matches: for
    [limit >= 1], the pages 1 to [totalPages] one after the other are the
    matching documents in their order, every page up to the last is full,
    and [hasNextPage] holds exactly on the pages before [totalPages]. *)
Theorem listing_pages_partition matching page limit :
  1 <= page -> 1 <= limit ->
  let r := listing matching page limit in
  pagesUpTo matching limit (Z.to_nat (totalPages r.2)) = matching
  /\ (hasNextPage r.2 = true <-> page < totalPages r.2)
  /\ (page < totalPages r.2 -> Z.of_nat (length r.1) = limit)
  /\ (totalPages r.2 < page -> r.1 = []).
Proof.
  intros Hp Hl. cbn zeta. unfold listing. cbn [fst snd totalPages hasNextPage].
  pose proof (ceilDiv_bounds (Z.of_nat (length matching)) limit
                ltac:(lia) Hl) as [Hlo Hhi].
  set (pages := ceilDiv (Z.of_nat (length matching)) limit) in *.
  assert (0 <= pages) by nia.
  rewrite length_take, length_drop.
  split; [|split; [|split]].
  - rewrite pagesUpTo_take by done. apply take_ge. nia.
  - rewrite Z.ltb_lt. split; intros Hlt; nia.
  - intros Hlt. nia.
  - intros Hgt. apply length_zero_iff_nil.
    rewrite length_take, length_drop. nia.
Qed.

End PagingFacts.

Lemma listing_pages_partition_witness :
  1 <= 2 /\ 1 <= 2
  /\ Paging.pagesUpTo ["a"; "b"; "c"; "d"; "e"] 2
       (Z.to_nat (Paging.totalPages (Paging.listing ["a"; "b"; "c"; "d"; "e"] 2 2).2))
     = ["a"; "b"; "c"; "d"; "e"].
Proof.
  assert (Hp : 1 <= 2) by lia.
  split; [exact Hp|]. split; [exact Hp|].
  exact (proj1 (listing_pages_partition ["a"; "b"; "c"; "d"; "e"] 2 2 Hp Hp)).
Defined.

(** ** Order entry *)

Section OrderEntryFacts.

Import OrderEntry.

Implicit Types (products : gmap positive Product.t) (items : list Line).

Lemma collectItems_inr items : forall products subtotal orderItems r,
  collectItems products items subtotal orderItems = inr r ->
  exists new,
    r = (subtotal + Order.sumZ (Order.totalPrice <$> new), orderItems ++ new)
    /\ Forall2 (built products) items new
    /\ Forall (available products) items.
Proof.
  induction items as [|item items IH]; intros products subtotal orderItems r.
  - intros [= <-]. exists []. rewrite app_nil_r.
    repeat split; [|constructor|constructor]. f_equal. cbn. lia.
  - cbn [collectItems].
    destruct (products !! product item) as [p|] eqn:Hp; [|done].
    destruct (Z.ltb_spec (Product.stockQuantity p) (quantity item)) as [|Hge];
      [done|].
    intros (new & -> & Hbuilt & Hav)%IH. eexists (_ :: new).
    repeat split.
    + f_equal; [|by rewrite <- app_assoc].
      rewrite fmap_cons. unfold Order.sumZ. cbn. lia.
    + constructor; [|done]. by exists p.
    + constructor; [|done]. by exists p.
Qed.

Lemma collectItems_available items : forall products subtotal orderItems,
  Forall (available products) items ->
  exists r, collectItems products items subtotal orderItems = inr r.
Proof.
  induction items as [|item items IH]; intros products subtotal orderItems Hav.
  - by eexists.
  - inversion Hav as [|? ? (p & Hp & Hq) Hrest]; subst.
    cbn [collectItems]. rewrite Hp.
    destruct (Z.ltb_spec (Product.stockQuantity p) (quantity item)); [lia|].
    by apply IH.
Qed.

(** X21. The availability loop of [POST /api/orders] lets an order through
    exactly when every line names a stored product whose stock covers the
    line, and then builds one line item per line, in order, with the
    product's name and code and [totalPrice = quantity * unitPrice]; the
    new order already has the totals [calculateTotals] would give it. *)
Theorem collectItems_builds_order products items :
  ((exists r, collectItems products items 0 [] = inr r)
   <-> Forall (available products) items)
  /\ forall subtotal orderItems orderNumber customer,
       collectItems products items 0 [] = inr (subtotal, orderItems) ->
       Forall2 (built products) items orderItems
       /\ subtotal = Order.sumZ (Order.totalPrice <$> orderItems)
       /\ Order.calculateTotals
            (newOrder orderNumber customer subtotal orderItems)
          = newOrder orderNumber customer subtotal orderItems.
Proof.
  split.
  - split.
    + intros [r Hrun].
      by destruct (collectItems_inr _ _ _ _ _ Hrun) as (? & _ & _ & ?).
    + apply collectItems_available.
  - intros subtotal orderItems orderNumber customer Hrun.
    destruct (collectItems_inr _ _ _ _ _ Hrun) as (new & [= -> ->] & Hb & _).
    cbn [app]. repeat split; [done|].
    unfold Order.calculateTotals, newOrder, Order.with_totals. cbn.
    rewrite fold_left_totalPrice. f_equal; lia.
Qed.

Lemma reserveStock_total (orderItems : list Order.Item) : forall products,
  Forall (fun item => is_Some (products !! Order.product item)) orderItems ->
  exists products1, Routes.reserveStock orderItems products = (products1, true).
Proof.
  induction orderItems as [|item orderItems IH]; intros products Hall.
  - by eexists.
  - inversion Hall as [|? ? [p Hp] Hrest]; subst.
    cbn [Routes.reserveStock]. rewrite Hp.
    unfold Product.save. rewrite updateStock_decrease.
    destruct (Z.ltb_spec
                (Z.max 0 (Product.stockQuantity p - Order.quantity item)) 0)
      as [?|_]; [lia|].
    apply IH. eapply Forall_impl; [exact Hrest|].
    intros item' [p' Hp']. cbn in *.
    destruct (decide (Order.product item' = Order.product item)) as [->|Hne].
    + rewrite lookup_insert_eq. by eexists.
    + rewrite lookup_insert_ne by done. by eexists.
Qed.

Lemma quantitiesOf_built products items orderItems pid :
  Forall2 (built products) items orderItems ->
  Routes.quantitiesOf pid orderItems
  = quantity <$> filter (fun item => product item = pid) items.
Proof.
  unfold Routes.quantitiesOf.
  induction 1 as [|item orderItem items orderItems (p & _ & ->) _ IH]; [done|].
  destruct (decide (product item = pid)) as [Heq|Hne].
  - rewrite !filter_cons_True by done. cbn. by rewrite IH.
  - by rewrite !filter_cons_False.
Qed.

Lemma filter_product_absent items pid :
  pid ∉ product <$> items ->
  filter (fun item => product item = pid) items = [].
Proof.
  induction items as [|x items IH]; [done|]. rewrite fmap_cons.
  intros [Hx Hrest]%not_elem_of_cons.
  rewrite filter_cons_False by done. by apply IH.
Qed.

Lemma filter_product_NoDup items item :
  NoDup (product <$> items) ->
  item ∈ items ->
  filter (fun item' => product item' = product item) items = [item].
Proof.
  induction items as [|x items IH]; intros Hnd Hin; [by apply elem_of_nil in Hin|].
  rewrite fmap_cons in Hnd. apply NoDup_cons in Hnd as [Hx Hnd].
  apply elem_of_cons in Hin as [->|Hin].
  - rewrite filter_cons_True by done. f_equal.
    by apply filter_product_absent.
  - rewrite filter_cons_False; [by apply IH|].
    intros Heq. apply Hx. rewrite Heq. by apply list_elem_of_fmap_2.
Qed.

(** X22. Once the availability loop has let an order through, the stock
    update that follows cannot fail, and it leaves every product with its
    stock less the quantities of its lines, each step floored at zero.
    When no two lines name the same product the floor is never reached:
    every ordered product is left with exactly its stock less the ordered
    quantity. *)
Theorem collectItems_then_reserveStock products items subtotal orderItems :
  collectItems products items 0 [] = inr (subtotal, orderItems) ->
  exists products1,
    Routes.reserveStock orderItems products = (products1, true)
    /\ (forall pid,
          products1 !! pid
          = (fun p =>
               Product.with_stockQuantity p
                 (Routes.flooredStock (Product.stockQuantity p)
                    (quantity
                       <$> filter (fun item => product item = pid) items)))
            <$> products !! pid)
    /\ (NoDup (product <$> items) ->
        forall item, item ∈ items ->
          exists p,
            products !! product item = Some p
            /\ products1 !! product item
               = Some (Product.with_stockQuantity p
                         (Product.stockQuantity p - quantity item))).
Proof.
  intros Hrun.
  destruct (collectItems_inr _ _ _ _ _ Hrun)
    as (new & [= -> ->] & Hbuilt & Hav).
  cbn [app] in *.
  destruct (reserveStock_total new products) as [products1 Hres].
  { clear -Hbuilt. induction Hbuilt as [|? ? ? ? (p & Hp & ->)]; constructor;
      [by eexists|done]. }
  exists products1. split; [done|].
  assert (forall pid,
            products1 !! pid
            = (fun p =>
                 Product.with_stockQuantity p
                   (Routes.flooredStock (Product.stockQuantity p)
                      (quantity
                         <$> filter (fun item => product item = pid) items)))
              <$> products !! pid) as Hspec.
  { intros pid. rewrite (reserveStock_spec _ _ _ Hres pid).
    by rewrite (quantitiesOf_built products items new pid Hbuilt). }
  split; [done|].
  intros Hnd item Hin.
  pose proof (proj1 (Forall_forall _ _) Hav item Hin) as (p & Hp & Hq).
  exists p. split; [done|].
  rewrite Hspec, Hp, (filter_product_NoDup items item Hnd Hin). cbn.
  do 2 f_equal. unfold Routes.flooredStock. cbn. lia.
Qed.

Lemma collectItems_then_reserveStock_witness :
  exists products1,
    Routes.reserveStock
      [Order.mkItem 5 (Some "Polo shirt") (Some "PS01") 30 200 6000 None;
       Order.mkItem 6 (Some "Apron") (Some "AP01") 8 120 960
         (Some "embroidered")] stock
    = (products1, true)
    /\ products1 !! 5%positive
       = Some (Product.mk "Polo shirt" "PS01" 200 20 10)
    /\ products1 !! 6%positive = Some (Product.mk "Apron" "AP01" 120 0 10).
Proof.
  destruct (collectItems_then_reserveStock stock request 6960
              [Order.mkItem 5 (Some "Polo shirt") (Some "PS01") 30 200 6000 None;
               Order.mkItem 6 (Some "Apron") (Some "AP01") 8 120 960
                 (Some "embroidered")] eq_refl)
    as (products1 & Hres & Hspec & _).
  exists products1. split; [exact Hres|].
  split; rewrite Hspec; reflexivity.
Defined.

Lemma collectItems_builds_order_witness :
  collectItems stock request 0 []
  = inr (6960,
         [Order.mkItem 5 (Some "Polo shirt") (Some "PS01") 30 200 6000 None;
          Order.mkItem 6 (Some "Apron") (Some "AP01") 8 120 960
            (Some "embroidered")])
  /\ Order.calculateTotals
       (newOrder "UP2024010001" 9 6960
          [Order.mkItem 5 (Some "Polo shirt") (Some "PS01") 30 200 6000 None;
           Order.mkItem 6 (Some "Apron") (Some "AP01") 8 120 960
             (Some "embroidered")])
     = newOrder "UP2024010001" 9 6960
         [Order.mkItem 5 (Some "Polo shirt") (Some "PS01") 30 200 6000 None;
          Order.mkItem 6 (Some "Apron") (Some "AP01") 8 120 960
            (Some "embroidered")].
Proof.
  assert (Hrun : collectItems stock request 0 []
                 = inr (6960,
                        [Order.mkItem 5 (Some "Polo shirt") (Some "PS01") 30
                           200 6000 None;
                         Order.mkItem 6 (Some "Apron") (Some "AP01") 8 120 960
                           (Some "embroidered")])) by reflexivity.
  split; [exact Hrun|].
  exact (proj2 (proj2 (proj2 (collectItems_builds_order stock request)
                               _ _ "UP2024010001" 9%positive Hrun))).
Defined.

End OrderEntryFacts.

(** ** Inquiry numbers after a deletion *)

Section NumberReuseFacts.

Variable isEmail : string -> bool.

Lemma generateInquiryNumber_same_count date date' (m m' : gmap positive Inquiry.t) :
  Date.year date' = Date.year date ->
  Date.month date' = Date.month date ->
  Inquiry.countDocuments (Inquiry.inMonthOf date) m'
  = Inquiry.countDocuments (Inquiry.inMonthOf date) m ->
  Inquiry.generateInquiryNumber date' m'
  = Inquiry.generateInquiryNumber date m.
Proof.
  intros Hy Hm Hcount.
  assert (Hsame : Inquiry.inMonthOf date' = Inquiry.inMonthOf date).
  { unfold Inquiry.inMonthOf, Date.getFullYear, Date.getMonth.
    by rewrite Hy, Hm. }
  unfold Inquiry.generateInquiryNumber, Date.getFullYear, Date.getMonth.
  by rewrite Hsame, Hcount, Hy, Hm.
Qed.

(** X23. The sequence number of an inquiry is the count of the month plus
    one, so a deletion makes the generator repeat itself: after two
    submissions of a month have been accepted and the first of them has been
    deleted, the next submission of that month is given the number of the
    second, which the unique index refuses; it is answered 500 and nothing
    is stored. *)
Theorem postInquiry_after_delete_fails db body1 body2 body3 t1 t2 t3 id1 id2 id3 :
  let r1 := Routes.postInquiry isEmail db body1 t1 id1 in
  let r2 := Routes.postInquiry isEmail r1.2 body2 t2 id2 in
  let r3 := Routes.deleteInquiry r2.2 id1 in
  let r4 := Routes.postInquiry isEmail r3.2 body3 t3 id3 in
  statusCode r1.1 = 201 ->
  statusCode r2.1 = 201 ->
  Date.wf t1 -> Date.wf t2 ->
  Date.year t2 = Date.year t1 -> Date.month t2 = Date.month t1 ->
  Date.year t3 = Date.year t1 -> Date.month t3 = Date.month t1 ->
  Routes.inquiryBodyValid isEmail body3 = true ->
  statusCode r3.1 = 200
  /\ statusCode r4.1 = 500
  /\ r4.2 = r3.2.
Proof.
  cbn zeta.
  destruct (Routes.postInquiry isEmail db body1 t1 id1) as [r1 db1] eqn:H1.
  cbn [fst snd].
  destruct (Routes.postInquiry isEmail db1 body2 t2 id2) as [r2 db2] eqn:H2.
  cbn [fst snd].
  intros Hr1 Hr2 Hwf1 Hwf2 Hy2 Hm2 Hy3 Hm3 Hvalid.
  destruct (postInquiry_created _ _ _ _ _ _ _ H1 Hr1)
    as (i1 & Hfresh1 & Hdb1 & Hnum1 & Hdate1 & Hst1).
  destruct (postInquiry_created _ _ _ _ _ _ _ H2 Hr2)
    as (i2 & Hfresh2 & Hdb2 & Hnum2 & Hdate2 & Hst2).
  rewrite Hdb1 in Hfresh2, Hnum2, Hdb2.
  assert (id2 <> id1) as Hne.
  { intros ->. by rewrite lookup_insert_eq in Hfresh2. }
  rewrite lookup_insert_ne in Hfresh2 by done.
  assert (Routes.inquiries db2 !! id1 = Some i1) as Hi1.
  { rewrite Hdb2, lookup_insert_ne by done. apply lookup_insert_eq. }
  unfold Routes.deleteInquiry. rewrite Hi1, Hst1. cbn [String.eqb Ascii.eqb
    Bool.eqb andb fst snd]. split; [done|].
  assert (delete id1 (Routes.inquiries db2) = <[id2 := i2]> (Routes.inquiries db))
    as Hleft.
  { rewrite Hdb2, delete_insert_ne by done.
    by rewrite delete_insert_id. }
  assert (Inquiry.generateInquiryNumber t3 (<[id2 := i2]> (Routes.inquiries db))
          = Inquiry.inquiryNumber i2) as Hclash.
  { rewrite Hnum2. apply generateInquiryNumber_same_count; [lia|lia|].
    rewrite !countDocuments_insert; try done.
    - apply inMonthOf_spec; [done|by rewrite Hdate1|]. by rewrite Hdate1.
    - apply inMonthOf_spec; [done|by rewrite Hdate2|]. by rewrite Hdate2. }
  unfold Routes.postInquiry. rewrite Hvalid. cbn [negb].
  cbn [Routes.inquiries Routes.with_inquiries]. rewrite Hleft, Hclash.
  unfold Inquiry.insert.
  destruct (Inquiry.validate _); [done|].
  destruct (Js.truthyO _); [done|].
  rewrite bool_decide_eq_true_2; [done|].
  by apply map_Exists_insert_2_1.
Qed.

End NumberReuseFacts.

Lemma postInquiry_after_delete_fails_witness :
  let r1 :=
    Routes.postInquiry Sample.anyEmail Sample.emptyDb Sample.acmeBody
      Sample.jan15 1 in
  let r2 :=
    Routes.postInquiry Sample.anyEmail r1.2 Sample.phoneBody Sample.jan16 2 in
  let r3 := Routes.deleteInquiry r2.2 1 in
  let r4 :=
    Routes.postInquiry Sample.anyEmail r3.2 Sample.acmeBody Sample.jan20 3 in
  statusCode r3.1 = 200 /\ statusCode r4.1 = 500 /\ r4.2 = r3.2.
Proof.
  apply (postInquiry_after_delete_fails Sample.anyEmail Sample.emptyDb
           Sample.acmeBody Sample.phoneBody Sample.acmeBody
           Sample.jan15 Sample.jan16 Sample.jan20 1 2 3);
    try reflexivity; vm_compute; (split; [split|]); congruence || lia.
Defined.

(** ** Customer administration *)

Section CustomerDeskFacts.

Import Routes CustomerDesk.

Lemma findById_removeById customers id id' :
  id' <> id ->
  findById (removeById id customers) id' = findById customers id'.
Proof.
  intros Hne. unfold findById.
  induction customers as [|c customers IH]; [done|]. cbn.
  destruct (Pos.eqb_spec (Customer._id c) id) as [Hc|Hc].
  - destruct (Pos.eqb_spec (Customer._id c) id'); [congruence|done].
  - cbn. by rewrite IH.
Qed.

(** X24. [DELETE /api/customers/:id] never removes a customer that a stored
    order names: when every order names a stored customer before the
    request, the same holds after it.  A request that is not answered 200
    changes nothing; one that is leaves the other customers, found by their
    ids, and the other collections as they were. *)
Theorem deleteCustomer_keeps_orders_resolved db id :
  ordersResolved db ->
  let r := deleteCustomer db id in
  ordersResolved r.2
  /\ (statusCode r.1 <> 200 -> r.2 = db)
  /\ (statusCode r.1 = 200 ->
      (forall id', id' <> id ->
         findById (customers r.2) id' = findById (customers db) id')
      /\ orders r.2 = orders db
      /\ products r.2 = products db
      /\ inquiries r.2 = inquiries db).
Proof.
  intros Hres. cbn zeta. unfold deleteCustomer.
  destruct (findById (customers db) id) as [c|] eqn:Hc; [|by repeat split].
  destruct (hasOrders (orders db) id) eqn:Hno; [by repeat split|].
  cbn [fst snd]. split; [|split; [done|]].
  - intros oid order Horder.
    cbn [customers orders with_customers] in *.
    rewrite findById_removeById; [by eapply Hres|].
    intros Heq. unfold hasOrders in Hno.
    apply bool_decide_eq_false in Hno. apply Hno. by exists oid, order.
  - intros _. split; [|done]. intros id' Hne. by apply findById_removeById.
Qed.

Lemma ordersResolved_ledger : ordersResolved ledger.
Proof.
  intros oid order. unfold ledger; cbn.
  rewrite lookup_singleton_Some. intros [_ <-]. by eexists.
Qed.

Lemma deleteCustomer_keeps_orders_resolved_witness :
  ordersResolved ledger
  /\ ordersResolved (deleteCustomer ledger 9%positive).2
  /\ statusCode (deleteCustomer ledger 9%positive).1 = 400.
Proof.
  split; [exact ordersResolved_ledger|].
  split; [|vm_compute; reflexivity].
  exact (proj1 (deleteCustomer_keeps_orders_resolved _ 9%positive
                  ordersResolved_ledger)).
Defined.

End CustomerDeskFacts.

(** ** Updates of an inquiry *)

Section PutInquiryFacts.

Import Routes.

Lemma applyUpdate_frame i body :
  Inquiry.convertedTo (applyUpdate i body) = Inquiry.convertedTo i
  /\ Inquiry.inquiryNumber (applyUpdate i body) = Inquiry.inquiryNumber i
  /\ Inquiry.communications (applyUpdate i body) = Inquiry.communications i
  /\ Inquiry.notes (applyUpdate i body) = Inquiry.notes i
  /\ Inquiry.email (applyUpdate i body) = Inquiry.email i
  /\ Inquiry.inquiryDate (applyUpdate i body) = Inquiry.inquiryDate i.
Proof. by repeat split. Qed.

Lemma applyUpdate_empty i body :
  updateDataNonEmpty body = false -> applyUpdate i body = i.
Proof.
  unfold updateDataNonEmpty. rewrite !orb_false_iff.
  intros ((((((Hs & Hp) & Ha) & Hn) & Hf) & Ht) & Hc).
  unfold applyUpdate. rewrite Hs, Hp, Hf, Hc.
  destruct (u_assignedTo body); [done|].
  destruct (u_nextFollowUp body); [done|].
  destruct (u_tags body); [done|].
  by destruct i.
Qed.

Lemma updateDataValid_empty body :
  updateDataNonEmpty body = false -> updateDataValid body = true.
Proof.
  unfold updateDataNonEmpty, updateDataValid. rewrite !orb_false_iff.
  intros ((((((-> & ->) & _) & _) & _) & _) & ->). done.
Qed.

(** X25. [PUT /api/inquiries/:id] on a stored inquiry: a body without any
    of the seven fields answers 200 and changes nothing; an update that is
    answered 200 has appended one internal note, 'Inquiry updated: ...' by
    the user, to the notes; and whatever the answer, the conversion link,
    the inquiry number, the communications, the email and the date of the
    inquiry, the other inquiries and the other collections are as before. *)
Theorem putInquiry_audit db id body rendered user now inquiry :
  inquiries db !! id = Some inquiry ->
  let r := putInquiry db id body rendered user now in
  (updateDataNonEmpty body = false -> statusCode r.1 = 200 /\ r.2 = db)
  /\ (updateDataNonEmpty body = true -> statusCode r.1 = 200 ->
      exists stored,
        inquiries r.2 !! id = Some stored
        /\ Inquiry.notes stored
           = Inquiry.notes inquiry
             ++ [Inquiry.mkNote ("Inquiry updated: " +:+ rendered) user true
                   now])
  /\ (exists stored,
        inquiries r.2 !! id = Some stored
        /\ Inquiry.convertedTo stored = Inquiry.convertedTo inquiry
        /\ Inquiry.inquiryNumber stored = Inquiry.inquiryNumber inquiry
        /\ Inquiry.communications stored = Inquiry.communications inquiry
        /\ Inquiry.email stored = Inquiry.email inquiry
        /\ Inquiry.inquiryDate stored = Inquiry.inquiryDate inquiry)
  /\ (forall id', id' <> id -> inquiries r.2 !! id' = inquiries db !! id')
  /\ customers r.2 = customers db
  /\ products r.2 = products db
  /\ orders r.2 = orders db.
Proof.
  intros Hi. cbn zeta. split; [|split].
  - intros Hempty. unfold putInquiry.
    rewrite (updateDataValid_empty _ Hempty), Hi, Hempty. cbn [negb fst snd].
    split; [done|]. rewrite applyUpdate_empty by done.
    rewrite insert_id by done. by destruct db.
  - intros Hnonempty. unfold putInquiry. rewrite Hi, Hnonempty.
    destruct (updateDataValid body); cbn [negb]; [|done].
    unfold Inquiry.save. destruct (Inquiry.validate _); [done|].
    intros _. cbn [fst snd inquiries with_inquiries].
    eexists. rewrite lookup_insert_eq. split; [done|]. done.
  - unfold putInquiry. rewrite Hi.
    destruct (updateDataValid body); cbn [negb];
      [|split; [by exists inquiry|done]].
    destruct (updateDataNonEmpty body).
    + unfold Inquiry.save. destruct (Inquiry.validate _);
        cbn [fst snd inquiries with_inquiries customers products orders].
      * split; [|split; [|done]].
        -- eexists. rewrite lookup_insert_eq. split; [done|].
           by repeat split.
        -- intros id' Hne. by rewrite lookup_insert_ne.
      * split; [|split; [|done]].
        -- eexists. rewrite lookup_insert_eq. split; [done|].
           by repeat split.
        -- intros id' Hne. by rewrite !lookup_insert_ne.
    + cbn [fst snd inquiries with_inquiries customers products orders].
      split; [|split; [|done]].
      * eexists. rewrite lookup_insert_eq. split; [done|]. by repeat split.
      * intros id' Hne. by rewrite lookup_insert_ne.
Qed.

Lemma putInquiry_audit_witness :
  exists stored,
    inquiries
      (putInquiry Sample.acmeDb 1 (Sample.statusBody "quoted")
         "status: quoted" Sample.staff Sample.jan16).2 !! 1%positive
    = Some stored
    /\ Inquiry.notes stored
       = Inquiry.notes Sample.acme
         ++ [Inquiry.mkNote "Inquiry updated: status: quoted" Sample.staff true
               Sample.jan16].
Proof.
  apply (proj1 (proj2 (putInquiry_audit Sample.acmeDb 1
                         (Sample.statusBody "quoted") "status: quoted"
                         Sample.staff Sample.jan16 Sample.acme eq_refl)));
    reflexivity.
Defined.

End PutInquiryFacts.
